(** * ArchSet backend: the offline-first synchronisation engine

    A shallow embedding of [backend/app/services/sync_service.py]
    ([SyncService.sync_notes], [SyncService.sync_folders]), of the endpoint
    [backend/app/routers/sync.py] ([sync_data]) with the request schemas of
    [backend/app/schemas], and of [delete_folder] in
    [backend/app/routers/folders.py], over the tables declared in
    [backend/app/models].

    Conventions.
    - A [datetime] is an integer count of microseconds (naive UTC), so that
      [>] on datetimes is [>] on [Z].  Every [datetime.utcnow()] the code
      reads is an argument of the function that reads it.
    - A table is a finite map from its primary key ([id], a string) to its
      rows.  The failures of the store that are modelled are those of the
      constraints between rows: a flush raises [IntegrityError] when an
      INSERT repeats a primary key or when a written [notes.folder_id]
      names no row of [folders].  The sizes of the string columns are not
      modelled, and the owner of a call is a row of [users]; the statements
      that say exactly when an endpoint fails assume rows that the columns
      take ([note_columns_take], [folder_columns_take]).
    - The file system is the set of paths that exist, with the set of paths
      on which [os.remove] raises [OSError]. *)

From Stdlib Require Import ZArith String List Permutation Lia.
From stdpp Require Import base tactics option list gmap strings sets fin_maps.

Local Open Scope Z_scope.

Abbreviation datetime := Z (only parsing).

(** ** Python values *)

Module Py.

(** Truth value of a [str]: the empty string is false. *)
Definition truthy (s : string) : bool :=
  match s with
  | EmptyString => false
  | String _ _ => true
  end.

(** [a or b] on strings. *)
Definition or_else (a b : string) : string := if truthy a then a else b.

End Py.

(** ** Tables: [models/note.py], [models/folder.py] *)

Module Note.
Record t := Build {
  id : string;
  user_id : string;
  folder_id : option string;
  title : string;
  content : string;
  audio_path : option string;
  date : datetime;
  created_at : datetime;
  updated_at : datetime;
  synced_at : option datetime;
  is_deleted : bool
}.
End Note.

Module Folder.
Record t := Build {
  id : string;
  user_id : string;
  name : string;
  color : string;
  created_at : datetime;
  updated_at : datetime;
  is_deleted : bool
}.
End Folder.

(** ** Request schemas: [schemas/note.py], [schemas/folder.py] *)

Module NoteSyncItem.
Record t := Build {
  id : string;
  title : string;
  content : string;
  folder_id : option string;
  audio_path : option string;
  date : datetime;
  updated_at : datetime;
  is_deleted : bool
}.
End NoteSyncItem.

Module FolderSyncItem.
Record t := Build {
  id : string;
  name : string;
  color : string;
  updated_at : datetime;
  is_deleted : bool
}.
End FolderSyncItem.

Module SyncRequest.
Record t := Build {
  notes : list NoteSyncItem.t;
  folders : list FolderSyncItem.t;
  last_sync_at : option datetime
}.
End SyncRequest.

(** [NoteResponse] and [FolderResponse] are built with [model_validate] from
    a row and carry each column of it: a response is written as the row. *)
Module SyncResponse.
Record t := Build {
  notes : list Note.t;
  folders : list Folder.t;
  sync_timestamp : datetime
}.
End SyncResponse.

(** The JSON body before validation: a key that is missing is [None]. *)
Module RawNote.
Record t := Build {
  id : option string;
  title : option string;
  content : option string;
  folder_id : option string;
  audio_path : option string;
  date : option datetime;
  updated_at : option datetime;
  is_deleted : option bool
}.
End RawNote.

Module RawFolder.
Record t := Build {
  id : option string;
  name : option string;
  color : option string;
  updated_at : option datetime;
  is_deleted : option bool
}.
End RawFolder.

Module RawSyncRequest.
Record t := Build {
  notes : list RawNote.t;
  folders : list RawFolder.t;
  last_sync_at : option datetime
}.
End RawSyncRequest.

(** ** Failures *)

Inductive Error :=
  | IntegrityError   (* raised by flush: primary key or foreign key violated *)
  | NotFound         (* HTTPException 404 *)
  | ValidationError. (* request body rejected by the schema, 422 *)

Inductive Result (A : Type) : Type :=
  | Ok (a : A)
  | Err (e : Error).
Arguments Ok {A} a.
Arguments Err {A} e.

#[global] Instance Result_ret : MRet Result := fun A a => Ok a.
#[global] Instance Result_bind : MBind Result := fun A B k r =>
  match r with
  | Ok a => k a
  | Err e => Err e
  end.

Definition is_Ok {A} (r : Result A) : bool :=
  match r with
  | Ok _ => true
  | Err _ => false
  end.

(** ** The file system *)

Record FileSystem := {
  files : gset string;
  unremovable : gset string
}.

Definition os_path_exists (fs : FileSystem) (p : string) : bool :=
  bool_decide (p ∈ files fs).

(** [os.remove(p)]; [None] is [OSError]. *)
Definition os_remove (fs : FileSystem) (p : string) : option FileSystem :=
  if bool_decide (p ∈ files fs) && negb (bool_decide (p ∈ unremovable fs))
  then Some {| files := files fs ∖ {[p]}; unremovable := unremovable fs |}
  else None.

(** ** The record store *)

Record DB := {
  notes : gmap string Note.t;
  folders : gmap string Folder.t
}.

(** Modelled from the spec: [backend/app/database.py], which builds the
    session of a request, is not among the sources.  The record store is
    taken as the specification describes it (point lookup, scan, insert and
    update within one atomic unit of work): a statement sees the writes made
    before it in the same unit of work, so that a constraint violated by a
    write is raised before the next statement runs; nothing is stored
    before the commit; a unit of work that raises stores nothing; the rows
    read before the commit can be read after it.

    A session is a unit of work: [working] is what its statements see and
    write, [committed] is what is stored. *)
Record Session := {
  committed : DB;
  working : DB
}.

Definition begin (db : DB) : Session := {| committed := db; working := db |}.

Definition commit (s : Session) : Session :=
  {| committed := working s; working := working s |}.

Definition set_working (s : Session) (db : DB) : Session :=
  {| committed := committed s; working := db |}.

(** [select(Note).where(Note.id == id, Note.user_id == user)] followed by
    [scalar_one_or_none()]. *)
Definition select_note (db : DB) (id user : string) : option Note.t :=
  match notes db !! id with
  | Some n => if decide (Note.user_id n = user) then Some n else None
  | None => None
  end.

Definition select_folder (db : DB) (id user : string) : option Folder.t :=
  match folders db !! id with
  | Some f => if decide (Folder.user_id f = user) then Some f else None
  | None => None
  end.

(** [ForeignKey("folders.id")] on [notes.folder_id]. *)
Definition folder_fk (db : DB) (folder_id : option string) : bool :=
  match folder_id with
  | Some k => bool_decide (is_Some (folders db !! k))
  | None => true
  end.

(** [db.add(n)] and the INSERT of the flush that follows. *)
Definition insert_note (db : DB) (n : Note.t) : Result DB :=
  if bool_decide (is_Some (notes db !! Note.id n)) then Err IntegrityError
  else if negb (folder_fk db (Note.folder_id n)) then Err IntegrityError
  else Ok {| notes := <[Note.id n := n]> (notes db); folders := folders db |}.

(** The UPDATE that the flush emits for the row loaded from key [id] as
    [old], whose attributes were assigned to give [new]; the foreign key is
    checked when [folder_id] is among the columns written. *)
Definition update_note (db : DB) (id : string) (old new : Note.t) : Result DB :=
  if bool_decide (Note.folder_id new = Note.folder_id old)
     || folder_fk db (Note.folder_id new)
  then Ok {| notes := <[id := new]> (notes db); folders := folders db |}
  else Err IntegrityError.

Definition insert_folder (db : DB) (f : Folder.t) : Result DB :=
  if bool_decide (is_Some (folders db !! Folder.id f)) then Err IntegrityError
  else Ok {| notes := notes db; folders := <[Folder.id f := f]> (folders db) |}.

(** The UPDATE of the folder loaded from key [id]. *)
Definition update_folder (db : DB) (id : string) (new : Folder.t) : DB :=
  {| notes := notes db; folders := <[id := new]> (folders db) |}.

(** [result.scalars().all()], in the order the database returns the rows. *)
Definition scalars_all {A} (m : gmap string A) : list A := (map_to_list m).*2.

(** ** [SyncService.sync_notes] *)

(** The state of the loop over [client_notes]: the session's view of the
    tables, the file system, and [notes_to_index].  The list holds
    references to rows of the session; a row is named by the key it is
    stored under, so that what is read from it later is what the row holds
    then. *)
Record NotesPass := {
  np_db : DB;
  np_fs : FileSystem;
  notes_to_index : list string
}.

(** Lines 65-72: the assignments to [existing_note]. *)
Definition assign_client_note (existing_note : Note.t)
    (client_note : NoteSyncItem.t) (sync_time : datetime) : Note.t :=
  {| Note.id := Note.id existing_note;
     Note.user_id := Note.user_id existing_note;
     Note.folder_id := NoteSyncItem.folder_id client_note;
     Note.title := NoteSyncItem.title client_note;
     Note.content := NoteSyncItem.content client_note;
     Note.audio_path := NoteSyncItem.audio_path client_note;
     Note.date := NoteSyncItem.date client_note;
     Note.created_at := Note.created_at existing_note;
     Note.updated_at := NoteSyncItem.updated_at client_note;
     Note.synced_at := Some sync_time;
     Note.is_deleted := NoteSyncItem.is_deleted client_note |}.

Definition clear_audio_path (n : Note.t) : Note.t :=
  {| Note.id := Note.id n;
     Note.user_id := Note.user_id n;
     Note.folder_id := Note.folder_id n;
     Note.title := Note.title n;
     Note.content := Note.content n;
     Note.audio_path := None;
     Note.date := Note.date n;
     Note.created_at := Note.created_at n;
     Note.updated_at := Note.updated_at n;
     Note.synced_at := Note.synced_at n;
     Note.is_deleted := Note.is_deleted n |}.

(** Lines 76-81: remove the media file of a note that the sync marks as
    deleted, and clear the path when the file was removed. *)
Definition remove_media (fs : FileSystem) (n : Note.t) : Note.t * FileSystem :=
  match Note.audio_path n with
  | Some p =>
      if Py.truthy p && os_path_exists fs p then
        match os_remove fs p with
        | Some fs' => (clear_audio_path n, fs')
        | None => (n, fs)
        end
      else (n, fs)
  | None => (n, fs)
  end.

(** Lines 89-100: [Note(...)]; [created_at] takes its column default when
    the row is inserted. *)
Definition new_note (user : string) (client_note : NoteSyncItem.t)
    (sync_time default_now : datetime) : Note.t :=
  {| Note.id := NoteSyncItem.id client_note;
     Note.user_id := user;
     Note.folder_id := NoteSyncItem.folder_id client_note;
     Note.title := NoteSyncItem.title client_note;
     Note.content := NoteSyncItem.content client_note;
     Note.audio_path := NoteSyncItem.audio_path client_note;
     Note.date := NoteSyncItem.date client_note;
     Note.created_at := default_now;
     Note.updated_at := NoteSyncItem.updated_at client_note;
     Note.synced_at := Some sync_time;
     Note.is_deleted := NoteSyncItem.is_deleted client_note |}.

(** The body of the loop, lines 53-103. *)
Definition sync_note (user : string) (sync_time default_now : datetime)
    (st : NotesPass) (client_note : NoteSyncItem.t) : Result NotesPass :=
  match select_note (np_db st) (NoteSyncItem.id client_note) user with
  | Some existing_note =>
      if NoteSyncItem.updated_at client_note >? Note.updated_at existing_note then
        let assigned := assign_client_note existing_note client_note sync_time in
        if NoteSyncItem.is_deleted client_note then
          let '(cleaned, fs') := remove_media (np_fs st) assigned in
          db' ← update_note (np_db st) (NoteSyncItem.id client_note)
                  existing_note cleaned;
          Ok {| np_db := db'; np_fs := fs';
                notes_to_index := notes_to_index st |}
        else
          db' ← update_note (np_db st) (NoteSyncItem.id client_note)
                  existing_note assigned;
          Ok {| np_db := db'; np_fs := np_fs st;
                notes_to_index :=
                  if Py.truthy (NoteSyncItem.content client_note)
                     || Py.truthy (NoteSyncItem.title client_note)
                  then notes_to_index st ++ [NoteSyncItem.id client_note]
                  else notes_to_index st |}
      else Ok st
  | None =>
      if NoteSyncItem.is_deleted client_note then Ok st
      else
        let n := new_note user client_note sync_time default_now in
        db' ← insert_note (np_db st) n;
        Ok {| np_db := db'; np_fs := np_fs st;
              notes_to_index :=
                if Py.truthy (Note.content n) || Py.truthy (Note.title n)
                then notes_to_index st ++ [Note.id n]
                else notes_to_index st |}
  end.

(** [for client_note in client_notes: ...], left to right. *)
Fixpoint sync_notes_loop (user : string) (sync_time default_now : datetime)
    (st : NotesPass) (client_notes : list NoteSyncItem.t) : Result NotesPass :=
  match client_notes with
  | [] => Ok st
  | client_note :: rest =>
      st' ← sync_note user sync_time default_now st client_note;
      sync_notes_loop user sync_time default_now st' rest
  end.

(** The keyword arguments of [rag_service.sync_diary_to_vector_db]. *)
Record IndexTask := {
  task_note_id : string;
  task_text : string;
  task_user_id : string;
  task_title : string
}.

Definition Untitled : string := "Untitled".

Definition index_task (user : string) (note : Note.t) : IndexTask :=
  {| task_note_id := Note.id note;
     task_text := Note.content note;
     task_user_id := user;
     task_title := Py.or_else (Note.title note) Untitled |}.

(** The task queued for one element of [notes_to_index], if any. *)
Definition index_task_for (db : DB) (user : string) (i : string) : option IndexTask :=
  match notes db !! i with
  | Some note =>
      if Py.truthy (Note.content note) then Some (index_task user note) else None
  | None => None
  end.

(** Lines 108-117.  [background_tasks] is [None] or the tasks already
    queued on the [BackgroundTasks] object (an object that is always true). *)
Definition trigger_indexing (background_tasks : option (list IndexTask))
    (db : DB) (user : string) (notes_to_index : list string)
    : option (list IndexTask) :=
  match background_tasks with
  | Some tasks => Some (tasks ++ omap (index_task_for db user) notes_to_index)
  | None => None
  end.

(** The [where] clause of lines 124-129; a NULL [synced_at] compares to
    nothing. *)
Definition note_changed_since (last_sync_at : datetime) (n : Note.t) : bool :=
  (Note.updated_at n >? last_sync_at)
  || match Note.synced_at n with
     | Some t => t >? last_sync_at
     | None => false
     end.

(** Lines 120-132. *)
Definition select_server_notes (db : DB) (user : string)
    (last_sync_at : option datetime) : list Note.t :=
  filter (λ n : Note.t,
            bool_decide (Note.user_id n = user)
            && match last_sync_at with
               | Some t => note_changed_since t n
               | None => true
               end)
         (scalars_all (notes db)).

Record NotesResult := {
  nr_session : Session;
  nr_fs : FileSystem;
  nr_background_tasks : option (list IndexTask);
  nr_notes : list Note.t
}.

Definition sync_notes (s : Session) (fs : FileSystem) (user : string)
    (client_notes : list NoteSyncItem.t) (last_sync_at : option datetime)
    (background_tasks : option (list IndexTask))
    (sync_time default_now : datetime) : Result NotesResult :=
  st ← sync_notes_loop user sync_time default_now
         {| np_db := working s; np_fs := fs; notes_to_index := [] |}
         client_notes;
  let background_tasks' :=
    trigger_indexing background_tasks (np_db st) user (notes_to_index st) in
  let server_notes := select_server_notes (np_db st) user last_sync_at in
  Ok {| nr_session := commit (set_working s (np_db st));
        nr_fs := np_fs st;
        nr_background_tasks := background_tasks';
        nr_notes := server_notes |}.

(** ** [SyncService.sync_folders] *)

(** Lines 169-172: the assignments to [existing_folder]. *)
Definition assign_client_folder (existing_folder : Folder.t)
    (client_folder : FolderSyncItem.t) : Folder.t :=
  {| Folder.id := Folder.id existing_folder;
     Folder.user_id := Folder.user_id existing_folder;
     Folder.name := FolderSyncItem.name client_folder;
     Folder.color := FolderSyncItem.color client_folder;
     Folder.created_at := Folder.created_at existing_folder;
     Folder.updated_at := FolderSyncItem.updated_at client_folder;
     Folder.is_deleted := FolderSyncItem.is_deleted client_folder |}.

(** Lines 175-182: [Folder(...)]. *)
Definition new_folder (user : string) (client_folder : FolderSyncItem.t)
    (default_now : datetime) : Folder.t :=
  {| Folder.id := FolderSyncItem.id client_folder;
     Folder.user_id := user;
     Folder.name := FolderSyncItem.name client_folder;
     Folder.color := FolderSyncItem.color client_folder;
     Folder.created_at := default_now;
     Folder.updated_at := FolderSyncItem.updated_at client_folder;
     Folder.is_deleted := FolderSyncItem.is_deleted client_folder |}.

(** The body of the loop, lines 159-183. *)
Definition sync_folder (user : string) (default_now : datetime)
    (db : DB) (client_folder : FolderSyncItem.t) : Result DB :=
  match select_folder db (FolderSyncItem.id client_folder) user with
  | Some existing_folder =>
      if FolderSyncItem.updated_at client_folder >? Folder.updated_at existing_folder
      then Ok (update_folder db (FolderSyncItem.id client_folder)
                 (assign_client_folder existing_folder client_folder))
      else Ok db
  | None =>
      if FolderSyncItem.is_deleted client_folder then Ok db
      else insert_folder db (new_folder user client_folder default_now)
  end.

Fixpoint sync_folders_loop (user : string) (default_now : datetime)
    (db : DB) (client_folders : list FolderSyncItem.t) : Result DB :=
  match client_folders with
  | [] => Ok db
  | client_folder :: rest =>
      db' ← sync_folder user default_now db client_folder;
      sync_folders_loop user default_now db' rest
  end.

(** Lines 188-194: the [where] clause compares [updated_at] only. *)
Definition select_server_folders (db : DB) (user : string)
    (last_sync_at : option datetime) : list Folder.t :=
  filter (λ f : Folder.t,
            bool_decide (Folder.user_id f = user)
            && match last_sync_at with
               | Some t => Folder.updated_at f >? t
               | None => true
               end)
         (scalars_all (folders db)).

Record FoldersResult := {
  fr_session : Session;
  fr_folders : list Folder.t
}.

(** [sync_time] of line 155 is read and not used. *)
Definition sync_folders (s : Session) (user : string)
    (client_folders : list FolderSyncItem.t) (last_sync_at : option datetime)
    (default_now : datetime) : Result FoldersResult :=
  db ← sync_folders_loop user default_now (working s) client_folders;
  let server_folders := select_server_folders db user last_sync_at in
  Ok {| fr_session := commit (set_working s db);
        fr_folders := server_folders |}.

(** ** The endpoint: [routers/sync.py] *)

(** The readings of the clock during one call. *)
Record Clock := {
  notes_sync_time : datetime;     (* line 48 of the service *)
  notes_default_now : datetime;   (* column defaults of the notes inserted *)
  folders_default_now : datetime; (* column defaults of the folders inserted *)
  response_now : datetime         (* line 60 of the router *)
}.

(** What a call leaves behind and what it answers.  An exception leaves the
    session without a commit; the file system is not part of it. *)
Record Outcome := {
  stored : DB;
  out_fs : option FileSystem;
  out_tasks : list IndexTask;
  response : Result SyncResponse.t
}.

Definition sync_data (db : DB) (fs : FileSystem) (current_user : string)
    (sync_request : SyncRequest.t) (clock : Clock) : Outcome :=
  let s := begin db in
  match sync_notes s fs current_user (SyncRequest.notes sync_request)
          (SyncRequest.last_sync_at sync_request) (Some [])
          (notes_sync_time clock) (notes_default_now clock) with
  | Err e =>
      {| stored := committed s; out_fs := None; out_tasks := [];
         response := Err e |}
  | Ok nr =>
      match sync_folders (nr_session nr) current_user
              (SyncRequest.folders sync_request)
              (SyncRequest.last_sync_at sync_request)
              (folders_default_now clock) with
      | Err e =>
          {| stored := committed (nr_session nr); out_fs := Some (nr_fs nr);
             out_tasks := []; response := Err e |}
      | Ok fr =>
          {| stored := committed (fr_session fr); out_fs := Some (nr_fs nr);
             out_tasks := default [] (nr_background_tasks nr);
             response :=
               Ok {| SyncResponse.notes := nr_notes nr;
                     SyncResponse.folders := fr_folders fr;
                     SyncResponse.sync_timestamp := response_now clock |} |}
      end
  end.

(** *** Validation of the request body against [SyncRequest] *)

(** [NoteSyncItem]: [id], [date] and [updated_at] are required, the other
    fields have defaults. *)
Definition validate_note (raw : RawNote.t) : option NoteSyncItem.t :=
  id ← RawNote.id raw;
  date ← RawNote.date raw;
  updated_at ← RawNote.updated_at raw;
  Some {| NoteSyncItem.id := id;
          NoteSyncItem.title := default EmptyString (RawNote.title raw);
          NoteSyncItem.content := default EmptyString (RawNote.content raw);
          NoteSyncItem.folder_id := RawNote.folder_id raw;
          NoteSyncItem.audio_path := RawNote.audio_path raw;
          NoteSyncItem.date := date;
          NoteSyncItem.updated_at := updated_at;
          NoteSyncItem.is_deleted := default false (RawNote.is_deleted raw) |}.

Definition default_color : string := "#E8B731".

(** [FolderSyncItem]: [id], [name] and [updated_at] are required. *)
Definition validate_folder (raw : RawFolder.t) : option FolderSyncItem.t :=
  id ← RawFolder.id raw;
  name ← RawFolder.name raw;
  updated_at ← RawFolder.updated_at raw;
  Some {| FolderSyncItem.id := id;
          FolderSyncItem.name := name;
          FolderSyncItem.color := default default_color (RawFolder.color raw);
          FolderSyncItem.updated_at := updated_at;
          FolderSyncItem.is_deleted := default false (RawFolder.is_deleted raw) |}.

(** The body is one [SyncRequest]: [notes: List[NoteSyncItem]] and
    [folders: List[FolderSyncItem]] are valid when each element is. *)
Definition validate_sync_request (raw : RawSyncRequest.t) : option SyncRequest.t :=
  notes ← mapM validate_note (RawSyncRequest.notes raw);
  folders ← mapM validate_folder (RawSyncRequest.folders raw);
  Some {| SyncRequest.notes := notes;
          SyncRequest.folders := folders;
          SyncRequest.last_sync_at := RawSyncRequest.last_sync_at raw |}.

(** [POST /sync]: the handler runs on a body that validates, and the
    framework answers 422 without calling it otherwise. *)
Definition post_sync (db : DB) (fs : FileSystem) (current_user : string)
    (body : RawSyncRequest.t) (clock : Clock) : Outcome :=
  match validate_sync_request body with
  | Some sync_request => sync_data db fs current_user sync_request clock
  | None =>
      {| stored := db; out_fs := Some fs; out_tasks := [];
         response := Err ValidationError |}
  end.

(** ** [delete_folder]: [routers/folders.py] *)

(** [note.folder_id = None]; the UPDATE does not write [updated_at], which
    takes its [onupdate] value. *)
Definition unfile_note (onupdate_now : datetime) (n : Note.t) : Note.t :=
  {| Note.id := Note.id n;
     Note.user_id := Note.user_id n;
     Note.folder_id := None;
     Note.title := Note.title n;
     Note.content := Note.content n;
     Note.audio_path := Note.audio_path n;
     Note.date := Note.date n;
     Note.created_at := Note.created_at n;
     Note.updated_at := onupdate_now;
     Note.synced_at := Note.synced_at n;
     Note.is_deleted := Note.is_deleted n |}.

(** Lines 156-164: the notes selected by [Note.folder_id == folder_id] and
    [Note.user_id == current_user.id] are moved to no folder. *)
Definition move_notes_out (db : DB) (folder_id current_user : string)
    (onupdate_now : datetime) : DB :=
  {| notes :=
       (λ n : Note.t,
          if bool_decide (Note.folder_id n = Some folder_id
                          ∧ Note.user_id n = current_user)
          then unfile_note onupdate_now n else n) <$> notes db;
     folders := folders db |}.

(** [db.delete(folder)]: the flush sets to NULL the [folder_id] of the notes
    that still point to the folder (the relationship [Folder.notes]; the
    column is [ondelete=SET NULL] as well), whoever owns them, and deletes
    the row. *)
Definition db_delete_folder (db : DB) (folder_id : string)
    (onupdate_now : datetime) : DB :=
  {| notes :=
       (λ n : Note.t,
          if bool_decide (Note.folder_id n = Some folder_id)
          then unfile_note onupdate_now n else n) <$> notes db;
     folders := delete folder_id (folders db) |}.

(** Lines 169-170. *)
Definition soft_delete_folder (folder : Folder.t) (now : datetime) : Folder.t :=
  {| Folder.id := Folder.id folder;
     Folder.user_id := Folder.user_id folder;
     Folder.name := Folder.name folder;
     Folder.color := Folder.color folder;
     Folder.created_at := Folder.created_at folder;
     Folder.updated_at := now;
     Folder.is_deleted := true |}.

#[global] Instance Folder_eq_dec : EqDecision Folder.t.
Proof. solve_decision. Defined.

Definition folder_with_updated_at (f : Folder.t) (t : datetime) : Folder.t :=
  {| Folder.id := Folder.id f;
     Folder.user_id := Folder.user_id f;
     Folder.name := Folder.name f;
     Folder.color := Folder.color f;
     Folder.created_at := Folder.created_at f;
     Folder.updated_at := t;
     Folder.is_deleted := Folder.is_deleted f |}.

(** The row that a flush leaves for a row loaded as [old] whose attributes
    were assigned to give [new].  The UPDATE writes the columns whose value
    changed; [updated_at] takes its [onupdate] value, a reading of the
    clock, when the UPDATE does not write it; there is no UPDATE when no
    value changed. *)
Definition flushed_folder (old new : Folder.t) (onupdate_now : datetime)
    : Folder.t :=
  if decide (new = old) then old
  else if decide (Folder.updated_at new = Folder.updated_at old)
       then folder_with_updated_at new onupdate_now
       else new.

(** The flush of a session that loaded the folder stored under [id] as
    [old] and assigned its attributes to give [new]. *)
Definition flush_folder (db : DB) (id : string) (old new : Folder.t)
    (onupdate_now : datetime) : DB :=
  update_folder db id (flushed_folder old new onupdate_now).

(** Lines 141-170: what the handler does before it commits.  The
    assignments of lines 169-170 reach the row through the flush. *)
Definition delete_folder_changes (db : DB) (folder_id : string)
    (hard_delete : bool) (current_user : string)
    (now onupdate_now : datetime) : Result DB :=
  match select_folder db folder_id current_user with
  | None => Err NotFound
  | Some folder =>
      let db1 := move_notes_out db folder_id current_user onupdate_now in
      if hard_delete then Ok (db_delete_folder db1 folder_id onupdate_now)
      else Ok (flush_folder db1 folder_id folder
                 (soft_delete_folder folder now) onupdate_now)
  end.

(** The handler: the changes, then the one [db.commit()] of line 172. *)
Definition delete_folder (s : Session) (folder_id : string)
    (hard_delete : bool) (current_user : string)
    (now onupdate_now : datetime) : Result Session :=
  db ← delete_folder_changes (working s) folder_id hard_delete current_user
         now onupdate_now;
  Ok (commit (set_working s db)).

(** * The notes and folders endpoints

    [backend/app/routers/notes.py] and the other handlers of
    [backend/app/routers/folders.py], with the request schemas [NoteCreate],
    [NoteUpdate], [FolderCreate] and [FolderUpdate], and the script
    [backend/reindex_notes.py].

    A handler is a function of the stored tables: its session begins on
    them, and it returns the tables that its [db.commit()] stores, with
    what it answers.  A handler that raises returns [Err]: nothing is
    committed and the stored tables are the ones it was given.
    [db.refresh(row)] reads the row as it is stored, and the response is
    that row. *)

From stdpp Require Import sorting.

Local Open Scope Z_scope.

Module NoteCreate.
Record t := Build {
  title : string;
  content : string;
  folder_id : option string;
  audio_path : option string;
  date : option datetime;
  id : option string
}.
End NoteCreate.

(** A field that the body leaves out, or gives as [null], is [None]. *)
Module NoteUpdate.
Record t := Build {
  title : option string;
  content : option string;
  folder_id : option string;
  audio_path : option string;
  date : option datetime
}.
End NoteUpdate.

Module FolderCreate.
Record t := Build {
  name : string;
  color : string;
  id : option string
}.
End FolderCreate.

Module FolderUpdate.
Record t := Build {
  name : option string;
  color : option string
}.
End FolderUpdate.

#[global] Instance Note_eq_dec : EqDecision Note.t.
Proof. solve_decision. Defined.

(** ** What a flush writes *)

(** [id=data.id if data.id else None]: without an id, or with an empty one,
    the column takes its default, [str(uuid.uuid4())]. *)
Definition id_or_default (id : option string) (uuid4 : string) : string :=
  match id with
  | Some i => if Py.truthy i then i else uuid4
  | None => uuid4
  end.

Definition note_with_updated_at (n : Note.t) (t : datetime) : Note.t :=
  {| Note.id := Note.id n;
     Note.user_id := Note.user_id n;
     Note.folder_id := Note.folder_id n;
     Note.title := Note.title n;
     Note.content := Note.content n;
     Note.audio_path := Note.audio_path n;
     Note.date := Note.date n;
     Note.created_at := Note.created_at n;
     Note.updated_at := t;
     Note.synced_at := Note.synced_at n;
     Note.is_deleted := Note.is_deleted n |}.

(** The row that a flush leaves for a note loaded as [old] whose attributes
    were assigned to give [new], as [flushed_folder] for a folder. *)
Definition flushed_note (old new : Note.t) (onupdate_now : datetime) : Note.t :=
  if decide (new = old) then old
  else if decide (Note.updated_at new = Note.updated_at old)
       then note_with_updated_at new onupdate_now
       else new.

(** The flush of a session that loaded the row stored under [id] as [old]
    and assigned its attributes to give [new]. *)
Definition flush_note (db : DB) (id : string) (old new : Note.t)
    (onupdate_now : datetime) : Result DB :=
  update_note db id old (flushed_note old new onupdate_now).

(** ** The values that the columns take *)






(** ** [routers/notes.py] *)

(** What [create_note] reads from its environment: the column default of
    [id], and the clock at lines 71 and 72 and for the column defaults of
    [created_at] and [updated_at]. *)
Record NoteEnv := {
  note_uuid4 : string;
  date_utcnow : datetime;
  synced_utcnow : datetime;
  created_at_default : datetime;
  updated_at_default : datetime
}.

(** [Note.date.desc()]: [a] may come before [b]. *)
Definition date_desc (a b : Note.t) : Prop := Note.date b ≤ Note.date a.

#[global] Instance date_desc_dec : RelDecision date_desc :=
  λ a b, decide (Note.date b ≤ Note.date a).

Module NotesRouter.

(** The [where] clauses of lines 36-42. *)
Definition listed (include_deleted : bool) (folder_id : option string)
    (current_user : string) (n : Note.t) : bool :=
  bool_decide (Note.user_id n = current_user)
  && (include_deleted || negb (Note.is_deleted n))
  && match folder_id with
     | Some f => bool_decide (Note.folder_id n = Some f)
     | None => true
     end.

(** Lines 36-47.  [order_by(Note.date.desc())]: the rows selected, sorted
    by [date] from the latest. *)
Definition list_notes (db : DB) (include_deleted : bool)
    (folder_id : option string) (current_user : string) : list Note.t :=
  merge_sort date_desc
    (filter (λ n : Note.t, listed include_deleted folder_id current_user n)
            (scalars_all (notes db))).

(** Lines 64-73: [Note(...)], with the column defaults of the INSERT. *)
Definition created_note (note_data : NoteCreate.t) (current_user : string)
    (env : NoteEnv) : Note.t :=
  {| Note.id := id_or_default (NoteCreate.id note_data) (note_uuid4 env);
     Note.user_id := current_user;
     Note.folder_id := NoteCreate.folder_id note_data;
     Note.title := NoteCreate.title note_data;
     Note.content := NoteCreate.content note_data;
     Note.audio_path := NoteCreate.audio_path note_data;
     Note.date := default (date_utcnow env) (NoteCreate.date note_data);
     Note.created_at := created_at_default env;
     Note.updated_at := updated_at_default env;
     Note.synced_at := Some (synced_utcnow env);
     Note.is_deleted := false |}.

(** The keyword arguments of lines 83-86 and 160-163: the title is passed
    as it is stored. *)
Definition note_task (current_user : string) (note : Note.t) : IndexTask :=
  {| task_note_id := Note.id note;
     task_text := Note.content note;
     task_user_id := current_user;
     task_title := Note.title note |}.

(** Lines 64-89.  The result is the stored tables, the tasks queued on
    [background_tasks], and the response. *)
Definition create_note (db : DB) (note_data : NoteCreate.t)
    (background_tasks : list IndexTask) (current_user : string)
    (env : NoteEnv) : Result (DB * list IndexTask * Note.t) :=
  let note := created_note note_data current_user env in
  db' ← insert_note db note;
  Ok (db',
      if Py.truthy (Note.content note)
      then background_tasks ++ [note_task current_user note]
      else background_tasks,
      note).

(** Lines 99-113. *)
Definition get_note (db : DB) (note_id current_user : string) : Result Note.t :=
  match select_note db note_id current_user with
  | Some note => Ok note
  | None => Err NotFound
  end.

(** Lines 140-151: the assignments to [note]. *)
Definition assign_note_data (note : Note.t) (note_data : NoteUpdate.t)
    (now : datetime) : Note.t :=
  {| Note.id := Note.id note;
     Note.user_id := Note.user_id note;
     Note.folder_id :=
       match NoteUpdate.folder_id note_data with
       | Some f => Some f
       | None => Note.folder_id note
       end;
     Note.title := default (Note.title note) (NoteUpdate.title note_data);
     Note.content := default (Note.content note) (NoteUpdate.content note_data);
     Note.audio_path :=
       match NoteUpdate.audio_path note_data with
       | Some p => Some p
       | None => Note.audio_path note
       end;
     Note.date := default (Note.date note) (NoteUpdate.date note_data);
     Note.created_at := Note.created_at note;
     Note.updated_at := Note.updated_at note;
     Note.synced_at := Some now;
     Note.is_deleted := Note.is_deleted note |}.

(** Lines 125-166.  [now] is the clock at line 151. *)
Definition update_note (db : DB) (note_id : string) (note_data : NoteUpdate.t)
    (background_tasks : list IndexTask) (current_user : string)
    (now onupdate_now : datetime) : Result (DB * list IndexTask * Note.t) :=
  match select_note db note_id current_user with
  | None => Err NotFound
  | Some note =>
      let assigned := assign_note_data note note_data now in
      let row := flushed_note note assigned onupdate_now in
      db' ← flush_note db note_id note assigned onupdate_now;
      Ok (db',
          if bool_decide (is_Some (NoteUpdate.content note_data)
                          ∨ is_Some (NoteUpdate.title note_data))
          then background_tasks ++ [note_task current_user row]
          else background_tasks,
          row)
  end.

(** Lines 197-201: the recording is removed when it is there, and an
    [OSError] is passed over. *)
Definition remove_audio (fs : FileSystem) (note : Note.t) : FileSystem :=
  match Note.audio_path note with
  | Some p =>
      if Py.truthy p && os_path_exists fs p then
        match os_remove fs p with
        | Some fs' => fs'
        | None => fs
        end
      else fs
  | None => fs
  end.

(** Lines 208-209. *)
Definition soft_delete_note (note : Note.t) (now : datetime) : Note.t :=
  {| Note.id := Note.id note;
     Note.user_id := Note.user_id note;
     Note.folder_id := Note.folder_id note;
     Note.title := Note.title note;
     Note.content := Note.content note;
     Note.audio_path := Note.audio_path note;
     Note.date := Note.date note;
     Note.created_at := Note.created_at note;
     Note.updated_at := now;
     Note.synced_at := Note.synced_at note;
     Note.is_deleted := true |}.

(** [db.delete(note)]: the row stored under [note_id] is deleted. *)
Definition db_delete_note (db : DB) (note_id : string) : DB :=
  {| notes := delete note_id (notes db); folders := folders db |}.

(** Lines 181-211.  The result is the stored tables and the file system. *)
Definition delete_note (db : DB) (fs : FileSystem) (note_id : string)
    (hard_delete : bool) (current_user : string)
    (now onupdate_now : datetime) : Result (DB * FileSystem) :=
  match select_note db note_id current_user with
  | None => Err NotFound
  | Some note =>
      if hard_delete then
        Ok (db_delete_note db note_id, remove_audio fs note)
      else
        db' ← flush_note db note_id note (soft_delete_note note now)
                onupdate_now;
        Ok (db', fs)
  end.

End NotesRouter.

(** ** [routers/folders.py] *)

(** What [create_folder] reads from its environment: the column defaults
    of [id], [created_at] and [updated_at]. *)
Record FolderEnv := {
  folder_uuid4 : string;
  folder_created_at_default : datetime;
  folder_updated_at_default : datetime
}.

(** [Folder.created_at.asc()]: [a] may come before [b]. *)
Definition created_at_asc (a b : Folder.t) : Prop :=
  Folder.created_at a ≤ Folder.created_at b.

#[global] Instance created_at_asc_dec : RelDecision created_at_asc :=
  λ a b, decide (Folder.created_at a ≤ Folder.created_at b).

Module FoldersRouter.

(** The [where] clauses of lines 32-35. *)
Definition listed (include_deleted : bool) (current_user : string)
    (f : Folder.t) : bool :=
  bool_decide (Folder.user_id f = current_user)
  && (include_deleted || negb (Folder.is_deleted f)).

(** Lines 32-42.  [order_by(Folder.created_at.asc())]. *)
Definition list_folders (db : DB) (include_deleted : bool)
    (current_user : string) : list Folder.t :=
  merge_sort created_at_asc
    (filter (λ f : Folder.t, listed include_deleted current_user f)
            (scalars_all (folders db))).

(** Lines 56-61: [Folder(...)], with the column defaults of the INSERT. *)
Definition created_folder (folder_data : FolderCreate.t)
    (current_user : string) (env : FolderEnv) : Folder.t :=
  {| Folder.id := id_or_default (FolderCreate.id folder_data) (folder_uuid4 env);
     Folder.user_id := current_user;
     Folder.name := FolderCreate.name folder_data;
     Folder.color := FolderCreate.color folder_data;
     Folder.created_at := folder_created_at_default env;
     Folder.updated_at := folder_updated_at_default env;
     Folder.is_deleted := false |}.

(** Lines 56-67. *)
Definition create_folder (db : DB) (folder_data : FolderCreate.t)
    (current_user : string) (env : FolderEnv) : Result (DB * Folder.t) :=
  let folder := created_folder folder_data current_user env in
  db' ← insert_folder db folder;
  Ok (db', folder).

(** Lines 77-91. *)
Definition get_folder (db : DB) (folder_id current_user : string)
    : Result Folder.t :=
  match select_folder db folder_id current_user with
  | Some folder => Ok folder
  | None => Err NotFound
  end.

(** Lines 116-119: the assignments to [folder]. *)
Definition assign_folder_data (folder : Folder.t) (folder_data : FolderUpdate.t)
    : Folder.t :=
  {| Folder.id := Folder.id folder;
     Folder.user_id := Folder.user_id folder;
     Folder.name := default (Folder.name folder) (FolderUpdate.name folder_data);
     Folder.color :=
       default (Folder.color folder) (FolderUpdate.color folder_data);
     Folder.created_at := Folder.created_at folder;
     Folder.updated_at := Folder.updated_at folder;
     Folder.is_deleted := Folder.is_deleted folder |}.

(** Lines 102-124. *)
Definition update_folder (db : DB) (folder_id : string)
    (folder_data : FolderUpdate.t) (current_user : string)
    (onupdate_now : datetime) : Result (DB * Folder.t) :=
  match select_folder db folder_id current_user with
  | None => Err NotFound
  | Some folder =>
      let assigned := assign_folder_data folder folder_data in
      Ok (flush_folder db folder_id folder assigned onupdate_now,
          flushed_folder folder assigned onupdate_now)
  end.

End FoldersRouter.

(** ** [reindex_notes.py] *)

(** Lines 18-41: the calls of [rag_service.sync_diary_to_vector_db] that
    [reindex_all_notes] makes, in the order of the rows selected. *)
Definition reindex_all_notes (db : DB) : list IndexTask :=
  omap (λ note : Note.t,
          if Py.truthy (Note.content note)
          then Some (index_task (Note.user_id note) note)
          else None)
       (filter (λ n : Note.t, negb (Note.is_deleted n))
               (scalars_all (notes db))).

(** ** What the statements below speak of *)

(** Every mutable field of a note row holds what the client sent. *)
Definition note_holds_client_payload (row : Note.t) (c : NoteSyncItem.t) : Prop :=
  Note.title row = NoteSyncItem.title c
  ∧ Note.content row = NoteSyncItem.content c
  ∧ Note.folder_id row = NoteSyncItem.folder_id c
  ∧ Note.audio_path row = NoteSyncItem.audio_path c
  ∧ Note.date row = NoteSyncItem.date c
  ∧ Note.is_deleted row = NoteSyncItem.is_deleted c
  ∧ Note.updated_at row = NoteSyncItem.updated_at c.

(** The same but for [audio_path]. *)
Definition note_holds_client_payload_but_audio (row : Note.t)
    (c : NoteSyncItem.t) : Prop :=
  Note.title row = NoteSyncItem.title c
  ∧ Note.content row = NoteSyncItem.content c
  ∧ Note.folder_id row = NoteSyncItem.folder_id c
  ∧ Note.date row = NoteSyncItem.date c
  ∧ Note.is_deleted row = NoteSyncItem.is_deleted c
  ∧ Note.updated_at row = NoteSyncItem.updated_at c.

Definition folder_holds_client_payload (row : Folder.t)
    (c : FolderSyncItem.t) : Prop :=
  Folder.name row = FolderSyncItem.name c
  ∧ Folder.color row = FolderSyncItem.color c
  ∧ Folder.is_deleted row = FolderSyncItem.is_deleted c
  ∧ Folder.updated_at row = FolderSyncItem.updated_at c.

(** The media file of a path is there and [os.remove] takes it away. *)
Definition media_removed (fs : FileSystem) (audio_path : option string) : bool :=
  match audio_path with
  | Some p => Py.truthy p && os_path_exists fs p && bool_decide (is_Some (os_remove fs p))
  | None => false
  end.

(** Each row of the notes table is stored under its [id]. *)
Definition notes_keyed_by_id (db : DB) : Prop :=
  ∀ k n, notes db !! k = Some n → Note.id n = k.

(** The entry is accepted by the loop in state [st]: it is strictly newer
    than the record the owner has, or the owner has no record of the id and
    the entry is not a deletion. *)
Definition note_entry_accepted (user : string) (st : NotesPass)
    (c : NoteSyncItem.t) : Prop :=
  match select_note (np_db st) (NoteSyncItem.id c) user with
  | Some e => NoteSyncItem.updated_at c > Note.updated_at e
  | None => NoteSyncItem.is_deleted c = false
  end.

Definition folder_entry_accepted (user : string) (db : DB)
    (c : FolderSyncItem.t) : Prop :=
  match select_folder db (FolderSyncItem.id c) user with
  | Some e => FolderSyncItem.updated_at c > Folder.updated_at e
  | None => FolderSyncItem.is_deleted c = false
  end.

(** In the batch, an entry that deletes an id of which the owner has no
    record in [db] is the last entry for that id. *)
Definition unknown_deletions_last_notes (db : DB) (user : string)
    (client_notes : list NoteSyncItem.t) : Prop :=
  ∀ l1 c l2, client_notes = l1 ++ c :: l2 →
    NoteSyncItem.is_deleted c = true →
    select_note db (NoteSyncItem.id c) user = None →
    NoteSyncItem.id c ∉ NoteSyncItem.id <$> l2.

Definition unknown_deletions_last_folders (db : DB) (user : string)
    (client_folders : list FolderSyncItem.t) : Prop :=
  ∀ l1 c l2, client_folders = l1 ++ c :: l2 →
    FolderSyncItem.is_deleted c = true →
    select_folder db (FolderSyncItem.id c) user = None →
    FolderSyncItem.id c ∉ FolderSyncItem.id <$> l2.

(** Two stores that hold the same records of one owner. *)
Definition same_records_of (user : string) (db db' : DB) : Prop :=
  (∀ k, select_note db k user = select_note db' k user)
  ∧ (∀ k, select_folder db k user = select_folder db' k user).

(** Two rows that the loops cannot tell apart: the loops read the owner,
    [updated_at] and, of a note, the folder reference. *)
Definition note_sim (n n' : Note.t) : Prop :=
  Note.user_id n = Note.user_id n'
  ∧ Note.updated_at n = Note.updated_at n'
  ∧ Note.folder_id n = Note.folder_id n'.

Definition folder_sim (f f' : Folder.t) : Prop :=
  Folder.user_id f = Folder.user_id f'
  ∧ Folder.updated_at f = Folder.updated_at f'.

Definition notes_sim (db db' : DB) : Prop :=
  (∀ k, is_Some (folders db !! k) ↔ is_Some (folders db' !! k))
  ∧ ∀ k, option_Forall2 note_sim (notes db !! k) (notes db' !! k).

Definition folders_sim (db db' : DB) : Prop :=
  ∀ k, option_Forall2 folder_sim (folders db !! k) (folders db' !! k).

(** Two results that both fail, or both succeed with related values. *)
Definition Result_rel {A B} (R : A → B → Prop) (r : Result A) (r' : Result B)
    : Prop :=
  match r, r' with
  | Ok a, Ok b => R a b
  | Err _, Err _ => True
  | _, _ => False
  end.

(** The file that an accepted entry asks to remove: the recording of a
    note that the entry deletes. *)
Definition media_to_remove (c : NoteSyncItem.t) : option string :=
  if NoteSyncItem.is_deleted c then
    match NoteSyncItem.audio_path c with
    | Some p => if Py.truthy p then Some p else None
    | None => None
    end
  else None.

Definition remove_file (p : string) (fs : FileSystem) : FileSystem :=
  {| files := files fs ∖ {[p]}; unremovable := unremovable fs |}.

(** What one step of the notes loop may do to its state: write a row under
    the id of its entry, remove a file, append to [notes_to_index]. *)
Record Effect := {
  e_row : option Note.t;
  e_file : option string;
  e_index : list string
}.

Definition apply_effect (k : string) (eff : Effect) (st : NotesPass) : NotesPass :=
  {| np_db :=
       {| notes := match e_row eff with
                   | Some r => <[k := r]> (notes (np_db st))
                   | None => notes (np_db st)
                   end;
          folders := folders (np_db st) |};
     np_fs := match e_file eff with
              | Some p => remove_file p (np_fs st)
              | None => np_fs st
              end;
     notes_to_index := notes_to_index st ++ e_index eff |}.



(** The state in which [sync_notes] enters its loop. *)
Definition notes_pass_start (s : Session) (fs : FileSystem) : NotesPass :=
  {| np_db := working s; np_fs := fs; notes_to_index := [] |}.

(** The boundary as the specification words it, to compare with
    [validate_sync_request]: a malformed entry is rejected alone and the
    entries that validate are processed. *)
Definition reject_and_continue (body : RawSyncRequest.t) : SyncRequest.t :=
  {| SyncRequest.notes := omap validate_note (RawSyncRequest.notes body);
     SyncRequest.folders := omap validate_folder (RawSyncRequest.folders body);
     SyncRequest.last_sync_at := RawSyncRequest.last_sync_at body |}.

(** What is left and answered when the body does not validate. *)
Definition rejected (db : DB) (fs : FileSystem) : Outcome :=
  {| stored := db; out_fs := Some fs; out_tasks := [];
     response := Err ValidationError |}.

(** ** Concrete stores and requests *)

Module Ex.

Definition alice : string := "alice".
Definition bob : string := "bob".

Definition no_files : FileSystem := {| files := ∅; unremovable := ∅ |}.
Definition memo_on_disk : FileSystem :=
  {| files := {["memo.m4a"]}; unremovable := ∅ |}.

Definition empty_db : DB := {| notes := ∅; folders := ∅ |}.

(** A note of alice, last changed at 10, with a recording. *)
Definition n1 : Note.t :=
  {| Note.id := "n1"; Note.user_id := alice; Note.folder_id := None;
     Note.title := "old"; Note.content := "old text";
     Note.audio_path := Some "memo.m4a"; Note.date := 1;
     Note.created_at := 1; Note.updated_at := 10; Note.synced_at := Some 10;
     Note.is_deleted := false |}.

Definition db_n1 : DB := {| notes := {["n1" := n1]}; folders := ∅ |}.

Definition st_n1 : NotesPass :=
  {| np_db := db_n1; np_fs := memo_on_disk; notes_to_index := [] |}.

(** The client deletes n1 at 20. *)
Definition c1_delete : NoteSyncItem.t :=
  {| NoteSyncItem.id := "n1"; NoteSyncItem.title := "old";
     NoteSyncItem.content := "old text"; NoteSyncItem.folder_id := None;
     NoteSyncItem.audio_path := Some "memo.m4a"; NoteSyncItem.date := 1;
     NoteSyncItem.updated_at := 20; NoteSyncItem.is_deleted := true |}.

(** The client rewrites n1 at 20. *)
Definition c1_edit : NoteSyncItem.t :=
  {| NoteSyncItem.id := "n1"; NoteSyncItem.title := "new";
     NoteSyncItem.content := "new text"; NoteSyncItem.folder_id := None;
     NoteSyncItem.audio_path := None; NoteSyncItem.date := 2;
     NoteSyncItem.updated_at := 20; NoteSyncItem.is_deleted := false |}.

(** The loop state after [c1_edit] on [st_n1], at sync time 40. *)
Definition st_n1_edited : NotesPass :=
  {| np_db :=
       {| notes := {["n1" := assign_client_note n1 c1_edit 40]};
          folders := ∅ |};
     np_fs := memo_on_disk;
     notes_to_index := ["n1"] |}.





(** The client deletes a note the server never had. *)
Definition c9_deleted : NoteSyncItem.t :=
  {| NoteSyncItem.id := "n9"; NoteSyncItem.title := "draft";
     NoteSyncItem.content := EmptyString; NoteSyncItem.folder_id := None;
     NoteSyncItem.audio_path := None; NoteSyncItem.date := 3;
     NoteSyncItem.updated_at := 30; NoteSyncItem.is_deleted := true |}.








(** A folder of alice, last changed at 10. *)
Definition f1 : Folder.t :=
  {| Folder.id := "f1"; Folder.user_id := alice; Folder.name := "Work";
     Folder.color := "#E8B731"; Folder.created_at := 1;
     Folder.updated_at := 10; Folder.is_deleted := false |}.

Definition db_f1 : DB := {| notes := ∅; folders := {["f1" := f1]} |}.

Definition cf1_rename : FolderSyncItem.t :=
  {| FolderSyncItem.id := "f1"; FolderSyncItem.name := "Office";
     FolderSyncItem.color := "#000000"; FolderSyncItem.updated_at := 20;
     FolderSyncItem.is_deleted := false |}.

(** The client sends f1 as it was at 10. *)
Definition cf1_stale : FolderSyncItem.t :=
  {| FolderSyncItem.id := "f1"; FolderSyncItem.name := "Stale";
     FolderSyncItem.color := "#FFFFFF"; FolderSyncItem.updated_at := 10;
     FolderSyncItem.is_deleted := true |}.

(** The client creates folder f9, last changed on the device at 5. *)
Definition cf9_new : FolderSyncItem.t :=
  {| FolderSyncItem.id := "f9"; FolderSyncItem.name := "Trip";
     FolderSyncItem.color := "#E8B731"; FolderSyncItem.updated_at := 5;
     FolderSyncItem.is_deleted := false |}.

(** The client creates note n9, last changed on the device at 5. *)
Definition c9_new : NoteSyncItem.t :=
  {| NoteSyncItem.id := "n9"; NoteSyncItem.title := "Trip";
     NoteSyncItem.content := "plan"; NoteSyncItem.folder_id := None;
     NoteSyncItem.audio_path := None; NoteSyncItem.date := 3;
     NoteSyncItem.updated_at := 5; NoteSyncItem.is_deleted := false |}.

(** The client creates note n7 with a title and no content. *)
Definition c7_title_only : NoteSyncItem.t :=
  {| NoteSyncItem.id := "n7"; NoteSyncItem.title := "Groceries";
     NoteSyncItem.content := EmptyString; NoteSyncItem.folder_id := None;
     NoteSyncItem.audio_path := None; NoteSyncItem.date := 3;
     NoteSyncItem.updated_at := 5; NoteSyncItem.is_deleted := false |}.

Definition cf9_deleted : FolderSyncItem.t :=
  {| FolderSyncItem.id := "f9"; FolderSyncItem.name := "Trip";
     FolderSyncItem.color := "#E8B731"; FolderSyncItem.updated_at := 30;
     FolderSyncItem.is_deleted := true |}.

(** Folder f1 of alice holds a live note and a tombstone of hers. *)
Definition filed (id : string) (deleted : bool) : Note.t :=
  {| Note.id := id; Note.user_id := alice; Note.folder_id := Some "f1"%string;
     Note.title := "t"; Note.content := "c"; Note.audio_path := None;
     Note.date := 1; Note.created_at := 1; Note.updated_at := 10;
     Note.synced_at := None; Note.is_deleted := deleted |}.

Definition db_filed : DB :=
  {| notes := <["a" := filed "a" false]> {["b" := filed "b" true]};
     folders := {["f1" := f1]} |}.

(** A body with the well-formed note n9 and a note without [updated_at]. *)
Definition raw_c9_new : RawNote.t :=
  {| RawNote.id := Some "n9"%string; RawNote.title := Some "Trip"%string;
     RawNote.content := Some "plan"%string; RawNote.folder_id := None;
     RawNote.audio_path := None; RawNote.date := Some 3;
     RawNote.updated_at := Some 5; RawNote.is_deleted := Some false |}.

Definition raw_no_updated_at : RawNote.t :=
  {| RawNote.id := Some "n8"%string; RawNote.title := Some "Half"%string;
     RawNote.content := None; RawNote.folder_id := None;
     RawNote.audio_path := None; RawNote.date := Some 3;
     RawNote.updated_at := None; RawNote.is_deleted := None |}.

Definition body_one_malformed : RawSyncRequest.t :=
  {| RawSyncRequest.notes := [raw_c9_new; raw_no_updated_at];
     RawSyncRequest.folders := [];
     RawSyncRequest.last_sync_at := None |}.

(** A batch that deletes n9 at 30 and then creates n9 as of 5. *)
Definition request_delete_then_create : SyncRequest.t :=
  {| SyncRequest.notes := [c9_deleted; c9_new];
     SyncRequest.folders := [];
     SyncRequest.last_sync_at := None |}.

(** Alice rewrites n1, then drops the unknown n9, and adds folder f9. *)
Definition request_edit_n1 : SyncRequest.t :=
  {| SyncRequest.notes := [c1_edit; c9_deleted];
     SyncRequest.folders := [cf9_new];
     SyncRequest.last_sync_at := Some 5 |}.

(** Bob has a note with id n9; alice has nothing. *)
Definition bob_n9 : Note.t :=
  {| Note.id := "n9"; Note.user_id := bob; Note.folder_id := None;
     Note.title := "bob's"; Note.content := "private";
     Note.audio_path := None; Note.date := 1;
     Note.created_at := 1; Note.updated_at := 1; Note.synced_at := Some 1;
     Note.is_deleted := false |}.

Definition db_bob_n9 : DB := {| notes := {["n9" := bob_n9]}; folders := ∅ |}.

(** Alice creates a note with id n9. *)
Definition request_new_n9 : SyncRequest.t :=
  {| SyncRequest.notes := [c9_new];
     SyncRequest.folders := [];
     SyncRequest.last_sync_at := None |}.

(** The two scenarios of the specification: a newer state of a note that
    the server has, sent with an older checkpoint, and a folder that the
    server does not have. *)
Definition request_newer_n1 : SyncRequest.t :=
  {| SyncRequest.notes := [c1_edit];
     SyncRequest.folders := [];
     SyncRequest.last_sync_at := Some 5 |}.

Definition request_new_f9 : SyncRequest.t :=
  {| SyncRequest.notes := [];
     SyncRequest.folders := [cf9_new];
     SyncRequest.last_sync_at := None |}.

(** The device deletes folder f1 at 20 and sends nothing else. *)
Definition cf1_delete : FolderSyncItem.t :=
  {| FolderSyncItem.id := "f1"; FolderSyncItem.name := "Work";
     FolderSyncItem.color := "#E8B731"; FolderSyncItem.updated_at := 20;
     FolderSyncItem.is_deleted := true |}.

Definition request_delete_f1 : SyncRequest.t :=
  {| SyncRequest.notes := [];
     SyncRequest.folders := [cf1_delete];
     SyncRequest.last_sync_at := None |}.

Definition clock60 : Clock :=
  {| notes_sync_time := 60; notes_default_now := 61;
     folders_default_now := 62; response_now := 63 |}.

Definition clock40 : Clock :=
  {| notes_sync_time := 40; notes_default_now := 41;
     folders_default_now := 42; response_now := 43 |}.

End Ex.

(** ** What the statements about the endpoints speak of *)

(** The request without its folders. *)
Definition notes_only (sync_request : SyncRequest.t) : SyncRequest.t :=
  {| SyncRequest.notes := SyncRequest.notes sync_request;
     SyncRequest.folders := [];
     SyncRequest.last_sync_at := SyncRequest.last_sync_at sync_request |}.

(** Referential integrity of [notes.folder_id]: the folder that a note
    names is a row of [folders]. *)
Definition folder_refs_ok (db : DB) : Prop :=
  ∀ k n, notes db !! k = Some n → folder_fk db (Note.folder_id n) = true.

(** The checkpoint of a request is earlier than the time [t]. *)
Definition checkpoint_before (last_sync_at : option datetime) (t : datetime)
    : Prop :=
  match last_sync_at with
  | Some checkpoint => checkpoint < t
  | None => True
  end.

(** The rows of the other owners are the same in both stores. *)
Definition others_untouched (user : string) (db db' : DB) : Prop :=
  (∀ k n, Note.user_id n ≠ user →
          notes db !! k = Some n ↔ notes db' !! k = Some n)
  ∧ (∀ k f, Folder.user_id f ≠ user →
            folders db !! k = Some f ↔ folders db' !! k = Some f).

(** The notes loop passes over the entry, whatever its state and its
    readings of the clock: the tables hold a record of the caller that is
    not older. *)
Definition entry_ignored (user : string) (db : DB) (c : NoteSyncItem.t)
    : Prop :=
  ∀ sync_time default_now fs to_index,
    sync_note user sync_time default_now
      {| np_db := db; np_fs := fs; notes_to_index := to_index |} c
    = Ok {| np_db := db; np_fs := fs; notes_to_index := to_index |}.

(** ** More stores and requests *)

Module Ex2.

(** Bob has a folder with id f9. *)
Definition bob_f9 : Folder.t :=
  {| Folder.id := "f9"; Folder.user_id := Ex.bob; Folder.name := "Bob's";
     Folder.color := "#E8B731"; Folder.created_at := 1;
     Folder.updated_at := 1; Folder.is_deleted := false |}.

(** Alice has note n1 and bob has folder f9. *)
Definition db_n1_bob_f9 : DB :=
  {| notes := {["n1" := Ex.n1]}; folders := {["f9" := bob_f9]} |}.

(** Alice creates a note with the id n5 of her device, in no folder. *)
Definition create_n5 : NoteCreate.t :=
  {| NoteCreate.title := "Plan"; NoteCreate.content := "pack";
     NoteCreate.folder_id := None; NoteCreate.audio_path := None;
     NoteCreate.date := None; NoteCreate.id := Some "n5"%string |}.

Definition env70 : NoteEnv :=
  {| note_uuid4 := "0b0e6a0c-7a57-4c2b-9d52-6f1f0c1f7a11";
     date_utcnow := 70; synced_utcnow := 71;
     created_at_default := 72; updated_at_default := 73 |}.

(** Alice gives n1 a new title. *)
Definition retitle : NoteUpdate.t :=
  {| NoteUpdate.title := Some "newer"%string; NoteUpdate.content := None;
     NoteUpdate.folder_id := None; NoteUpdate.audio_path := None;
     NoteUpdate.date := None |}.

(** Alice creates a folder without an id. *)
Definition create_trip : FolderCreate.t :=
  {| FolderCreate.name := "Trip"; FolderCreate.color := "#E8B731";
     FolderCreate.id := None |}.

Definition folder_env80 : FolderEnv :=
  {| folder_uuid4 := "5c1d7c0e-2f43-4b7e-8a51-3f0a9b2d4e66";
     folder_created_at_default := 80; folder_updated_at_default := 81 |}.

Definition rename_office : FolderUpdate.t :=
  {| FolderUpdate.name := Some "Office"%string; FolderUpdate.color := None |}.

(** Bob keeps a note in folder f1 of alice. *)
Definition bob_in_f1 : Note.t :=
  {| Note.id := "b1"; Note.user_id := Ex.bob;
     Note.folder_id := Some "f1"%string;
     Note.title := "bob's"; Note.content := "private";
     Note.audio_path := None; Note.date := 1;
     Note.created_at := 1; Note.updated_at := 1; Note.synced_at := Some 1;
     Note.is_deleted := false |}.

Definition db_f1_bob_note : DB :=
  {| notes := {["b1" := bob_in_f1]}; folders := {["f1" := Ex.f1]} |}.

(** Alice's device creates folder f9 and, in it, note n9. *)
Definition c9_in_f9 : NoteSyncItem.t :=
  {| NoteSyncItem.id := "n9"; NoteSyncItem.title := "Trip";
     NoteSyncItem.content := "plan";
     NoteSyncItem.folder_id := Some "f9"%string;
     NoteSyncItem.audio_path := None; NoteSyncItem.date := 3;
     NoteSyncItem.updated_at := 5; NoteSyncItem.is_deleted := false |}.

Definition request_note_in_new_folder : SyncRequest.t :=
  {| SyncRequest.notes := [c9_in_f9];
     SyncRequest.folders := [Ex.cf9_new];
     SyncRequest.last_sync_at := None |}.

(** Two files, and a deletion of n1 that names the one which is not the
    recording of n1. *)
Definition two_files : FileSystem :=
  {| files := {["memo.m4a"; "other.m4a"]}; unremovable := ∅ |}.

Definition c1_delete_other : NoteSyncItem.t :=
  {| NoteSyncItem.id := "n1"; NoteSyncItem.title := "old";
     NoteSyncItem.content := "old text"; NoteSyncItem.folder_id := None;
     NoteSyncItem.audio_path := Some "other.m4a"%string;
     NoteSyncItem.date := 1;
     NoteSyncItem.updated_at := 20; NoteSyncItem.is_deleted := true |}.

(** A second device of alice sends nothing and asks for what changed
    since 30. *)
Definition pull_since_30 : SyncRequest.t :=
  {| SyncRequest.notes := []; SyncRequest.folders := [];
     SyncRequest.last_sync_at := Some 30 |}.

Definition clock50 : Clock :=
  {| notes_sync_time := 50; notes_default_now := 51;
     folders_default_now := 52; response_now := 53 |}.

(** The device sends n1 as it was at 10 and the deletion of a folder that
    the server has not. *)
Definition c1_as_stored : NoteSyncItem.t :=
  {| NoteSyncItem.id := "n1"; NoteSyncItem.title := "old";
     NoteSyncItem.content := "old text"; NoteSyncItem.folder_id := None;
     NoteSyncItem.audio_path := Some "memo.m4a"%string;
     NoteSyncItem.date := 1;
     NoteSyncItem.updated_at := 10; NoteSyncItem.is_deleted := false |}.

Definition request_nothing_new : SyncRequest.t :=
  {| SyncRequest.notes := [c1_as_stored];
     SyncRequest.folders := [Ex.cf9_deleted];
     SyncRequest.last_sync_at := Some 5 |}.

(** A note is created in folder f1. *)
Definition create_in_f1 : NoteCreate.t :=
  {| NoteCreate.title := "late"; NoteCreate.content := "entry";
     NoteCreate.folder_id := Some "f1"%string; NoteCreate.audio_path := None;
     NoteCreate.date := None; NoteCreate.id := Some "b7"%string |}.


End Ex2.

(** * Properties *)


(** ** The result monad *)

Lemma Result_bind_Ok {A B} (r : Result A) (k : A → Result B) (b : B) :
  r ≫= k = Ok b ↔ ∃ a, r = Ok a ∧ k a = Ok b.
Proof.
  destruct r as [a|e]; simpl; split.
  - intros H. exists a. done.
  - intros (a' & [= <-] & H). done.
  - intros [=].
  - intros (a' & [=] & _).
Qed.


Lemma Result_rel_bind {A A' B B'} (R : A → A' → Prop) (S : B → B' → Prop)
    (r : Result A) (r' : Result A') (k : A → Result B) (k' : A' → Result B') :
  Result_rel R r r' →
  (∀ a a', R a a' → Result_rel S (k a) (k' a')) →
  Result_rel S (r ≫= k) (r' ≫= k').
Proof. destruct r, r'; simpl; auto; done. Qed.




(** ** Comparing datetimes *)

Lemma gtb_gt (x y : Z) : (x >? y) = true ↔ x > y.
Proof. rewrite Z.gtb_ltb, Z.ltb_lt. lia. Qed.

Lemma gtb_le (x y : Z) : (x >? y) = false ↔ x ≤ y.
Proof. rewrite Z.gtb_ltb, Z.ltb_ge. lia. Qed.


(** ** The record store *)

Lemma DB_eq (a b : DB) : notes a = notes b → folders a = folders b → a = b.
Proof. destruct a, b; simpl; by intros -> ->. Qed.


Lemma update_note_Ok db id old new db' :
  update_note db id old new = Ok db' →
  notes db' = <[id := new]> (notes db) ∧ folders db' = folders db.
Proof.
  unfold update_note. case_match; [|done]. by intros [= <-].
Qed.

Lemma insert_note_Ok db n db' :
  insert_note db n = Ok db' →
  notes db !! Note.id n = None
  ∧ notes db' = <[Note.id n := n]> (notes db) ∧ folders db' = folders db.
Proof.
  unfold insert_note. case_bool_decide as Hpk; [done|].
  case_match; [done|]. intros [= <-]. split; [|done].
  by apply eq_None_not_Some.
Qed.

Lemma insert_folder_Ok db f db' :
  insert_folder db f = Ok db' →
  folders db !! Folder.id f = None
  ∧ folders db' = <[Folder.id f := f]> (folders db) ∧ notes db' = notes db.
Proof.
  unfold insert_folder. case_bool_decide as Hpk; [done|].
  intros [= <-]. split; [|done]. by apply eq_None_not_Some.
Qed.

Lemma select_note_Some db id user n :
  select_note db id user = Some n ↔ notes db !! id = Some n ∧ Note.user_id n = user.
Proof.
  unfold select_note. destruct (notes db !! id) as [m|].
  - destruct (decide (Note.user_id m = user)) as [Hu|Hu]; split.
    + intros [= <-]. done.
    + intros [[= <-] _]. done.
    + intros [=].
    + intros [[= <-] Hm]. done.
  - split; [intros [=]|intros [[=] _]].
Qed.

Lemma select_folder_Some db id user f :
  select_folder db id user = Some f
  ↔ folders db !! id = Some f ∧ Folder.user_id f = user.
Proof.
  unfold select_folder. destruct (folders db !! id) as [m|].
  - destruct (decide (Folder.user_id m = user)) as [Hu|Hu]; split.
    + intros [= <-]. done.
    + intros [[= <-] _]. done.
    + intros [=].
    + intros [[= <-] Hm]. done.
  - split; [intros [=]|intros [[=] _]].
Qed.

Lemma select_note_ext db db' k user :
  notes db !! k = notes db' !! k → select_note db k user = select_note db' k user.
Proof. unfold select_note. by intros ->. Qed.

Lemma select_folder_ext db db' k user :
  folders db !! k = folders db' !! k →
  select_folder db k user = select_folder db' k user.
Proof. unfold select_folder. by intros ->. Qed.

Lemma select_note_DB db db' j user :
  notes db' = notes db → select_note db' j user = select_note db j user.
Proof. intros H. apply select_note_ext. by rewrite H. Qed.

Lemma select_note_insert db k row j user :
  select_note {| notes := <[k := row]> (notes db); folders := folders db |} j user
  = if decide (j = k)
    then (if decide (Note.user_id row = user) then Some row else None)
    else select_note db j user.
Proof.
  unfold select_note. simpl. destruct (decide (j = k)) as [->|Hj].
  - by rewrite lookup_insert_eq.
  - by rewrite lookup_insert_ne.
Qed.

Lemma select_folder_insert db k row j user :
  select_folder {| notes := notes db; folders := <[k := row]> (folders db) |}
    j user
  = if decide (j = k)
    then (if decide (Folder.user_id row = user) then Some row else None)
    else select_folder db j user.
Proof.
  unfold select_folder. simpl. destruct (decide (j = k)) as [->|Hj].
  - by rewrite lookup_insert_eq.
  - by rewrite lookup_insert_ne.
Qed.

Lemma elem_of_scalars_all {A} (m : gmap string A) (x : A) :
  x ∈ scalars_all m ↔ ∃ k, m !! k = Some x.
Proof.
  unfold scalars_all. rewrite list_elem_of_fmap. split.
  - intros ([k y] & -> & Hin). exists k. by apply elem_of_map_to_list.
  - intros [k Hk]. exists (k, x). split; [done|]. by apply elem_of_map_to_list.
Qed.


(** ** The media file of a deleted note *)

Lemma remove_media_removes fs n :
  remove_media fs n
  = if media_removed fs (Note.audio_path n)
    then (clear_audio_path n,
          remove_file (default EmptyString (Note.audio_path n)) fs)
    else (n, fs).
Proof.
  unfold remove_media, media_removed, os_path_exists, os_remove.
  destruct (Note.audio_path n) as [p|]; [|done]. simpl.
  destruct (Py.truthy p); [|done]. simpl.
  destruct (bool_decide (p ∈ files fs)); [|done]. simpl.
  destruct (bool_decide (p ∈ unremovable fs)); done.
Qed.



(** ** One step of the notes loop *)

Lemma sync_note_cases user t d st c st' :
  sync_note user t d st c = Ok st' →
  folders (np_db st') = folders (np_db st)
  ∧ ((¬ note_entry_accepted user st c ∧ st' = st)
     ∨ (note_entry_accepted user st c
        ∧ ∃ row,
         notes (np_db st') = <[NoteSyncItem.id c := row]> (notes (np_db st))
         ∧ Note.user_id row = user
         ∧ Note.title row = NoteSyncItem.title c
         ∧ Note.content row = NoteSyncItem.content c
         ∧ Note.folder_id row = NoteSyncItem.folder_id c
         ∧ Note.date row = NoteSyncItem.date c
         ∧ Note.is_deleted row = NoteSyncItem.is_deleted c
         ∧ Note.updated_at row = NoteSyncItem.updated_at c
         ∧ match notes (np_db st) !! NoteSyncItem.id c with
           | Some e => Note.user_id e = user ∧ Note.id row = Note.id e
           | None => Note.id row = NoteSyncItem.id c
                     ∧ NoteSyncItem.is_deleted c = false
           end
         ∧ notes_to_index st'
           = notes_to_index st
             ++ (if negb (NoteSyncItem.is_deleted c)
                    && (Py.truthy (NoteSyncItem.content c)
                        || Py.truthy (NoteSyncItem.title c))
                 then [NoteSyncItem.id c] else []))).
Proof.
  unfold sync_note, note_entry_accepted.
  destruct (select_note (np_db st) (NoteSyncItem.id c) user) as [e|] eqn:Hsel.
  - apply select_note_Some in Hsel as [Hk Hu].
    destruct (NoteSyncItem.updated_at c >? Note.updated_at e) eqn:Hgt.
    2:{ intros [= <-]. split; [done|]. left. split; [|done].
        apply gtb_le in Hgt. lia. }
    apply gtb_gt in Hgt.
    destruct (NoteSyncItem.is_deleted c) eqn:Hdel; simpl.
    + rewrite remove_media_removes.
      destruct (media_removed _ _); simpl;
        intros (db' & [Hn Hf]%update_note_Ok & [= <-])%Result_bind_Ok;
        simpl; (split; [done|]); right; (split; [done|]);
        eexists; (split; [exact Hn|]);
        simpl; rewrite Hk, app_nil_r; done.
    + intros (db' & [Hn Hf]%update_note_Ok & [= <-])%Result_bind_Ok.
      simpl. split; [done|]. right. split; [done|].
      eexists. split; [exact Hn|].
      simpl. rewrite Hk.
      destruct (Py.truthy _ || Py.truthy _); rewrite ?app_nil_r; done.
  - destruct (NoteSyncItem.is_deleted c) eqn:Hdel.
    { intros [= <-]. split; [done|]. left. done. }
    simpl.
    intros (db' & (Hnone & Hn & Hf)%insert_note_Ok & [= <-])%Result_bind_Ok.
    simpl in *. split; [done|]. right. split; [done|].
    eexists. split; [exact Hn|].
    simpl. rewrite Hnone.
    destruct (Py.truthy _ || Py.truthy _); rewrite ?app_nil_r; done.
Qed.

Lemma sync_note_Ok_inv user t d st c st' :
  sync_note user t d st c = Ok st' →
  folders (np_db st') = folders (np_db st)
  ∧ (st' = st
     ∨ ∃ row,
         notes (np_db st') = <[NoteSyncItem.id c := row]> (notes (np_db st))
         ∧ Note.user_id row = user
         ∧ Note.title row = NoteSyncItem.title c
         ∧ Note.content row = NoteSyncItem.content c
         ∧ Note.folder_id row = NoteSyncItem.folder_id c
         ∧ Note.date row = NoteSyncItem.date c
         ∧ Note.is_deleted row = NoteSyncItem.is_deleted c
         ∧ Note.updated_at row = NoteSyncItem.updated_at c
         ∧ note_entry_accepted user st c
         ∧ match notes (np_db st) !! NoteSyncItem.id c with
           | Some e => Note.user_id e = user ∧ Note.id row = Note.id e
           | None => Note.id row = NoteSyncItem.id c
                     ∧ NoteSyncItem.is_deleted c = false
           end
         ∧ notes_to_index st'
           = notes_to_index st
             ++ (if negb (NoteSyncItem.is_deleted c)
                    && (Py.truthy (NoteSyncItem.content c)
                        || Py.truthy (NoteSyncItem.title c))
                 then [NoteSyncItem.id c] else [])).
Proof.
  intros [Hf [[_ ->]|[Hacc (row & H)]]]%sync_note_cases; split; auto.
  right. exists row. tauto.
Qed.

Lemma sync_note_not_accepted user t d st c :
  ¬ note_entry_accepted user st c → sync_note user t d st c = Ok st.
Proof.
  unfold note_entry_accepted, sync_note.
  destruct (select_note (np_db st) (NoteSyncItem.id c) user) as [e|].
  - intros Hle.
    destruct (NoteSyncItem.updated_at c >? Note.updated_at e) eqn:Hgt; [|done].
    by apply gtb_gt in Hgt.
  - intros Hdel. destruct (NoteSyncItem.is_deleted c); [done|]. by destruct Hdel.
Qed.

Lemma sync_note_unknown_deleted user t d st c :
  select_note (np_db st) (NoteSyncItem.id c) user = None →
  NoteSyncItem.is_deleted c = true →
  sync_note user t d st c = Ok st.
Proof. intros Hsel Hdel. unfold sync_note. by rewrite Hsel, Hdel. Qed.

(** What one entry for a record the owner has leaves in the row. *)
Lemma sync_note_existing user t d st c e st' :
  select_note (np_db st) (NoteSyncItem.id c) user = Some e →
  sync_note user t d st c = Ok st' →
  if NoteSyncItem.updated_at c >? Note.updated_at e then
    notes (np_db st') !! NoteSyncItem.id c
    = Some (if NoteSyncItem.is_deleted c
                 && media_removed (np_fs st) (NoteSyncItem.audio_path c)
            then clear_audio_path (assign_client_note e c t)
            else assign_client_note e c t)
  else st' = st.
Proof.
  intros Hsel. unfold sync_note. rewrite Hsel.
  destruct (NoteSyncItem.updated_at c >? Note.updated_at e); [|by intros [= <-]].
  destruct (NoteSyncItem.is_deleted c); simpl.
  - rewrite remove_media_removes. simpl.
    destruct (media_removed _ _); simpl;
      intros (db' & Hup & [= <-])%Result_bind_Ok;
      apply update_note_Ok in Hup as [Hup _]; simpl;
      rewrite Hup; apply lookup_insert_eq.
  - intros (db' & Hup & [= <-])%Result_bind_Ok.
    apply update_note_Ok in Hup as [Hup _]; simpl.
    rewrite Hup; apply lookup_insert_eq.
Qed.

Lemma sync_note_existing_not_newer user t d st c e :
  select_note (np_db st) (NoteSyncItem.id c) user = Some e →
  NoteSyncItem.updated_at c ≤ Note.updated_at e →
  sync_note user t d st c = Ok st.
Proof.
  intros Hsel Hle%gtb_le. unfold sync_note. by rewrite Hsel, Hle.
Qed.

(** When the written folder reference is the stored one, or names a folder,
    the entry for a record the owner has is accepted. *)
Lemma sync_note_existing_accepts user t d st c e :
  select_note (np_db st) (NoteSyncItem.id c) user = Some e →
  NoteSyncItem.folder_id c = Note.folder_id e
  ∨ folder_fk (np_db st) (NoteSyncItem.folder_id c) = true →
  is_Ok (sync_note user t d st c) = true.
Proof.
  intros Hsel Hfk. unfold sync_note. rewrite Hsel.
  destruct (NoteSyncItem.updated_at c >? Note.updated_at e); [|done].
  assert (Hup : ∀ n, Note.folder_id n = NoteSyncItem.folder_id c →
            ∃ db', update_note (np_db st) (NoteSyncItem.id c) e n = Ok db').
  { intros n Hn. unfold update_note. rewrite Hn.
    destruct Hfk as [->| ->].
    - rewrite bool_decide_eq_true_2 by done. simpl. eauto.
    - rewrite orb_true_r. eauto. }
  destruct (NoteSyncItem.is_deleted c); simpl.
  - rewrite remove_media_removes.
    destruct (media_removed _ _); simpl.
    + destruct (Hup (clear_audio_path (assign_client_note e c t)) eq_refl)
        as [db' ->]. done.
    + destruct (Hup (assign_client_note e c t) eq_refl) as [db' ->]. done.
  - destruct (Hup (assign_client_note e c t) eq_refl) as [db' ->]. done.
Qed.

Lemma sync_note_frame user t d st c st' k :
  sync_note user t d st c = Ok st' →
  k ≠ NoteSyncItem.id c →
  notes (np_db st') !! k = notes (np_db st) !! k.
Proof.
  intros [_ [->|(row & -> & _)]]%sync_note_Ok_inv Hk; [done|].
  by rewrite lookup_insert_ne.
Qed.

Lemma sync_note_keyed user t d st c st' :
  sync_note user t d st c = Ok st' →
  notes_keyed_by_id (np_db st) → notes_keyed_by_id (np_db st').
Proof.
  intros [_ [->|(row & Hn & Hrest)]]%sync_note_Ok_inv Hwf; [done|].
  destruct Hrest as (_ & _ & _ & _ & _ & _ & _ & _ & Hid & _).
  intros k n. rewrite Hn. destruct (decide (k = NoteSyncItem.id c)) as [->|Hk].
  - rewrite lookup_insert_eq. intros [= <-].
    destruct (notes (np_db st) !! NoteSyncItem.id c) as [e|] eqn:He.
    + destruct Hid as [_ ->]. by apply Hwf.
    + by destruct Hid.
  - rewrite lookup_insert_ne by done. apply Hwf.
Qed.

(** A record of the owner stays, and its [updated_at] does not go back. *)
Lemma sync_note_mono user t d st c st' k e :
  sync_note user t d st c = Ok st' →
  select_note (np_db st) k user = Some e →
  ∃ e', select_note (np_db st') k user = Some e'
        ∧ Note.updated_at e ≤ Note.updated_at e'.
Proof.
  intros [_ [[_ ->]|[Hacc (row & Hn & Hu & Hrow)]]]%sync_note_cases Hsel.
  { exists e. split; [done|lia]. }
  destruct Hrow as (_ & _ & _ & _ & _ & Hupd & _).
  destruct (decide (k = NoteSyncItem.id c)) as [->|Hk].
  - exists row. split.
    + apply select_note_Some. by rewrite Hn, lookup_insert_eq.
    + unfold note_entry_accepted in Hacc. rewrite Hsel in Hacc. lia.
  - exists e. split; [|lia]. rewrite <- Hsel. apply select_note_ext.
    by rewrite Hn, lookup_insert_ne.
Qed.

(** Once processed, an entry would not be accepted again. *)
Lemma sync_note_settles user t d st c st' :
  sync_note user t d st c = Ok st' → ¬ note_entry_accepted user st' c.
Proof.
  intros [_ [[Hno ->]|[_ (row & Hn & Hu & Hrow)]]]%sync_note_cases; [done|].
  destruct Hrow as (_ & _ & _ & _ & _ & Hupd & _).
  unfold note_entry_accepted.
  assert (select_note (np_db st') (NoteSyncItem.id c) user = Some row) as ->.
  { apply select_note_Some. by rewrite Hn, lookup_insert_eq. }
  lia.
Qed.


(** ** One step of the folders loop *)

Lemma sync_folder_cases user d db c db' :
  sync_folder user d db c = Ok db' →
  notes db' = notes db
  ∧ ((¬ folder_entry_accepted user db c ∧ db' = db)
     ∨ (folder_entry_accepted user db c
        ∧ ∃ row,
            folders db' = <[FolderSyncItem.id c := row]> (folders db)
            ∧ Folder.user_id row = user
            ∧ Folder.name row = FolderSyncItem.name c
            ∧ Folder.color row = FolderSyncItem.color c
            ∧ Folder.is_deleted row = FolderSyncItem.is_deleted c
            ∧ Folder.updated_at row = FolderSyncItem.updated_at c
            ∧ match folders db !! FolderSyncItem.id c with
              | Some e => Folder.user_id e = user ∧ Folder.id row = Folder.id e
              | None => Folder.id row = FolderSyncItem.id c
                        ∧ FolderSyncItem.is_deleted c = false
              end)).
Proof.
  unfold sync_folder, folder_entry_accepted.
  destruct (select_folder db (FolderSyncItem.id c) user) as [e|] eqn:Hsel.
  - apply select_folder_Some in Hsel as [Hk Hu].
    destruct (FolderSyncItem.updated_at c >? Folder.updated_at e) eqn:Hgt.
    + apply gtb_gt in Hgt. intros [= <-]. split; [done|]. right.
      split; [done|]. eexists. split; [done|]. simpl. rewrite Hk. done.
    + apply gtb_le in Hgt. intros [= <-]. split; [done|]. left.
      split; [lia|done].
  - destruct (FolderSyncItem.is_deleted c) eqn:Hdel.
    { intros [= <-]. split; [done|]. left. done. }
    intros (Hnone & Hn & Hf)%insert_folder_Ok. simpl in *.
    split; [done|]. right. split; [done|].
    eexists. split; [exact Hn|]. simpl. rewrite Hnone. done.
Qed.

Lemma sync_folder_not_accepted user d db c :
  ¬ folder_entry_accepted user db c → sync_folder user d db c = Ok db.
Proof.
  unfold folder_entry_accepted, sync_folder.
  destruct (select_folder db (FolderSyncItem.id c) user) as [e|].
  - intros Hle.
    destruct (FolderSyncItem.updated_at c >? Folder.updated_at e) eqn:Hgt;
      [|done].
    by apply gtb_gt in Hgt.
  - intros Hdel. destruct (FolderSyncItem.is_deleted c); [done|].
    by destruct Hdel.
Qed.

Lemma sync_folder_unknown_deleted user d db c :
  select_folder db (FolderSyncItem.id c) user = None →
  FolderSyncItem.is_deleted c = true →
  sync_folder user d db c = Ok db.
Proof. intros Hsel Hdel. unfold sync_folder. by rewrite Hsel, Hdel. Qed.

Lemma sync_folder_existing user d db c e :
  select_folder db (FolderSyncItem.id c) user = Some e →
  sync_folder user d db c
  = Ok (if FolderSyncItem.updated_at c >? Folder.updated_at e
        then update_folder db (FolderSyncItem.id c) (assign_client_folder e c)
        else db).
Proof.
  intros Hsel. unfold sync_folder. rewrite Hsel.
  by destruct (FolderSyncItem.updated_at c >? Folder.updated_at e).
Qed.

Lemma sync_folder_frame user d db c db' k :
  sync_folder user d db c = Ok db' →
  k ≠ FolderSyncItem.id c →
  folders db' !! k = folders db !! k.
Proof.
  intros [_ [[_ ->]|[_ (row & -> & _)]]]%sync_folder_cases Hk; [done|].
  by rewrite lookup_insert_ne.
Qed.

Lemma sync_folder_mono user d db c db' k e :
  sync_folder user d db c = Ok db' →
  select_folder db k user = Some e →
  ∃ e', select_folder db' k user = Some e'
        ∧ Folder.updated_at e ≤ Folder.updated_at e'.
Proof.
  intros [_ [[_ ->]|[Hacc (row & Hn & Hu & Hrow)]]]%sync_folder_cases Hsel.
  { exists e. split; [done|lia]. }
  destruct Hrow as (_ & _ & _ & Hupd & _).
  destruct (decide (k = FolderSyncItem.id c)) as [->|Hk].
  - exists row. split.
    + apply select_folder_Some. by rewrite Hn, lookup_insert_eq.
    + unfold folder_entry_accepted in Hacc. rewrite Hsel in Hacc. lia.
  - exists e. split; [|lia]. rewrite <- Hsel. apply select_folder_ext.
    by rewrite Hn, lookup_insert_ne.
Qed.

Lemma sync_folder_settles user d db c db' :
  sync_folder user d db c = Ok db' → ¬ folder_entry_accepted user db' c.
Proof.
  intros [_ [[Hno ->]|[_ (row & Hn & Hu & Hrow)]]]%sync_folder_cases; [done|].
  destruct Hrow as (_ & _ & _ & Hupd & _).
  unfold folder_entry_accepted.
  assert (select_folder db' (FolderSyncItem.id c) user = Some row) as ->.
  { apply select_folder_Some. by rewrite Hn, lookup_insert_eq. }
  lia.
Qed.


(** A step leaves the store as it is or writes one row under the id of
    its entry. *)
Lemma sync_folder_writes user d db c db' :
  sync_folder user d db c = Ok db' →
  db' = db
  ∨ ∃ row, db' = {| notes := notes db;
                    folders := <[FolderSyncItem.id c := row]> (folders db) |}.
Proof.
  intros [Hn [[_ ->]|[_ (row & Hf & _)]]]%sync_folder_cases; [by left|].
  right. exists row. by apply DB_eq.
Qed.


(** ** The loops *)

Lemma sync_notes_loop_app user t d st l1 l2 :
  sync_notes_loop user t d st (l1 ++ l2)
  = sync_notes_loop user t d st l1 ≫= λ st1, sync_notes_loop user t d st1 l2.
Proof.
  revert st. induction l1 as [|c l1 IH]; intros st; simpl; [done|].
  destruct (sync_note user t d st c) as [st'|e]; simpl; [apply IH|done].
Qed.

Lemma sync_folders_loop_app user d db l1 l2 :
  sync_folders_loop user d db (l1 ++ l2)
  = sync_folders_loop user d db l1 ≫= λ db1, sync_folders_loop user d db1 l2.
Proof.
  revert db. induction l1 as [|c l1 IH]; intros db; simpl; [done|].
  destruct (sync_folder user d db c) as [db'|e]; simpl; [apply IH|done].
Qed.

Lemma sync_notes_loop_skip user t d st before c after :
  (∀ st1, sync_notes_loop user t d st before = Ok st1 →
          sync_note user t d st1 c = Ok st1) →
  sync_notes_loop user t d st (before ++ c :: after)
  = sync_notes_loop user t d st (before ++ after).
Proof.
  intros Hskip. rewrite !sync_notes_loop_app.
  destruct (sync_notes_loop user t d st before) as [st1|e]; simpl; [|done].
  by rewrite (Hskip st1 eq_refl).
Qed.

Lemma sync_folders_loop_skip user d db before c after :
  (∀ db1, sync_folders_loop user d db before = Ok db1 →
          sync_folder user d db1 c = Ok db1) →
  sync_folders_loop user d db (before ++ c :: after)
  = sync_folders_loop user d db (before ++ after).
Proof.
  intros Hskip. rewrite !sync_folders_loop_app.
  destruct (sync_folders_loop user d db before) as [db1|e]; simpl; [|done].
  by rewrite (Hskip db1 eq_refl).
Qed.

Lemma sync_notes_loop_frame user t d st l st' k :
  sync_notes_loop user t d st l = Ok st' →
  k ∉ NoteSyncItem.id <$> l →
  notes (np_db st') !! k = notes (np_db st) !! k.
Proof.
  revert st. induction l as [|c l IH]; intros st; simpl.
  - by intros [= <-].
  - intros (st1 & Hstep & Hloop)%Result_bind_Ok Hk.
    apply not_elem_of_cons in Hk as [Hk1 Hk2].
    rewrite (IH _ Hloop Hk2). by eapply sync_note_frame.
Qed.

Lemma sync_folders_loop_frame user d db l db' k :
  sync_folders_loop user d db l = Ok db' →
  k ∉ FolderSyncItem.id <$> l →
  folders db' !! k = folders db !! k.
Proof.
  revert db. induction l as [|c l IH]; intros db; simpl.
  - by intros [= <-].
  - intros (db1 & Hstep & Hloop)%Result_bind_Ok Hk.
    apply not_elem_of_cons in Hk as [Hk1 Hk2].
    rewrite (IH _ Hloop Hk2). by eapply sync_folder_frame.
Qed.

Lemma sync_notes_loop_folders user t d st l st' :
  sync_notes_loop user t d st l = Ok st' →
  folders (np_db st') = folders (np_db st).
Proof.
  revert st. induction l as [|c l IH]; intros st; simpl.
  - by intros [= <-].
  - intros (st1 & Hstep & Hloop)%Result_bind_Ok.
    rewrite (IH _ Hloop). by apply sync_note_Ok_inv in Hstep as [? _].
Qed.

Lemma sync_folders_loop_notes user d db l db' :
  sync_folders_loop user d db l = Ok db' → notes db' = notes db.
Proof.
  revert db. induction l as [|c l IH]; intros db; simpl.
  - by intros [= <-].
  - intros (db1 & Hstep & Hloop)%Result_bind_Ok.
    rewrite (IH _ Hloop). by apply sync_folder_cases in Hstep as [? _].
Qed.

(** The loop appends to [notes_to_index], and only ids of its entries. *)
Lemma sync_notes_loop_to_index user t d st l st' :
  sync_notes_loop user t d st l = Ok st' →
  ∃ more, notes_to_index st' = notes_to_index st ++ more
          ∧ ∀ i, i ∈ more → i ∈ NoteSyncItem.id <$> l.
Proof.
  revert st. induction l as [|c l IH]; intros st; simpl.
  - intros [= <-]. exists []. rewrite app_nil_r. split; [done|].
    by intros i ?%elem_of_nil.
  - intros (st1 & Hstep & Hloop)%Result_bind_Ok.
    destruct (IH _ Hloop) as (more & Hmore & Hin).
    apply sync_note_Ok_inv in Hstep as [_ [->|(row & _ & Hrest)]].
    + exists more. split; [done|]. intros i Hi. right. auto.
    + destruct Hrest as (_ & _ & _ & _ & _ & _ & _ & _ & _ & Hidx).
      rewrite Hmore, Hidx, <- app_assoc. eexists. split; [done|].
      intros i [Hi|Hi]%elem_of_app.
      * destruct (negb _ && _); [|by apply elem_of_nil in Hi].
        apply list_elem_of_singleton in Hi as ->. left.
      * right. auto.
Qed.

Lemma sync_notes_loop_keyed user t d st l st' :
  sync_notes_loop user t d st l = Ok st' →
  notes_keyed_by_id (np_db st) → notes_keyed_by_id (np_db st').
Proof.
  revert st. induction l as [|c l IH]; intros st; simpl.
  - by intros [= <-].
  - intros (st1 & Hstep & Hloop)%Result_bind_Ok Hwf.
    eapply IH; [done|]. by eapply sync_note_keyed.
Qed.

Lemma sync_notes_loop_mono user t d st l st' k e :
  sync_notes_loop user t d st l = Ok st' →
  select_note (np_db st) k user = Some e →
  ∃ e', select_note (np_db st') k user = Some e'
        ∧ Note.updated_at e ≤ Note.updated_at e'.
Proof.
  revert st e. induction l as [|c l IH]; intros st e; simpl.
  - intros [= <-] Hsel. exists e. split; [done|lia].
  - intros (st1 & Hstep & Hloop)%Result_bind_Ok Hsel.
    destruct (sync_note_mono _ _ _ _ _ _ _ _ Hstep Hsel) as (e1 & Hsel1 & Hle1).
    destruct (IH _ _ Hloop Hsel1) as (e' & Hsel' & Hle').
    exists e'. split; [done|lia].
Qed.

Lemma sync_folders_loop_mono user d db l db' k e :
  sync_folders_loop user d db l = Ok db' →
  select_folder db k user = Some e →
  ∃ e', select_folder db' k user = Some e'
        ∧ Folder.updated_at e ≤ Folder.updated_at e'.
Proof.
  revert db e. induction l as [|c l IH]; intros db e; simpl.
  - intros [= <-] Hsel. exists e. split; [done|lia].
  - intros (db1 & Hstep & Hloop)%Result_bind_Ok Hsel.
    destruct (sync_folder_mono _ _ _ _ _ _ _ Hstep Hsel) as (e1 & Hsel1 & Hle1).
    destruct (IH _ _ Hloop Hsel1) as (e' & Hsel' & Hle').
    exists e'. split; [done|lia].
Qed.




(** ** The passes *)

Lemma sync_notes_Ok s fs user client_notes last_sync_at bt t d nr :
  sync_notes s fs user client_notes last_sync_at bt t d = Ok nr ↔
  ∃ st, sync_notes_loop user t d (notes_pass_start s fs) client_notes = Ok st
        ∧ nr = {| nr_session := commit (set_working s (np_db st));
                  nr_fs := np_fs st;
                  nr_background_tasks :=
                    trigger_indexing bt (np_db st) user (notes_to_index st);
                  nr_notes := select_server_notes (np_db st) user last_sync_at |}.
Proof.
  unfold sync_notes. fold (notes_pass_start s fs).
  rewrite Result_bind_Ok. split; intros (st & Hloop & Hnr); exists st;
    (split; [done|]); congruence.
Qed.

Lemma sync_folders_Ok s user client_folders last_sync_at d fr :
  sync_folders s user client_folders last_sync_at d = Ok fr ↔
  ∃ db, sync_folders_loop user d (working s) client_folders = Ok db
        ∧ fr = {| fr_session := commit (set_working s db);
                  fr_folders := select_server_folders db user last_sync_at |}.
Proof.
  unfold sync_folders.
  rewrite Result_bind_Ok. split; intros (db & Hloop & Hfr); exists db;
    (split; [done|]); congruence.
Qed.


(** * The scenarios of the specification *)

(** The server has n1 as of 10; alice sends n1 as of 20 with checkpoint 5.
    The stored note takes the client's state, its [synced_at] is the time
    of the pass, and the answer returns it. *)
Example scenario_newer_note :
  let out := sync_data Ex.db_n1 Ex.memo_on_disk Ex.alice
               Ex.request_newer_n1 Ex.clock40 in
  notes (stored out) !! "n1" = Some (assign_client_note Ex.n1 Ex.c1_edit 40)
  ∧ response out
    = Ok {| SyncResponse.notes := [assign_client_note Ex.n1 Ex.c1_edit 40];
            SyncResponse.folders := [];
            SyncResponse.sync_timestamp := 43 |}
  ∧ out_tasks out
    = [ {| task_note_id := "n1"; task_text := "new text";
           task_user_id := Ex.alice; task_title := "new" |} ].
Proof. vm_compute. auto. Qed.

(** The server has no folder f9; alice sends it.  The row is created for
    alice and the answer returns it. *)
Example scenario_new_folder :
  let out := sync_data Ex.empty_db Ex.no_files Ex.alice
               Ex.request_new_f9 Ex.clock40 in
  folders (stored out) !! "f9" = Some (new_folder Ex.alice Ex.cf9_new 42)
  ∧ response out
    = Ok {| SyncResponse.notes := [];
            SyncResponse.folders := [new_folder Ex.alice Ex.cf9_new 42];
            SyncResponse.sync_timestamp := 43 |}.
Proof. vm_compute. auto. Qed.

(** * Last write wins on one entry *)

(** C1, as the claim states it, fails: a deletion that is newer than the
    stored note clears [audio_path] once the media file is removed, so the
    row does not hold the [audio_path] the client sent. *)
Lemma overwrite_every_field_counterexample :
  ¬ (∀ user t d st c e st',
       select_note (np_db st) (NoteSyncItem.id c) user = Some e →
       NoteSyncItem.updated_at c > Note.updated_at e →
       sync_note user t d st c = Ok st' →
       ∃ row, notes (np_db st') !! NoteSyncItem.id c = Some row
              ∧ note_holds_client_payload row c).
Proof.
  intros H.
  destruct (H Ex.alice 40 41 Ex.st_n1 Ex.c1_delete Ex.n1 _
              eq_refl ltac:(reflexivity) eq_refl)
    as (row & Hrow & _ & _ & _ & Haudio & _).
  vm_compute in Hrow. injection Hrow as <-. discriminate Haudio.
Qed.

(** C1, amended.  For a batch entry whose id has a record [e] of the owner
    when the loop reaches it:
    - if the client's [updated_at] is strictly greater than the stored one
      and the step succeeds, the row holds the client's title, content,
      folder reference, date, deletion flag and [updated_at], its
      [synced_at] is the time of the pass, and its [audio_path] is the
      client's, or NULL when the entry is a deletion whose media file was
      removed; the step succeeds when the folder reference is unchanged or
      names a folder;
    - otherwise (equal timestamps included) the step succeeds and changes
      nothing.
    For a folder the step always succeeds; the row holds the client's name,
    color, deletion flag and [updated_at] in the first case, and the store
    is unchanged in the second. *)
Theorem client_strictly_newer_overwrites
    (user : string) (sync_time default_now : datetime)
    (st : NotesPass) (c : NoteSyncItem.t) (e : Note.t)
    (db : DB) (cf : FolderSyncItem.t) (ef : Folder.t) :
  (select_note (np_db st) (NoteSyncItem.id c) user = Some e →
   (NoteSyncItem.updated_at c > Note.updated_at e →
    (NoteSyncItem.folder_id c = Note.folder_id e
     ∨ folder_fk (np_db st) (NoteSyncItem.folder_id c) = true →
     is_Ok (sync_note user sync_time default_now st c) = true)
    ∧ ∀ st', sync_note user sync_time default_now st c = Ok st' →
        ∃ row, notes (np_db st') !! NoteSyncItem.id c = Some row
               ∧ note_holds_client_payload_but_audio row c
               ∧ Note.audio_path row
                 = (if NoteSyncItem.is_deleted c
                       && media_removed (np_fs st) (NoteSyncItem.audio_path c)
                    then None else NoteSyncItem.audio_path c)
               ∧ Note.synced_at row = Some sync_time
               ∧ Note.id row = Note.id e
               ∧ Note.user_id row = Note.user_id e
               ∧ Note.created_at row = Note.created_at e)
   ∧ (NoteSyncItem.updated_at c ≤ Note.updated_at e →
      sync_note user sync_time default_now st c = Ok st))
  ∧ (select_folder db (FolderSyncItem.id cf) user = Some ef →
     (FolderSyncItem.updated_at cf > Folder.updated_at ef →
      ∃ db' row, sync_folder user default_now db cf = Ok db'
                 ∧ folders db' !! FolderSyncItem.id cf = Some row
                 ∧ folder_holds_client_payload row cf
                 ∧ Folder.id row = Folder.id ef
                 ∧ Folder.user_id row = Folder.user_id ef
                 ∧ Folder.created_at row = Folder.created_at ef)
     ∧ (FolderSyncItem.updated_at cf ≤ Folder.updated_at ef →
        sync_folder user default_now db cf = Ok db)).
Proof.
  split.
  - intros Hsel. split.
    + intros Hgt. split.
      { intros Hfk. by eapply sync_note_existing_accepts. }
      intros st' Hstep.
      pose proof (sync_note_existing _ _ _ _ _ _ _ Hsel Hstep) as Hrow.
      apply gtb_gt in Hgt. rewrite Hgt in Hrow.
      eexists. split; [exact Hrow|].
      destruct (NoteSyncItem.is_deleted c && media_removed _ _);
        simpl; unfold note_holds_client_payload_but_audio; simpl; done.
    + intros Hle. by eapply sync_note_existing_not_newer.
  - intros Hsel. rewrite (sync_folder_existing _ _ _ _ _ Hsel). split.
    + intros Hgt%gtb_gt. rewrite Hgt.
      eexists _, _. split; [done|]. simpl. rewrite lookup_insert_eq.
      split; [done|]. unfold folder_holds_client_payload. simpl. done.
    + intros Hle%gtb_le. by rewrite Hle.
Qed.

Lemma client_strictly_newer_overwrites_witness :
  (∃ row, notes (np_db (Ex.st_n1_edited)) !! "n1" = Some row
          ∧ Note.title row = "new" ∧ Note.updated_at row = 20)
  ∧ sync_folder Ex.alice 41 Ex.db_f1 Ex.cf1_stale = Ok Ex.db_f1.
Proof.
  pose proof (client_strictly_newer_overwrites Ex.alice 40 41
                Ex.st_n1 Ex.c1_edit Ex.n1 Ex.db_f1 Ex.cf1_stale Ex.f1)
    as [Hnotes Hfolders].
  split.
  - destruct (Hnotes eq_refl) as [Hnewer _].
    destruct (Hnewer ltac:(reflexivity)) as [_ Hrow].
    destruct (Hrow Ex.st_n1_edited eq_refl)
      as (row & Hlook & (Htitle & _ & _ & _ & _ & Hupd) & _).
    exists row. auto.
  - destruct (Hfolders eq_refl) as [_ Hstale].
    apply Hstale. vm_compute. discriminate.
Defined.


(** * The returned delta *)

Lemma note_changed_since_spec t n :
  note_changed_since t n = true
  ↔ Note.updated_at n > t ∨ ∃ t', Note.synced_at n = Some t' ∧ t' > t.
Proof.
  unfold note_changed_since. rewrite orb_true_iff, gtb_gt.
  destruct (Note.synced_at n) as [t'|].
  - rewrite gtb_gt. split; [intros [?|?]; eauto|].
    intros [?|(? & [= <-] & ?)]; auto.
  - split; [intros [?|[=]]; auto|]. intros [?|(? & [=] & _)]; auto.
Qed.

Lemma elem_of_select_server_notes db user last_sync_at n :
  n ∈ select_server_notes db user last_sync_at
  ↔ (∃ k, notes db !! k = Some n)
    ∧ Note.user_id n = user
    ∧ match last_sync_at with
      | Some t =>
          Note.updated_at n > t ∨ ∃ t', Note.synced_at n = Some t' ∧ t' > t
      | None => True
      end.
Proof.
  unfold select_server_notes.
  rewrite list_elem_of_filter, elem_of_scalars_all.
  rewrite andb_True, bool_decide_spec.
  destruct last_sync_at as [t|].
  - rewrite Is_true_true, note_changed_since_spec. tauto.
  - rewrite Is_true_true. tauto.
Qed.

Lemma elem_of_select_server_folders db user last_sync_at f :
  f ∈ select_server_folders db user last_sync_at
  ↔ (∃ k, folders db !! k = Some f)
    ∧ Folder.user_id f = user
    ∧ match last_sync_at with
      | Some t => Folder.updated_at f > t
      | None => True
      end.
Proof.
  unfold select_server_folders.
  rewrite list_elem_of_filter, elem_of_scalars_all.
  rewrite andb_True, bool_decide_spec.
  destruct last_sync_at as [t|].
  - rewrite Is_true_true, gtb_gt. tauto.
  - rewrite Is_true_true. tauto.
Qed.





(** * Running a call again *)

(** C3, as the claim states it, fails on a batch with two entries for one
    id.  Alice has no note n9; her batch deletes n9 as of 30 and then
    creates n9 as of 5.  The first call skips the deletion and stores a live
    n9 changed at 5; the second call, with the same batch, finds n9 and
    lets the deletion win: n9 is then a tombstone changed at 30. *)
Lemma sync_twice_counterexample :
  ¬ (∀ db fs user sync_request clock fs2 clock2,
       stored (sync_data (stored (sync_data db fs user sync_request clock))
                 fs2 user sync_request clock2)
       = stored (sync_data db fs user sync_request clock)).
Proof.
  intros H.
  specialize (H Ex.empty_db Ex.no_files Ex.alice
                Ex.request_delete_then_create Ex.clock40 Ex.no_files Ex.clock60).
  apply (f_equal (λ db, Note.is_deleted <$> notes db !! "n9"%string)) in H.
  vm_compute in H. discriminate H.
Qed.


(** ** Entries that a pass has settled *)

Lemma unknown_deletions_last_notes_tail user t d st c st1 l :
  sync_note user t d st c = Ok st1 →
  unknown_deletions_last_notes (np_db st) user (c :: l) →
  unknown_deletions_last_notes (np_db st1) user l.
Proof.
  intros Hstep Hlast l1 c' l2 -> Hdel Hnone.
  apply (Hlast (c :: l1) c' l2); [done|done|].
  destruct (select_note (np_db st) (NoteSyncItem.id c') user) as [e|] eqn:Hsel;
    [|done].
  destruct (sync_note_mono _ _ _ _ _ _ _ _ Hstep Hsel) as (e' & Hsel' & _).
  congruence.
Qed.

Lemma sync_notes_loop_settles user t d l st st' :
  sync_notes_loop user t d st l = Ok st' →
  unknown_deletions_last_notes (np_db st) user l →
  Forall (λ c, ¬ note_entry_accepted user st' c) l.
Proof.
  revert st. induction l as [|c l IH]; intros st; simpl; [constructor|].
  intros (st1 & Hstep & Hloop)%Result_bind_Ok Hlast.
  pose proof (unknown_deletions_last_notes_tail _ _ _ _ _ _ _ Hstep Hlast)
    as Hlast1.
  constructor; [|by eapply IH].
  pose proof (sync_note_settles _ _ _ _ _ _ Hstep) as Hset.
  unfold note_entry_accepted in *.
  destruct (select_note (np_db st1) (NoteSyncItem.id c) user) as [e1|] eqn:Hsel1.
  - destruct (sync_notes_loop_mono _ _ _ _ _ _ _ _ Hloop Hsel1)
      as (e' & -> & Hle). lia.
  - assert (Hfresh : NoteSyncItem.id c ∉ NoteSyncItem.id <$> l).
    { apply (Hlast [] c l); [done| |].
      - by destruct (NoteSyncItem.is_deleted c).
      - destruct (select_note (np_db st) (NoteSyncItem.id c) user) as [e|]
          eqn:Hsel; [|done].
        destruct (sync_note_mono _ _ _ _ _ _ _ _ Hstep Hsel) as (e' & ? & _).
        congruence. }
    rewrite (select_note_ext _ (np_db st1)), Hsel1; [done|].
    by eapply sync_notes_loop_frame.
Qed.

Lemma sync_notes_loop_all_settled user t d l st :
  Forall (λ c, ¬ note_entry_accepted user st c) l →
  sync_notes_loop user t d st l = Ok st.
Proof.
  induction 1 as [|c l Hc _ IH]; simpl; [done|].
  by rewrite (sync_note_not_accepted _ _ _ _ _ Hc).
Qed.

Lemma unknown_deletions_last_folders_tail user d db c db1 l :
  sync_folder user d db c = Ok db1 →
  unknown_deletions_last_folders db user (c :: l) →
  unknown_deletions_last_folders db1 user l.
Proof.
  intros Hstep Hlast l1 c' l2 -> Hdel Hnone.
  apply (Hlast (c :: l1) c' l2); [done|done|].
  destruct (select_folder db (FolderSyncItem.id c') user) as [e|] eqn:Hsel;
    [|done].
  destruct (sync_folder_mono _ _ _ _ _ _ _ Hstep Hsel) as (e' & Hsel' & _).
  congruence.
Qed.

Lemma sync_folders_loop_settles user d l db db' :
  sync_folders_loop user d db l = Ok db' →
  unknown_deletions_last_folders db user l →
  Forall (λ c, ¬ folder_entry_accepted user db' c) l.
Proof.
  revert db. induction l as [|c l IH]; intros db; simpl; [constructor|].
  intros (db1 & Hstep & Hloop)%Result_bind_Ok Hlast.
  pose proof (unknown_deletions_last_folders_tail _ _ _ _ _ _ Hstep Hlast)
    as Hlast1.
  constructor; [|by eapply IH].
  pose proof (sync_folder_settles _ _ _ _ _ Hstep) as Hset.
  unfold folder_entry_accepted in *.
  destruct (select_folder db1 (FolderSyncItem.id c) user) as [e1|] eqn:Hsel1.
  - destruct (sync_folders_loop_mono _ _ _ _ _ _ _ Hloop Hsel1)
      as (e' & -> & Hle). lia.
  - assert (Hfresh : FolderSyncItem.id c ∉ FolderSyncItem.id <$> l).
    { apply (Hlast [] c l); [done| |].
      - by destruct (FolderSyncItem.is_deleted c).
      - destruct (select_folder db (FolderSyncItem.id c) user) as [e|]
          eqn:Hsel; [|done].
        destruct (sync_folder_mono _ _ _ _ _ _ _ Hstep Hsel) as (e' & ? & _).
        congruence. }
    rewrite (select_folder_ext _ db1), Hsel1; [done|].
    by eapply sync_folders_loop_frame.
Qed.

Lemma sync_folders_loop_all_settled user d l db :
  Forall (λ c, ¬ folder_entry_accepted user db c) l →
  sync_folders_loop user d db l = Ok db.
Proof.
  induction 1 as [|c l Hc _ IH]; simpl; [done|].
  by rewrite (sync_folder_not_accepted _ _ _ _ Hc).
Qed.

Lemma note_entry_accepted_ext user st st' c :
  notes (np_db st) = notes (np_db st') →
  note_entry_accepted user st c ↔ note_entry_accepted user st' c.
Proof.
  intros Hn. unfold note_entry_accepted.
  by rewrite (select_note_ext (np_db st) (np_db st')) by (by rewrite Hn).
Qed.

Lemma folder_entry_accepted_ext user db db' c :
  folders db = folders db' →
  folder_entry_accepted user db c ↔ folder_entry_accepted user db' c.
Proof.
  intros Hn. unfold folder_entry_accepted.
  by rewrite (select_folder_ext db db') by (by rewrite Hn).
Qed.

(** A second run of the notes loop on what the first run left, whatever the
    clock and the files then, changes nothing. *)
Lemma sync_notes_loop_again user t d t' d' l st st' st2 :
  sync_notes_loop user t d st l = Ok st' →
  unknown_deletions_last_notes (np_db st) user l →
  notes (np_db st2) = notes (np_db st') →
  sync_notes_loop user t' d' st2 l = Ok st2.
Proof.
  intros Hloop Hlast Hn. apply sync_notes_loop_all_settled.
  eapply Forall_impl; [by eapply sync_notes_loop_settles|].
  intros c Hc. simpl in Hc. by rewrite (note_entry_accepted_ext _ st2 st').
Qed.

Lemma sync_folders_loop_again user d d' l db db' db2 :
  sync_folders_loop user d db l = Ok db' →
  unknown_deletions_last_folders db user l →
  folders db2 = folders db' →
  sync_folders_loop user d' db2 l = Ok db2.
Proof.
  intros Hloop Hlast Hn. apply sync_folders_loop_all_settled.
  eapply Forall_impl; [by eapply sync_folders_loop_settles|].
  intros c Hc. simpl in Hc. by rewrite (folder_entry_accepted_ext _ db2 db').
Qed.

Lemma unknown_deletions_last_folders_ext db db' user l :
  folders db = folders db' →
  unknown_deletions_last_folders db user l →
  unknown_deletions_last_folders db' user l.
Proof.
  intros Hf Hlast l1 c l2 Hl Hdel Hnone. apply (Hlast l1 c l2 Hl Hdel).
  rewrite <- Hnone. apply select_folder_ext. by rewrite Hf.
Qed.

(** A batch with pairwise distinct ids meets the condition of C3. *)
Lemma distinct_ids_unknown_deletions_last db user client_notes client_folders :
  NoDup (NoteSyncItem.id <$> client_notes) →
  NoDup (FolderSyncItem.id <$> client_folders) →
  unknown_deletions_last_notes db user client_notes
  ∧ unknown_deletions_last_folders db user client_folders.
Proof.
  intros Hn Hf. split.
  - intros l1 c l2 -> _ _. rewrite fmap_app, fmap_cons in Hn.
    apply NoDup_app in Hn as (_ & _ & Hn). by apply NoDup_cons in Hn as [? _].
  - intros l1 c l2 -> _ _. rewrite fmap_app, fmap_cons in Hf.
    apply NoDup_app in Hf as (_ & _ & Hf). by apply NoDup_cons in Hf as [? _].
Qed.


(** ** The loops fail or succeed whatever the clock and the files *)

Lemma folder_fk_sim db db' o :
  (∀ k, is_Some (folders db !! k) ↔ is_Some (folders db' !! k)) →
  folder_fk db o = folder_fk db' o.
Proof.
  intros Hf. destruct o as [k|]; [|done]. simpl.
  apply bool_decide_ext, Hf.
Qed.

Lemma notes_sim_insert db db' k row row' :
  notes_sim db db' → note_sim row row' →
  notes_sim {| notes := <[k := row]> (notes db); folders := folders db |}
            {| notes := <[k := row']> (notes db'); folders := folders db' |}.
Proof.
  intros [Hf Hn] Hrow. split; [done|]. intros k'. simpl.
  destruct (decide (k' = k)) as [->|Hk].
  - rewrite !lookup_insert_eq. by constructor.
  - rewrite !lookup_insert_ne by done. apply Hn.
Qed.

Lemma update_note_sim db db' k old old' new new' :
  notes_sim db db' → note_sim old old' → note_sim new new' →
  Result_rel notes_sim (update_note db k old new) (update_note db' k old' new').
Proof.
  intros Hsim (_ & _ & Hof) Hnew. pose proof Hnew as (_ & _ & Hnf).
  unfold update_note.
  rewrite <- Hof, <- Hnf, <- (folder_fk_sim db db') by apply Hsim.
  destruct (bool_decide _ || folder_fk _ _); simpl; [|done].
  by apply notes_sim_insert.
Qed.

Lemma insert_note_sim db db' n n' :
  notes_sim db db' → Note.id n = Note.id n' → note_sim n n' →
  Result_rel notes_sim (insert_note db n) (insert_note db' n').
Proof.
  intros Hsim Hid Hn. pose proof Hn as (_ & _ & Hnf).
  unfold insert_note. rewrite <- Hid, <- Hnf.
  rewrite <- (folder_fk_sim db db') by apply Hsim.
  assert (bool_decide (is_Some (notes db !! Note.id n))
          = bool_decide (is_Some (notes db' !! Note.id n))) as <-.
  { apply bool_decide_ext. destruct Hsim as [_ Hk].
    destruct (Hk (Note.id n)); split; intros [? [=]]; eauto. }
  destruct (bool_decide _); simpl; [done|].
  destruct (negb _); simpl; [done|].
  by apply notes_sim_insert.
Qed.

Lemma sync_note_sim user t d t' d' st st2 c :
  notes_sim (np_db st) (np_db st2) →
  Result_rel (λ a b, notes_sim (np_db a) (np_db b))
    (sync_note user t d st c) (sync_note user t' d' st2 c).
Proof.
  intros Hsim. pose proof Hsim as [_ Hn]. specialize (Hn (NoteSyncItem.id c)).
  unfold sync_note, select_note.
  destruct Hn as [e e2 He|]; [|].
  - pose proof He as (Hu & Hupd & _). rewrite <- Hu.
    destruct (decide (Note.user_id e = user)) as [_|_].
    + rewrite <- Hupd.
      destruct (NoteSyncItem.updated_at c >? Note.updated_at e); [|done].
      destruct (NoteSyncItem.is_deleted c); simpl.
      * rewrite !remove_media_removes.
        destruct (media_removed (np_fs st) _), (media_removed (np_fs st2) _);
          simpl; (eapply Result_rel_bind;
            [apply update_note_sim; [done|done|]|by intros a a' ?]);
          repeat split; simpl; done.
      * eapply Result_rel_bind; [|by intros a a' ?].
        apply update_note_sim; [done|done|]. repeat split; simpl; done.
    + destruct (NoteSyncItem.is_deleted c); simpl; [done|].
      eapply Result_rel_bind; [|by intros a a' ?].
      apply insert_note_sim; [done|done|]. repeat split; simpl; done.
  - destruct (NoteSyncItem.is_deleted c); simpl; [done|].
    eapply Result_rel_bind; [|by intros a a' ?].
    apply insert_note_sim; [done|done|]. repeat split; simpl; done.
Qed.

Lemma sync_notes_loop_sim user t d t' d' l st st2 :
  notes_sim (np_db st) (np_db st2) →
  Result_rel (λ a b, notes_sim (np_db a) (np_db b))
    (sync_notes_loop user t d st l) (sync_notes_loop user t' d' st2 l).
Proof.
  revert st st2. induction l as [|c l IH]; intros st st2 Hsim; simpl; [done|].
  eapply Result_rel_bind; [by apply sync_note_sim|]. auto.
Qed.

Lemma notes_sim_refl db : notes_sim db db.
Proof.
  split; [done|]. intros k. destruct (notes db !! k); constructor. done.
Qed.

Lemma sync_notes_loop_Err user t d t' d' l st st2 e :
  sync_notes_loop user t d st l = Err e →
  np_db st2 = np_db st →
  ∃ e', sync_notes_loop user t' d' st2 l = Err e'.
Proof.
  intros Herr Hdb.
  pose proof (sync_notes_loop_sim user t d t' d' l st st2) as Hrel.
  rewrite Hdb, Herr in Hrel. specialize (Hrel (notes_sim_refl _)).
  destruct (sync_notes_loop user t' d' st2 l); [done|eauto].
Qed.

Lemma folders_sim_insert db db' k row row' :
  folders_sim db db' → folder_sim row row' →
  folders_sim {| notes := notes db; folders := <[k := row]> (folders db) |}
              {| notes := notes db'; folders := <[k := row']> (folders db') |}.
Proof.
  intros Hn Hrow k'. simpl.
  destruct (decide (k' = k)) as [->|Hk].
  - rewrite !lookup_insert_eq. by constructor.
  - rewrite !lookup_insert_ne by done. apply Hn.
Qed.

Lemma sync_folder_sim user d d' db db2 c :
  folders_sim db db2 →
  Result_rel folders_sim (sync_folder user d db c) (sync_folder user d' db2 c).
Proof.
  intros Hsim. pose proof (Hsim (FolderSyncItem.id c)) as Hn.
  assert (Hins : Result_rel folders_sim
            (insert_folder db (new_folder user c d))
            (insert_folder db2 (new_folder user c d'))).
  { unfold insert_folder. simpl.
    assert (bool_decide (is_Some (folders db !! FolderSyncItem.id c))
            = bool_decide (is_Some (folders db2 !! FolderSyncItem.id c))) as <-.
    { apply bool_decide_ext. destruct Hn; split; intros [? [=]]; eauto. }
    destruct (bool_decide _); simpl; [done|].
    apply folders_sim_insert; [done|]. split; done. }
  unfold sync_folder, select_folder.
  destruct Hn as [e e2 He|]; [|].
  - pose proof He as (Hu & Hupd). rewrite <- Hu.
    destruct (decide (Folder.user_id e = user)) as [_|_].
    + rewrite <- Hupd.
      destruct (FolderSyncItem.updated_at c >? Folder.updated_at e); [|done].
      simpl. apply folders_sim_insert; [done|]. split; simpl; done.
    + destruct (FolderSyncItem.is_deleted c); simpl; done.
  - destruct (FolderSyncItem.is_deleted c); simpl; done.
Qed.

Lemma sync_folders_loop_sim user d d' l db db2 :
  folders_sim db db2 →
  Result_rel folders_sim
    (sync_folders_loop user d db l) (sync_folders_loop user d' db2 l).
Proof.
  revert db db2. induction l as [|c l IH]; intros db db2 Hsim; simpl; [done|].
  eapply Result_rel_bind; [by apply sync_folder_sim|]. auto.
Qed.

Lemma sync_folders_loop_Err user d d' l db e :
  sync_folders_loop user d db l = Err e →
  ∃ e', sync_folders_loop user d' db l = Err e'.
Proof.
  intros Herr.
  pose proof (sync_folders_loop_sim user d d' l db db) as Hrel.
  rewrite Herr in Hrel.
  destruct (sync_folders_loop user d' db l); [|eauto].
  destruct Hrel. intros k. destruct (folders db !! k); constructor. done.
Qed.


(** ** Two calls in a row *)

(** C3, amended.  Provided that in each batch an entry that deletes an id
    of which the owner has no record is the last entry for that id (as in
    every batch whose ids are pairwise distinct), a second call with the
    same batches and checkpoint, at any later time and whatever the files
    then present, leaves the stored notes and folders exactly as the first
    call left them.  This covers the calls that fail: a failed pass stores
    nothing and fails again. *)
Theorem sync_twice_same_store
    (db : DB) (fs fs2 : FileSystem) (user : string)
    (sync_request : SyncRequest.t) (clock clock2 : Clock) :
  unknown_deletions_last_notes db user (SyncRequest.notes sync_request) →
  unknown_deletions_last_folders db user (SyncRequest.folders sync_request) →
  stored (sync_data (stored (sync_data db fs user sync_request clock))
            fs2 user sync_request clock2)
  = stored (sync_data db fs user sync_request clock).
Proof.
  intros Hnotes Hfolders. unfold sync_data at 2 3.
  destruct (sync_notes (begin db) fs user _ _ _ _ _) as [nr|e] eqn:Hn1.
  2:{ simpl. unfold sync_data, sync_notes in *.
      destruct (sync_notes_loop user (notes_sync_time clock) _ _ _)
        as [st|e1] eqn:Hloop; [done|].
      destruct (sync_notes_loop_Err user _ _ (notes_sync_time clock2)
                  (notes_default_now clock2) _ _
                  {| np_db := working (begin db); np_fs := fs2;
                     notes_to_index := [] |} _ Hloop eq_refl) as [e' ->].
      done. }
  apply sync_notes_Ok in Hn1 as (st & Hloop & ->). simpl.
  pose proof (sync_notes_loop_folders _ _ _ _ _ _ Hloop) as Hfst.
  simpl in Hfst.
  destruct (sync_folders _ user _ _ _) as [fr|e] eqn:Hf1.
  - apply sync_folders_Ok in Hf1 as (dbf & Hfloop & ->). simpl in *.
    pose proof (sync_folders_loop_notes _ _ _ _ _ Hfloop) as Hnf.
    unfold sync_data, sync_notes. simpl.
    rewrite (sync_notes_loop_again user _ _ (notes_sync_time clock2)
               (notes_default_now clock2) _ _ _
               {| np_db := dbf; np_fs := fs2; notes_to_index := [] |}
               Hloop Hnotes Hnf).
    simpl. unfold sync_folders. simpl.
    rewrite (sync_folders_loop_again user _ (folders_default_now clock2)
               _ _ _ dbf Hfloop); [done| |done].
    by eapply unknown_deletions_last_folders_ext.
  - simpl. unfold sync_data, sync_notes. simpl.
    rewrite (sync_notes_loop_again user _ _ (notes_sync_time clock2)
               (notes_default_now clock2) _ _ _
               {| np_db := np_db st; np_fs := fs2; notes_to_index := [] |}
               Hloop Hnotes eq_refl).
    simpl. unfold sync_folders in *. simpl in *.
    destruct (sync_folders_loop user (folders_default_now clock) _ _)
      as [dbf|e1] eqn:Hfloop; [done|].
    destruct (sync_folders_loop_Err user _ (folders_default_now clock2)
                _ _ _ Hfloop) as [e' ->].
    done.
Qed.

Lemma sync_twice_same_store_witness :
  stored (sync_data (stored (sync_data Ex.db_n1 Ex.memo_on_disk Ex.alice
                               Ex.request_edit_n1 Ex.clock40))
            Ex.no_files Ex.alice Ex.request_edit_n1 Ex.clock60)
  = stored (sync_data Ex.db_n1 Ex.memo_on_disk Ex.alice
              Ex.request_edit_n1 Ex.clock40).
Proof.
  apply sync_twice_same_store.
  - intros l1 c l2 Hl Hdel Hnone.
    destruct l1 as [|c1 [|c2 [|c3 l1]]]; simplify_eq/=.
    apply not_elem_of_nil.
  - intros l1 c l2 Hl Hdel Hnone.
    destruct l1 as [|c1 [|c2 l1]]; simplify_eq/=.
Defined.


(** * New-record tombstone suppression *)

(** C4.  A batch entry with [is_deleted = true] whose id has no record of
    the owner when the loop reaches it is a no-op: the step returns the
    state it was given (no row inserted, no row changed), and the whole pass
    -- stored tables, files, queued tasks, returned delta -- is the pass of
    the batch without the entry.  This holds for notes and for folders. *)
Theorem deleted_unknown_entry_is_noop
    (s : Session) (fs : FileSystem) (user : string)
    (last_sync_at : option datetime) (background_tasks : option (list IndexTask))
    (sync_time default_now : datetime)
    (before after : list NoteSyncItem.t) (c : NoteSyncItem.t)
    (fbefore fafter : list FolderSyncItem.t) (cf : FolderSyncItem.t) :
  (NoteSyncItem.is_deleted c = true →
   (∀ st1, sync_notes_loop user sync_time default_now
             (notes_pass_start s fs) before = Ok st1 →
           select_note (np_db st1) (NoteSyncItem.id c) user = None) →
   (∀ st1, sync_notes_loop user sync_time default_now
             (notes_pass_start s fs) before = Ok st1 →
           sync_note user sync_time default_now st1 c = Ok st1)
   ∧ sync_notes s fs user (before ++ c :: after) last_sync_at
       background_tasks sync_time default_now
     = sync_notes s fs user (before ++ after) last_sync_at
         background_tasks sync_time default_now)
  ∧ (FolderSyncItem.is_deleted cf = true →
     (∀ db1, sync_folders_loop user default_now (working s) fbefore = Ok db1 →
             select_folder db1 (FolderSyncItem.id cf) user = None) →
     (∀ db1, sync_folders_loop user default_now (working s) fbefore = Ok db1 →
             sync_folder user default_now db1 cf = Ok db1)
     ∧ sync_folders s user (fbefore ++ cf :: fafter) last_sync_at default_now
       = sync_folders s user (fbefore ++ fafter) last_sync_at default_now).
Proof.
  split.
  - intros Hdel Hunknown.
    assert (Hstep : ∀ st1,
      sync_notes_loop user sync_time default_now
        (notes_pass_start s fs) before = Ok st1 →
      sync_note user sync_time default_now st1 c = Ok st1).
    { intros st1 Hreach. apply sync_note_unknown_deleted; auto. }
    split; [exact Hstep|].
    unfold sync_notes. fold (notes_pass_start s fs).
    by rewrite (sync_notes_loop_skip _ _ _ _ _ _ _ Hstep).
  - intros Hdel Hunknown.
    assert (Hstep : ∀ db1,
      sync_folders_loop user default_now (working s) fbefore = Ok db1 →
      sync_folder user default_now db1 cf = Ok db1).
    { intros db1 Hreach. apply sync_folder_unknown_deleted; auto. }
    split; [exact Hstep|].
    unfold sync_folders.
    by rewrite (sync_folders_loop_skip _ _ _ _ _ _ Hstep).
Qed.

Lemma deleted_unknown_entry_is_noop_witness :
  sync_notes (begin Ex.db_n1) Ex.memo_on_disk Ex.alice
    ([Ex.c1_edit] ++ Ex.c9_deleted :: []) (Some 5) (Some []) 40 41
  = sync_notes (begin Ex.db_n1) Ex.memo_on_disk Ex.alice
      ([Ex.c1_edit] ++ []) (Some 5) (Some []) 40 41
  ∧ sync_folders (begin Ex.db_f1) Ex.alice
      ([Ex.cf1_rename] ++ Ex.cf9_deleted :: []) (Some 5) 41
    = sync_folders (begin Ex.db_f1) Ex.alice
        ([Ex.cf1_rename] ++ []) (Some 5) 41.
Proof.
  split.
  - apply (proj1 (deleted_unknown_entry_is_noop (begin Ex.db_n1)
             Ex.memo_on_disk Ex.alice (Some 5) (Some []) 40 41
             [Ex.c1_edit] [] Ex.c9_deleted [] [] Ex.cf9_deleted)).
    + reflexivity.
    + intros st1 H. vm_compute in H. injection H as <-. reflexivity.
  - apply (proj2 (deleted_unknown_entry_is_noop (begin Ex.db_f1)
             Ex.memo_on_disk Ex.alice (Some 5) (Some []) 40 41
             [] [] Ex.c9_deleted [Ex.cf1_rename] [] Ex.cf9_deleted)).
    + reflexivity.
    + intros db1 H. vm_compute in H. injection H as <-. reflexivity.
Defined.


(** * Deleting a folder *)

Lemma delete_folder_Ok s folder_id hard_delete current_user now onupdate_now s' :
  delete_folder s folder_id hard_delete current_user now onupdate_now = Ok s' ↔
  ∃ db', delete_folder_changes (working s) folder_id hard_delete current_user
           now onupdate_now = Ok db'
         ∧ s' = commit (set_working s db').
Proof.
  unfold delete_folder. rewrite Result_bind_Ok.
  split; intros (db' & Hch & Hs'); exists db'; (split; [done|]); congruence.
Qed.

Lemma move_notes_out_lookup db folder_id user onupdate_now k :
  notes (move_notes_out db folder_id user onupdate_now) !! k
  = (λ n : Note.t,
       if bool_decide (Note.folder_id n = Some folder_id ∧ Note.user_id n = user)
       then unfile_note onupdate_now n else n) <$> notes db !! k.
Proof. unfold move_notes_out. simpl. apply lookup_fmap. Qed.

(** After the changes of [delete_folder], a note points to the folder only
    if it did before, belongs to someone else, and the folder was not
    deleted for good. *)
Lemma delete_folder_changes_notes db folder_id hard_delete user now onupdate_now db' k :
  delete_folder_changes db folder_id hard_delete user now onupdate_now = Ok db' →
  notes db' !! k
  = (λ n : Note.t,
       if bool_decide (Note.folder_id n = Some folder_id
                       ∧ (Note.user_id n = user ∨ hard_delete = true))
       then unfile_note onupdate_now n else n) <$> notes db !! k.
Proof.
  unfold delete_folder_changes.
  destruct (select_folder db folder_id user) as [folder|]; [|done].
  destruct hard_delete; intros [= <-].
  - unfold db_delete_folder. cbn [notes].
    rewrite lookup_fmap, move_notes_out_lookup.
    destruct (notes db !! k) as [n|]; [|done]. simpl. f_equal.
    repeat case_bool_decide; simpl in *; try done;
      exfalso; intuition congruence.
  - unfold flush_folder, update_folder. cbn [notes].
    rewrite move_notes_out_lookup.
    destruct (notes db !! k) as [n|]; [|done]. simpl. f_equal.
    repeat case_bool_decide; simpl in *; try done;
      exfalso; intuition congruence.
Qed.

Lemma delete_folder_changes_folder db folder_id hard_delete user now onupdate_now db' :
  delete_folder_changes db folder_id hard_delete user now onupdate_now = Ok db' →
  ∃ folder, select_folder db folder_id user = Some folder
    ∧ folders db' !! folder_id
      = if hard_delete then None
        else Some (flushed_folder folder (soft_delete_folder folder now)
                     onupdate_now).
Proof.
  unfold delete_folder_changes.
  destruct (select_folder db folder_id user) as [folder|]; [|done].
  intros Hch. exists folder. split; [done|].
  destruct hard_delete; injection Hch as <-; simpl.
  - apply lookup_delete_eq.
  - apply lookup_insert_eq.
Qed.

Lemma delete_folder_not_found s folder_id hard_delete user now onupdate_now :
  select_folder (working s) folder_id user = None →
  delete_folder s folder_id hard_delete user now onupdate_now = Err NotFound.
Proof.
  intros Hsel. unfold delete_folder, delete_folder_changes. by rewrite Hsel.
Qed.

Lemma flushed_folder_soft_delete folder now onupdate_now :
  let row := flushed_folder folder (soft_delete_folder folder now)
               onupdate_now in
  Folder.id row = Folder.id folder
  ∧ Folder.user_id row = Folder.user_id folder
  ∧ Folder.name row = Folder.name folder
  ∧ Folder.color row = Folder.color folder
  ∧ Folder.created_at row = Folder.created_at folder
  ∧ Folder.is_deleted row = true
  ∧ Folder.updated_at row
    = (if bool_decide (Folder.updated_at folder = now
                       ∧ Folder.is_deleted folder = false)
       then onupdate_now else now).
Proof.
  cbv zeta. unfold flushed_folder, soft_delete_folder.
  destruct folder as [i u n c ca ua del]. simpl.
  destruct (decide (_ = _)) as [Heq|Hne]; simpl.
  - injection Heq as Hnow Hdel. subst. repeat split; try done.
    rewrite bool_decide_eq_false_2; [done|]. by intros [_ ?].
  - destruct (decide (now = ua)) as [->|Hnow]; simpl.
    + repeat split; try done.
      rewrite bool_decide_eq_true_2; [done|]. split; [done|].
      destruct del; [by destruct Hne|done].
    + repeat split; try done.
      rewrite bool_decide_eq_false_2; [done|]. intros [? _]. congruence.
Qed.

(** C5, as the claim states it, fails: a folder is also deleted by an
    entry of a synchronisation, and that path writes the folder alone.
    Here alice has folder f1 with the notes a and b in it, and her device
    sends the deletion of f1: the call succeeds, f1 is stored as deleted,
    and note a is stored in f1 as before. *)
Lemma folder_deleted_by_sync_counterexample :
  ¬ (∀ db fs user sync_request clock r folder_id old row,
       response (sync_data db fs user sync_request clock) = Ok r →
       select_folder db folder_id user = Some old →
       Folder.is_deleted old = false →
       folders (stored (sync_data db fs user sync_request clock)) !! folder_id
       = Some row →
       Folder.is_deleted row = true →
       ∀ k n,
         notes (stored (sync_data db fs user sync_request clock)) !! k
         = Some n →
         Note.user_id n = user →
         Note.folder_id n ≠ Some folder_id).
Proof.
  intros H.
  apply (H Ex.db_filed Ex.no_files Ex.alice Ex.request_delete_f1 Ex.clock40
           {| SyncResponse.notes := [Ex.filed "a" false; Ex.filed "b" true];
              SyncResponse.folders := [assign_client_folder Ex.f1 Ex.cf1_delete];
              SyncResponse.sync_timestamp := 43 |}
           "f1"%string Ex.f1 (assign_client_folder Ex.f1 Ex.cf1_delete)
           ltac:(vm_compute; reflexivity) eq_refl eq_refl
           ltac:(vm_compute; reflexivity) eq_refl
           "a"%string (Ex.filed "a" false)
           ltac:(vm_compute; reflexivity) eq_refl eq_refl).
Qed.

(** C5, amended.  When owner U deletes a folder F of hers through
    [delete_folder], soft or hard, the handler succeeds and commits once,
    and the state it commits holds together
    - for every note of U that pointed to F, deleted or not, the same note
      with a null folder reference (and its deletion flag as it was), so
      that no note of U points to F any more, and
    - the folder mutation: the row is gone (hard), or it is flagged deleted
      (soft) and dated by the time of the call, or by the clock of the
      store when the time of the call is the date that a folder not yet
      deleted had.
    Nothing is stored before that commit: the changes are made on the
    session's working state.  A deletion of F that is an entry of a
    synchronisation, newer than the folder, flags the folder deleted and
    leaves every note as it is. *)
Theorem delete_folder_unfiles_notes
    (s : Session) (folder_id : string) (hard_delete : bool)
    (current_user : string) (now onupdate_now : datetime) (folder : Folder.t) :
  select_folder (working s) folder_id current_user = Some folder →
  (∃ s', delete_folder s folder_id hard_delete current_user now onupdate_now
         = Ok s'
     ∧ (∃ db', delete_folder_changes (working s) folder_id hard_delete
                 current_user now onupdate_now = Ok db'
               ∧ s' = commit (set_working s db'))
     ∧ (∀ k n, notes (working s) !! k = Some n →
               Note.user_id n = current_user →
               Note.folder_id n = Some folder_id →
               ∃ n', notes (committed s') !! k = Some n'
                     ∧ Note.folder_id n' = None
                     ∧ Note.is_deleted n' = Note.is_deleted n
                     ∧ Note.user_id n' = current_user)
     ∧ (∀ k n', notes (committed s') !! k = Some n' →
                Note.user_id n' = current_user →
                Note.folder_id n' ≠ Some folder_id)
     ∧ (if hard_delete then folders (committed s') !! folder_id = None
        else ∃ f', folders (committed s') !! folder_id = Some f'
                   ∧ Folder.is_deleted f' = true
                   ∧ Folder.updated_at f'
                     = (if bool_decide (Folder.updated_at folder = now
                                        ∧ Folder.is_deleted folder = false)
                        then onupdate_now else now)
                   ∧ Folder.user_id f' = current_user))
  ∧ (∀ c default_now,
       FolderSyncItem.id c = folder_id →
       FolderSyncItem.is_deleted c = true →
       FolderSyncItem.updated_at c > Folder.updated_at folder →
       ∃ db' f',
         sync_folder current_user default_now (working s) c = Ok db'
         ∧ folders db' !! folder_id = Some f'
         ∧ Folder.is_deleted f' = true
         ∧ notes db' = notes (working s)).
Proof.
  intros Hfound. split.
  - assert (∃ s', delete_folder s folder_id hard_delete current_user now
                    onupdate_now = Ok s') as [s' Hdel].
    { unfold delete_folder, delete_folder_changes. rewrite Hfound.
      destruct hard_delete; simpl; eauto. }
    exists s'. split; [done|].
    pose proof Hdel as (db' & Hch & ->)%delete_folder_Ok.
    split; [eauto|]. simpl. split; [|split].
    + intros k n Hk Hu Hf.
      rewrite (delete_folder_changes_notes _ _ _ _ _ _ _ k Hch), Hk. simpl.
      rewrite bool_decide_eq_true_2 by auto.
      eexists. split; [done|]. simpl. done.
    + intros k n'.
      rewrite (delete_folder_changes_notes _ _ _ _ _ _ _ k Hch).
      destruct (notes (working s) !! k) as [n|]; [|done]. simpl.
      intros [= <-]. case_bool_decide as Hcase; simpl; [done|].
      intros Hu Hf. apply Hcase. auto.
    + destruct (delete_folder_changes_folder _ _ _ _ _ _ _ Hch)
        as (folder' & Hsel & Hrow).
      rewrite Hrow. destruct hard_delete; [done|].
      rewrite Hfound in Hsel. injection Hsel as <-.
      apply select_folder_Some in Hfound as [_ Hu].
      destruct (flushed_folder_soft_delete folder now onupdate_now)
        as (_ & Hu' & _ & _ & _ & Hdeleted & Hdate).
      eexists. split; [done|]. split; [done|]. split; [done|]. congruence.
  - intros c default_now <- Hdeleted Hnewer.
    rewrite (sync_folder_existing _ _ _ _ _ Hfound).
    apply gtb_gt in Hnewer. rewrite Hnewer.
    eexists _, _. split; [done|]. simpl. rewrite lookup_insert_eq.
    split; [done|]. split; [|done]. simpl. done.
Qed.

Lemma delete_folder_unfiles_notes_witness :
  ∃ s', delete_folder (begin Ex.db_filed) "f1" false Ex.alice 50 51 = Ok s'
        ∧ ∃ n', notes (committed s') !! "b" = Some n'
                ∧ Note.folder_id n' = None ∧ Note.is_deleted n' = true.
Proof.
  destruct (delete_folder_unfiles_notes (begin Ex.db_filed) "f1" false
              Ex.alice 50 51 Ex.f1 eq_refl)
    as [(s' & Hdel & _ & Hnotes & _) _].
  exists s'. split; [exact Hdel|].
  destruct (Hnotes "b"%string (Ex.filed "b" true) eq_refl eq_refl eq_refl)
    as (n' & Hk & Hf & Hd & _).
  exists n'. auto.
Defined.


(** * Validation of the request body *)

Lemma mapM_all_valid {A B} (f : A → option B) (l : list A) :
  Forall (λ x, is_Some (f x)) l → mapM f l = Some (omap f l).
Proof.
  induction 1 as [|x l [y Hy] _ IH]; [done|].
  simpl. rewrite Hy. simpl. rewrite IH. done.
Qed.

Lemma validate_sync_request_None body :
  validate_sync_request body = None
  ↔ Exists (λ raw, validate_note raw = None) (RawSyncRequest.notes body)
    ∨ Exists (λ raw, validate_folder raw = None) (RawSyncRequest.folders body).
Proof.
  unfold validate_sync_request. rewrite <- !mapM_None.
  destruct (mapM validate_note _) as [ns|]; simpl; [|split; auto].
  destruct (mapM validate_folder _) as [fs|]; simpl; [|split; auto].
  split; [done|]. intros [[=]|[=]].
Qed.

(** C6, as the claim states it, fails: the body is validated as a whole
    against [SyncRequest], and one note without [updated_at] makes the
    call answer a validation error with nothing processed; the well-formed
    note n9 of the same batch is not stored, while rejecting the malformed
    entry alone would have stored it. *)
Lemma reject_and_continue_counterexample :
  ¬ (∀ db fs current_user body clock,
       stored (post_sync db fs current_user body clock)
       = stored (sync_data db fs current_user (reject_and_continue body) clock)).
Proof.
  intros H.
  specialize (H Ex.empty_db Ex.no_files Ex.alice Ex.body_one_malformed
                Ex.clock40).
  apply (f_equal (λ db, notes db !! "n9"%string)) in H.
  vm_compute in H. discriminate H.
Qed.

(** C6, amended.  A sync call whose batch contains a malformed entry (a
    note without [id], [date] or [updated_at], a folder without [id],
    [name] or [updated_at]) is rejected as a whole with a validation error
    before any entry is processed: no stored record changes, no file is
    removed and no task is queued.  A body all of whose entries are
    well-formed is processed in full. *)
Theorem malformed_entry_rejects_request
    (db : DB) (fs : FileSystem) (current_user : string)
    (body : RawSyncRequest.t) (clock : Clock) :
  (Exists (λ raw, validate_note raw = None) (RawSyncRequest.notes body)
   ∨ Exists (λ raw, validate_folder raw = None) (RawSyncRequest.folders body) →
   post_sync db fs current_user body clock = rejected db fs)
  ∧ (Forall (λ raw, is_Some (validate_note raw)) (RawSyncRequest.notes body) →
     Forall (λ raw, is_Some (validate_folder raw)) (RawSyncRequest.folders body) →
     post_sync db fs current_user body clock
     = sync_data db fs current_user (reject_and_continue body) clock).
Proof.
  split.
  - intros Hbad%validate_sync_request_None. unfold post_sync.
    by rewrite Hbad.
  - intros Hnotes Hfolders. unfold post_sync, validate_sync_request.
    rewrite (mapM_all_valid _ _ Hnotes), (mapM_all_valid _ _ Hfolders).
    done.
Qed.

Lemma malformed_entry_rejects_request_witness :
  post_sync Ex.empty_db Ex.no_files Ex.alice Ex.body_one_malformed Ex.clock40
  = rejected Ex.empty_db Ex.no_files.
Proof.
  apply (proj1 (malformed_entry_rejects_request Ex.empty_db Ex.no_files
                  Ex.alice Ex.body_one_malformed Ex.clock40)).
  left. apply Exists_cons_tl, Exists_cons_hd. reflexivity.
Defined.


(** * Re-indexing *)

Lemma elem_of_trigger_indexing db user (refs : list string) task :
  task ∈ omap (index_task_for db user) refs
  ↔ ∃ i note, i ∈ refs ∧ notes db !! i = Some note
              ∧ Py.truthy (Note.content note) = true
              ∧ task = index_task user note.
Proof.
  rewrite list_elem_of_omap. unfold index_task_for. split.
  - intros (i & Hi & Htask).
    destruct (notes db !! i) as [note|] eqn:Hnote; [|done].
    destruct (Py.truthy (Note.content note)) eqn:Hc; [|done].
    injection Htask as <-. eauto 10.
  - intros (i & note & Hi & Hnote & Hc & ->). exists i.
    by rewrite Hnote, Hc.
Qed.

(** C7, as the claim states it, fails: alice creates note n7 with a title
    and no content; the note is stored and nothing is queued, since line 110
    queues a note only when its content is not empty. *)
Lemma title_only_note_counterexample :
  ¬ (∀ s fs user c last_sync_at queue sync_time default_now nr,
       sync_notes s fs user [c] last_sync_at (Some queue)
         sync_time default_now = Ok nr →
       note_entry_accepted user (notes_pass_start s fs) c →
       ∃ new, nr_background_tasks nr = Some (queue ++ new)
              ∧ ((∃ task, task ∈ new ∧ task_note_id task = NoteSyncItem.id c)
                 ↔ Py.truthy (NoteSyncItem.content c)
                   || Py.truthy (NoteSyncItem.title c) = true)).
Proof.
  intros H.
  destruct (H (begin Ex.empty_db) Ex.no_files Ex.alice Ex.c7_title_only None
              [] 40 41 _ eq_refl eq_refl) as (new & Hnew & Hiff).
  vm_compute in Hnew. injection Hnew as <-.
  destruct (proj2 Hiff eq_refl) as (task & Htask & _).
  by apply elem_of_nil in Htask.
Qed.

(** C7, amended.  In a successful [sync_notes] with a task queue, let an
    entry be accepted (a client-newer overwrite, or the creation of a new
    record) and be the only entry of the batch for its id.  A task is queued
    for the note if and only if the entry is not a deletion and its content
    is not empty; the task carries the content and the title sent (or
    Untitled).  A title alone does not queue the note, and an accepted
    deletion is never queued. *)
Theorem accepted_note_indexed_iff_content
    (s : Session) (fs : FileSystem) (user : string)
    (before after : list NoteSyncItem.t) (c : NoteSyncItem.t)
    (last_sync_at : option datetime) (queue : list IndexTask)
    (sync_time default_now : datetime) (nr : NotesResult) :
  notes_keyed_by_id (working s) →
  NoteSyncItem.id c ∉ NoteSyncItem.id <$> (before ++ after) →
  sync_notes s fs user (before ++ c :: after) last_sync_at (Some queue)
    sync_time default_now = Ok nr →
  (∀ st1, sync_notes_loop user sync_time default_now
            (notes_pass_start s fs) before = Ok st1 →
          note_entry_accepted user st1 c) →
  ∃ new, nr_background_tasks nr = Some (queue ++ new)
         ∧ ((∃ task, task ∈ new ∧ task_note_id task = NoteSyncItem.id c)
            ↔ NoteSyncItem.is_deleted c = false
              ∧ Py.truthy (NoteSyncItem.content c) = true)
         ∧ ∀ task, task ∈ new → task_note_id task = NoteSyncItem.id c →
             task = {| task_note_id := NoteSyncItem.id c;
                       task_text := NoteSyncItem.content c;
                       task_user_id := user;
                       task_title :=
                         Py.or_else (NoteSyncItem.title c) Untitled |}.
Proof.
  intros Hwf Hfresh (st & Hloop & ->)%sync_notes_Ok Hacc. simpl.
  eexists. split; [done|].
  rewrite sync_notes_loop_app in Hloop.
  apply Result_bind_Ok in Hloop as (st1 & Hbefore & Hloop). simpl in Hloop.
  apply Result_bind_Ok in Hloop as (st2 & Hstep & Hafter).
  rewrite fmap_app, not_elem_of_app in Hfresh. destruct Hfresh as [Hfb Hfa].
  specialize (Hacc st1 Hbefore).
  pose proof (sync_notes_loop_keyed _ _ _ _ _ _ Hbefore Hwf) as Hwf1.
  pose proof (sync_note_keyed _ _ _ _ _ _ Hstep Hwf1) as Hwf2.
  pose proof (sync_notes_loop_keyed _ _ _ _ _ _ Hafter Hwf2) as Hwf3.
  destruct (sync_notes_loop_to_index _ _ _ _ _ _ Hbefore) as (mb & Hmb & Hinb).
  destruct (sync_notes_loop_to_index _ _ _ _ _ _ Hafter) as (ma & Hma & Hina).
  pose proof (sync_notes_loop_frame _ _ _ _ _ _ _ Hafter Hfa) as Hframe.
  apply sync_note_cases in Hstep as [_ [[Hno _]|[_ (row & Hn & Hrow)]]];
    [done|].
  destruct Hrow as (Hu & Htitle & Hcontent & _ & _ & Hdel & _ & Hid & Hidx).
  rewrite Hn, lookup_insert_eq in Hframe.
  assert (Hrowid : Note.id row = NoteSyncItem.id c) by (by apply Hwf3).
  assert (Hrefs : NoteSyncItem.id c ∈ notes_to_index st
                  ↔ NoteSyncItem.is_deleted c = false
                    ∧ Py.truthy (NoteSyncItem.content c)
                      || Py.truthy (NoteSyncItem.title c) = true).
  { rewrite Hma, Hidx, Hmb. simpl. rewrite !elem_of_app. split.
    - intros [[Hin|Hin]|Hin].
      + by apply Hinb in Hin.
      + destruct (NoteSyncItem.is_deleted c); simpl in Hin;
          [by apply elem_of_nil in Hin|].
        destruct (Py.truthy _ || Py.truthy _); [done|].
        by apply elem_of_nil in Hin.
      + by apply Hina in Hin.
    - intros [-> ->]. left. right. simpl. left. }
  assert (Htask : ∀ task,
            task ∈ omap (index_task_for (np_db st) user) (notes_to_index st)
            ∧ task_note_id task = NoteSyncItem.id c
            ↔ NoteSyncItem.id c ∈ notes_to_index st
              ∧ Py.truthy (NoteSyncItem.content c) = true
              ∧ task = index_task user row).
  { intros task. rewrite elem_of_trigger_indexing. split.
    - intros [(i & note & Hi & Hnote & Hc & ->) Hid'].
      simpl in Hid'. rewrite (Hwf3 _ _ Hnote) in Hid'. subst i.
      rewrite Hframe in Hnote. injection Hnote as <-.
      rewrite <- Hcontent. done.
    - intros (Hi & Hc & ->). split; [|done].
      exists (NoteSyncItem.id c), row. rewrite Hcontent. done. }
  split.
  - split.
    + intros (task & Hin & Hid').
      destruct (proj1 (Htask task) (conj Hin Hid')) as (Hi & Hc & _).
      apply Hrefs in Hi as [Hd _]. done.
    + intros [Hd Hc]. exists (index_task user row).
      apply Htask. split; [|done]. apply Hrefs. by rewrite Hd, Hc.
  - intros task Hin Hid'.
    destruct (proj1 (Htask task) (conj Hin Hid')) as (_ & _ & ->).
    unfold index_task. by rewrite Hrowid, Hcontent, Htitle.
Qed.

Lemma accepted_note_indexed_iff_content_witness :
  ∃ new, Some ([] ++ omap (index_task_for
                            {| notes :=
                                 {["n7" := new_note Ex.alice Ex.c7_title_only 40 41]};
                               folders := ∅ |} Ex.alice) [ "n7"%string ])
         = Some ([] ++ new)
         ∧ ¬ ∃ task, task ∈ new ∧ task_note_id task = "n7"%string.
Proof.
  assert (Hwf : notes_keyed_by_id (working (begin Ex.empty_db))).
  { intros k n Hk. vm_compute in Hk. discriminate Hk. }
  assert (Hfresh : NoteSyncItem.id Ex.c7_title_only
                   ∉ NoteSyncItem.id <$> ([] ++ [])).
  { apply not_elem_of_nil. }
  assert (Hacc : ∀ st1,
            sync_notes_loop Ex.alice 40 41
              (notes_pass_start (begin Ex.empty_db) Ex.no_files) [] = Ok st1 →
            note_entry_accepted Ex.alice st1 Ex.c7_title_only).
  { intros st1 [= <-]. reflexivity. }
  destruct (accepted_note_indexed_iff_content (begin Ex.empty_db) Ex.no_files
              Ex.alice [] [] Ex.c7_title_only None [] 40 41 _
              Hwf Hfresh eq_refl Hacc) as (new & Hnew & Hiff & _).
  exists new. split; [exact Hnew|].
  intros Hq. apply Hiff in Hq as [_ Hc]. discriminate Hc.
Defined.


(** * The order of the batch *)


(** ** Folders: two steps commute *)





(** ** Notes: a step and what another step did before it *)





(** A successful step is an effect under the id of its entry; the file it
    removes, if any, is the recording of the deletion. *)
Lemma sync_note_effect user t d st c st' :
  sync_note user t d st c = Ok st' →
  ∃ eff, st' = apply_effect (NoteSyncItem.id c) eff st
         ∧ ∀ p, e_file eff = Some p → media_to_remove c = Some p.
Proof.
  destruct st as [[ns fds] fs idx]. unfold sync_note. simpl.
  assert (Hskip : ∃ eff,
    {| np_db := {| notes := ns; folders := fds |}; np_fs := fs;
       notes_to_index := idx |}
    = apply_effect (NoteSyncItem.id c) eff
        {| np_db := {| notes := ns; folders := fds |}; np_fs := fs;
           notes_to_index := idx |}
    ∧ ∀ p, e_file eff = Some p → media_to_remove c = Some p).
  { exists {| e_row := None; e_file := None; e_index := [] |}.
    unfold apply_effect. simpl. by rewrite app_nil_r. }
  destruct (select_note _ _ _) as [e|].
  - destruct (NoteSyncItem.updated_at c >? Note.updated_at e);
      [|by intros [= <-]].
    destruct (NoteSyncItem.is_deleted c) eqn:Hdel; simpl.
    + rewrite remove_media_removes. simpl.
      destruct (media_removed fs (NoteSyncItem.audio_path c)) eqn:Hrm; simpl;
        intros (db' & [Hn Hf]%update_note_Ok & [= <-])%Result_bind_Ok;
        simpl in *.
      * exists {| e_row := Some (clear_audio_path (assign_client_note e c t));
                  e_file := Some (default EmptyString (NoteSyncItem.audio_path c));
                  e_index := [] |}.
        unfold apply_effect. simpl. rewrite app_nil_r. split.
        { f_equal. by apply DB_eq. }
        intros p [= <-]. unfold media_to_remove, media_removed in *.
        rewrite Hdel. destruct (NoteSyncItem.audio_path c) as [p|]; [|done].
        simpl. by destruct (Py.truthy p).
      * exists {| e_row := Some (assign_client_note e c t);
                  e_file := None; e_index := [] |}.
        unfold apply_effect. simpl. rewrite app_nil_r. split; [|done].
        f_equal. by apply DB_eq.
    + intros (db' & [Hn Hf]%update_note_Ok & [= <-])%Result_bind_Ok.
      simpl in *.
      exists {| e_row := Some (assign_client_note e c t); e_file := None;
                e_index := if Py.truthy (NoteSyncItem.content c)
                              || Py.truthy (NoteSyncItem.title c)
                           then [NoteSyncItem.id c] else [] |}.
      unfold apply_effect. simpl. split; [|done].
      f_equal; [by apply DB_eq|].
      destruct (Py.truthy _ || Py.truthy _); by rewrite ?app_nil_r.
  - destruct (NoteSyncItem.is_deleted c); [by intros [= <-]|]. simpl.
    intros (db' & (_ & Hn & Hf)%insert_note_Ok & [= <-])%Result_bind_Ok.
    simpl in *.
    exists {| e_row := Some (new_note user c t d); e_file := None;
              e_index := if Py.truthy (NoteSyncItem.content c)
                            || Py.truthy (NoteSyncItem.title c)
                         then [NoteSyncItem.id c] else [] |}.
    unfold apply_effect. simpl. split; [|done].
    f_equal; [by apply DB_eq|].
    destruct (Py.truthy _ || Py.truthy _); by rewrite ?app_nil_r.
Qed.











(** ** Duplicates and permutations *)





(** * Owner scoping *)

(** The rows of the other owners are not touched by a loop of the owner. *)
Lemma sync_notes_loop_others user t d st l st' k n :
  sync_notes_loop user t d st l = Ok st' →
  notes (np_db st) !! k = Some n → Note.user_id n ≠ user →
  notes (np_db st') !! k = Some n.
Proof.
  revert st. induction l as [|c l IH]; intros st; simpl.
  - by intros [= <-].
  - intros (st1 & Hstep & Hloop)%Result_bind_Ok Hk Hu.
    apply (IH _ Hloop); [|done].
    apply sync_note_cases in Hstep as [_ [[_ ->]|[_ (row & Hn & _ & Hrow)]]];
      [done|].
    destruct Hrow as (_ & _ & _ & _ & _ & _ & Hold & _).
    rewrite Hn. destruct (decide (k = NoteSyncItem.id c)) as [->|Hne].
    + rewrite Hk in Hold. by destruct Hold.
    + by rewrite lookup_insert_ne.
Qed.

Lemma sync_folders_loop_others user d db l db' k f :
  sync_folders_loop user d db l = Ok db' →
  folders db !! k = Some f → Folder.user_id f ≠ user →
  folders db' !! k = Some f.
Proof.
  revert db. induction l as [|c l IH]; intros db; simpl.
  - by intros [= <-].
  - intros (db1 & Hstep & Hloop)%Result_bind_Ok Hk Hu.
    apply (IH _ Hloop); [|done].
    apply sync_folder_cases in Hstep as [_ [[_ ->]|[_ (row & Hn & _ & Hrow)]]];
      [done|].
    destruct Hrow as (_ & _ & _ & _ & Hold).
    rewrite Hn. destruct (decide (k = FolderSyncItem.id c)) as [->|Hne].
    + rewrite Hk in Hold. by destruct Hold.
    + by rewrite lookup_insert_ne.
Qed.

(** The half of owner scoping that holds: whatever a call of one owner
    does, the stored notes and folders of every other owner are what they
    were. *)
Lemma sync_data_keeps_other_owners db fs user sync_request clock :
  (∀ k n, notes db !! k = Some n → Note.user_id n ≠ user →
          notes (stored (sync_data db fs user sync_request clock)) !! k = Some n)
  ∧ (∀ k f, folders db !! k = Some f → Folder.user_id f ≠ user →
            folders (stored (sync_data db fs user sync_request clock)) !! k
            = Some f).
Proof.
  unfold sync_data.
  destruct (sync_notes (begin db) fs user _ _ _ _ _) as [nr|e] eqn:Hn1;
    [|by split].
  apply sync_notes_Ok in Hn1 as (st & Hloop & ->). simpl.
  pose proof (sync_notes_loop_folders _ _ _ _ _ _ Hloop) as Hfst.
  simpl in Hfst.
  destruct (sync_folders _ user _ _ _) as [fr|e] eqn:Hf1.
  - apply sync_folders_Ok in Hf1 as (dbf & Hfloop & ->). simpl in *.
    pose proof (sync_folders_loop_notes _ _ _ _ _ Hfloop) as Hnf.
    split.
    + intros k n Hk Hu. rewrite Hnf.
      by eapply sync_notes_loop_others.
    + intros k f Hk Hu. eapply sync_folders_loop_others; [done| |done].
      by rewrite Hfst.
  - simpl. split.
    + intros k n Hk Hu. by eapply sync_notes_loop_others.
    + intros k f Hk Hu. by rewrite Hfst.
Qed.

(** On two stores with the same records of the owner, a step that succeeds
    on both does the same to both. *)
Lemma sync_note_scoped user t d a b c a' b' :
  (∀ k, select_note (np_db a) k user = select_note (np_db b) k user) →
  np_fs a = np_fs b → notes_to_index a = notes_to_index b →
  sync_note user t d a c = Ok a' → sync_note user t d b c = Ok b' →
  (∀ k, select_note (np_db a') k user = select_note (np_db b') k user)
  ∧ np_fs a' = np_fs b' ∧ notes_to_index a' = notes_to_index b'.
Proof.
  intros Hsel Hfs Hidx. unfold sync_note.
  rewrite <- (Hsel (NoteSyncItem.id c)), <- Hfs, <- Hidx.
  assert (Hput : ∀ row dba dbb,
    notes dba = <[NoteSyncItem.id c := row]> (notes (np_db a)) →
    notes dbb = <[NoteSyncItem.id c := row]> (notes (np_db b)) →
    ∀ k, select_note dba k user = select_note dbb k user).
  { intros row dba dbb Ha Hb k.
    rewrite (select_note_DB {| notes := <[NoteSyncItem.id c := row]>
                                 (notes (np_db a));
                               folders := folders (np_db a) |} dba) by done.
    rewrite (select_note_DB {| notes := <[NoteSyncItem.id c := row]>
                                 (notes (np_db b));
                               folders := folders (np_db b) |} dbb) by done.
    rewrite !select_note_insert. destruct (decide (k = _)); [done|apply Hsel]. }
  destruct (select_note (np_db a) (NoteSyncItem.id c) user) as [e|].
  - destruct (NoteSyncItem.updated_at c >? Note.updated_at e);
      [|by intros [= <-] [= <-]].
    destruct (NoteSyncItem.is_deleted c); simpl.
    + destruct (remove_media (np_fs a) _) as [cleaned fs1].
      intros (dba & [Ha _]%update_note_Ok & [= <-])%Result_bind_Ok
             (dbb & [Hb _]%update_note_Ok & [= <-])%Result_bind_Ok.
      simpl. split; [by eapply Hput|done].
    + intros (dba & [Ha _]%update_note_Ok & [= <-])%Result_bind_Ok
             (dbb & [Hb _]%update_note_Ok & [= <-])%Result_bind_Ok.
      simpl. split; [by eapply Hput|done].
  - destruct (NoteSyncItem.is_deleted c); [by intros [= <-] [= <-]|]. simpl.
    intros (dba & (_ & Ha & _)%insert_note_Ok & [= <-])%Result_bind_Ok
           (dbb & (_ & Hb & _)%insert_note_Ok & [= <-])%Result_bind_Ok.
    simpl in *. split; [by eapply Hput|done].
Qed.

Lemma sync_notes_loop_scoped user t d l a b a' b' :
  (∀ k, select_note (np_db a) k user = select_note (np_db b) k user) →
  np_fs a = np_fs b → notes_to_index a = notes_to_index b →
  sync_notes_loop user t d a l = Ok a' → sync_notes_loop user t d b l = Ok b' →
  (∀ k, select_note (np_db a') k user = select_note (np_db b') k user)
  ∧ np_fs a' = np_fs b' ∧ notes_to_index a' = notes_to_index b'.
Proof.
  revert a b. induction l as [|c l IH]; intros a b Hsel Hfs Hidx; simpl.
  - by intros [= <-] [= <-].
  - intros (a1 & Ha1 & Ha)%Result_bind_Ok (b1 & Hb1 & Hb)%Result_bind_Ok.
    destruct (sync_note_scoped _ _ _ _ _ _ _ _ Hsel Hfs Hidx Ha1 Hb1)
      as (Hsel1 & Hfs1 & Hidx1).
    by eapply IH.
Qed.

Lemma sync_folder_scoped user d a b c a' b' :
  (∀ k, select_folder a k user = select_folder b k user) →
  sync_folder user d a c = Ok a' → sync_folder user d b c = Ok b' →
  ∀ k, select_folder a' k user = select_folder b' k user.
Proof.
  intros Hsel. unfold sync_folder. rewrite <- (Hsel (FolderSyncItem.id c)).
  destruct (select_folder a (FolderSyncItem.id c) user) as [e|].
  - destruct (FolderSyncItem.updated_at c >? Folder.updated_at e);
      intros [= <-] [= <-]; [|done].
    intros k. unfold update_folder. rewrite !select_folder_insert.
    destruct (decide (k = _)); [done|apply Hsel].
  - destruct (FolderSyncItem.is_deleted c); [by intros [= <-] [= <-]|].
    intros (_ & Ha & Han)%insert_folder_Ok (_ & Hb & Hbn)%insert_folder_Ok k.
    simpl in *.
    rewrite (select_folder_ext a'
               {| notes := notes a;
                  folders := <[FolderSyncItem.id c := new_folder user c d]>
                               (folders a) |}) by (by rewrite Ha).
    rewrite (select_folder_ext b'
               {| notes := notes b;
                  folders := <[FolderSyncItem.id c := new_folder user c d]>
                               (folders b) |}) by (by rewrite Hb).
    rewrite !select_folder_insert.
    destruct (decide (k = _)); [done|apply Hsel].
Qed.

Lemma sync_folders_loop_scoped user d l a b a' b' :
  (∀ k, select_folder a k user = select_folder b k user) →
  sync_folders_loop user d a l = Ok a' → sync_folders_loop user d b l = Ok b' →
  ∀ k, select_folder a' k user = select_folder b' k user.
Proof.
  revert a b. induction l as [|c l IH]; intros a b Hsel; simpl.
  - by intros [= <-] [= <-].
  - intros (a1 & Ha1 & Ha)%Result_bind_Ok (b1 & Hb1 & Hb)%Result_bind_Ok.
    eapply IH; [|done|done]. by eapply sync_folder_scoped.
Qed.

Lemma elem_of_select_server_notes_scoped db db' user last_sync_at n :
  (∀ k, select_note db k user = select_note db' k user) →
  n ∈ select_server_notes db user last_sync_at →
  n ∈ select_server_notes db' user last_sync_at.
Proof.
  intros Hsel. rewrite !elem_of_select_server_notes.
  intros ([k Hk] & Hu & Hcp). split; [|done]. exists k.
  assert (select_note db k user = Some n) as Hn
    by (by apply select_note_Some).
  rewrite Hsel in Hn. by apply select_note_Some in Hn as [? _].
Qed.

Lemma elem_of_select_server_folders_scoped db db' user last_sync_at f :
  (∀ k, select_folder db k user = select_folder db' k user) →
  f ∈ select_server_folders db user last_sync_at →
  f ∈ select_server_folders db' user last_sync_at.
Proof.
  intros Hsel. rewrite !elem_of_select_server_folders.
  intros ([k Hk] & Hu & Hcp). split; [|done]. exists k.
  assert (select_folder db k user = Some f) as Hn
    by (by apply select_folder_Some).
  rewrite Hsel in Hn. by apply select_folder_Some in Hn as [? _].
Qed.

(** Where the two calls both succeed, owner scoping holds: on two stores
    with the same records of the owner, the two answers return the same
    notes and the same folders. *)
Lemma sync_data_scoped_when_both_succeed db db' fs user sync_request clock r r' :
  same_records_of user db db' →
  response (sync_data db fs user sync_request clock) = Ok r →
  response (sync_data db' fs user sync_request clock) = Ok r' →
  (∀ n, n ∈ SyncResponse.notes r ↔ n ∈ SyncResponse.notes r')
  ∧ (∀ f, f ∈ SyncResponse.folders r ↔ f ∈ SyncResponse.folders r')
  ∧ SyncResponse.sync_timestamp r = SyncResponse.sync_timestamp r'.
Proof.
  intros [Hn Hf]. unfold sync_data.
  destruct (sync_notes (begin db) _ _ _ _ _ _ _) as [nr|] eqn:E1; [|done].
  destruct (sync_notes (begin db') _ _ _ _ _ _ _) as [nr'|] eqn:E1';
    [|by destruct (sync_folders _ _ _ _ _)].
  apply sync_notes_Ok in E1 as (st & Hloop & ->).
  apply sync_notes_Ok in E1' as (st' & Hloop' & ->). simpl.
  destruct (sync_folders _ _ _ _ _) as [fr|] eqn:E2; [|done].
  destruct (sync_folders (commit (set_working (begin db') _)) _ _ _ _)
    as [fr'|] eqn:E2'; [|done].
  apply sync_folders_Ok in E2 as (dbf & Hfl & ->).
  apply sync_folders_Ok in E2' as (dbf' & Hfl' & ->). simpl in *.
  intros [= <-] [= <-]. simpl.
  destruct (sync_notes_loop_scoped user _ _ _
              (notes_pass_start (begin db) fs)
              (notes_pass_start (begin db') fs) _ _ Hn eq_refl eq_refl
              Hloop Hloop') as (Hn1 & _ & _).
  assert (Hf1 : ∀ k, select_folder (np_db st) k user
                     = select_folder (np_db st') k user).
  { intros k.
    rewrite (select_folder_ext (np_db st) db),
            (select_folder_ext (np_db st') db'); [apply Hf| |].
    - by rewrite (sync_notes_loop_folders _ _ _ _ _ _ Hloop').
    - by rewrite (sync_notes_loop_folders _ _ _ _ _ _ Hloop). }
  pose proof (sync_folders_loop_scoped _ _ _ _ _ _ _ Hf1 Hfl Hfl') as Hf2.
  split; [|split; [|done]].
  - intros n. split; apply elem_of_select_server_notes_scoped; done.
  - intros f. split; apply elem_of_select_server_folders_scoped; done.
Qed.

(** C9.  Owner scoping fails as a noninterference property.  The primary
    key of [notes] is [id] alone, while the lookup of [sync_notes] is by
    [id] and owner.  Alice creates a note with id n9.  On a store where
    nobody has n9 the call succeeds and returns the new note; on a store
    that differs only by a note n9 of bob the lookup finds nothing for
    alice, the INSERT repeats the key, and the call fails with
    [IntegrityError].  The two stores hold the same records of alice
    (none), and the answers differ.  What holds is stated above: the
    records of the other owners are never changed, and two calls that both
    succeed return the same records. *)
Theorem owner_scoping_id_collision :
  same_records_of Ex.alice Ex.db_bob_n9 Ex.empty_db
  ∧ response (sync_data Ex.empty_db Ex.no_files Ex.alice
                Ex.request_new_n9 Ex.clock40)
    = Ok {| SyncResponse.notes := [new_note Ex.alice Ex.c9_new 40 41];
            SyncResponse.folders := [];
            SyncResponse.sync_timestamp := 43 |}
  ∧ response (sync_data Ex.db_bob_n9 Ex.no_files Ex.alice
                Ex.request_new_n9 Ex.clock40)
    = Err IntegrityError.
Proof.
  split; [split|split].
  - intros k. unfold select_note. simpl.
    destruct (decide (k = "n9"%string)) as [->|Hk].
    + rewrite lookup_singleton_eq. reflexivity.
    + rewrite lookup_singleton_ne by done. reflexivity.
  - reflexivity.
  - vm_compute. reflexivity.
  - vm_compute. reflexivity.
Qed.


(** * Tombstones *)



(** * What the synchronisation never does *)

(** The row that a step of the notes loop writes, if it writes: a row of
    the owner stamped with the sync time, whose folder exists or is the
    folder of the row it replaces, and which keeps the id and the creation
    time of that row. *)
Lemma sync_note_written user t d st c st' :
  sync_note user t d st c = Ok st' →
  folders (np_db st') = folders (np_db st)
  ∧ (st' = st
     ∨ ∃ row,
         notes (np_db st') = <[NoteSyncItem.id c := row]> (notes (np_db st))
         ∧ Note.user_id row = user
         ∧ Note.synced_at row = Some t
         ∧ Note.updated_at row = NoteSyncItem.updated_at c
         ∧ match notes (np_db st) !! NoteSyncItem.id c with
           | Some e =>
               Note.user_id e = user ∧ Note.id row = Note.id e
               ∧ Note.created_at row = Note.created_at e
               ∧ Note.updated_at e < Note.updated_at row
               ∧ (Note.folder_id row = Note.folder_id e
                  ∨ folder_fk (np_db st) (Note.folder_id row) = true)
           | None =>
               Note.id row = NoteSyncItem.id c ∧ Note.created_at row = d
               ∧ folder_fk (np_db st) (Note.folder_id row) = true
           end).
Proof.
  unfold sync_note.
  destruct (select_note (np_db st) (NoteSyncItem.id c) user) as [e|] eqn:Hsel.
  - apply select_note_Some in Hsel as [Hk Hu].
    destruct (NoteSyncItem.updated_at c >? Note.updated_at e) eqn:Hgt.
    2:{ intros [= <-]. split; [done|]. by left. }
    apply gtb_gt in Hgt.
    assert (∀ row db',
      update_note (np_db st) (NoteSyncItem.id c) e row = Ok db' →
      Note.folder_id row = Note.folder_id e
      ∨ folder_fk (np_db st) (Note.folder_id row) = true) as Hfk.
    { intros row db'. unfold update_note.
      destruct (bool_decide _) eqn:Hb; simpl.
      - apply bool_decide_eq_true in Hb. by left.
      - destruct (folder_fk _ _); [by right|done]. }
    destruct (NoteSyncItem.is_deleted c) eqn:Hdel; simpl.
    + rewrite remove_media_removes.
      destruct (media_removed _ _); simpl;
        intros (db' & Hup & [= <-])%Result_bind_Ok;
        pose proof (Hfk _ _ Hup) as Hfk';
        apply update_note_Ok in Hup as [Hn Hf];
        simpl; (split; [done|]); right;
        eexists; (split; [exact Hn|]);
        simpl; rewrite Hk; simpl in Hfk'; repeat split; try done; lia.
    + intros (db' & Hup & [= <-])%Result_bind_Ok.
      pose proof (Hfk _ _ Hup) as Hfk'.
      apply update_note_Ok in Hup as [Hn Hf].
      simpl. split; [done|]. right.
      eexists. split; [exact Hn|].
      simpl. rewrite Hk. simpl in Hfk'. repeat split; try done; lia.
  - destruct (NoteSyncItem.is_deleted c) eqn:Hdel.
    { intros [= <-]. split; [done|]. by left. }
    simpl.
    intros (db' & Hins & [= <-])%Result_bind_Ok.
    assert (folder_fk (np_db st) (NoteSyncItem.folder_id c) = true) as Hfk.
    { unfold insert_note in Hins.
      destruct (bool_decide (is_Some _)); [done|].
      simpl in Hins. by destruct (folder_fk _ _). }
    apply insert_note_Ok in Hins as (Hnone & Hn & Hf).
    simpl in *. split; [done|]. right.
    eexists. split; [exact Hn|].
    simpl. rewrite Hnone. done.
Qed.

(** A step keeps every row of the table: under each key there is still a
    row with the same id, owner and creation time, not older than it was,
    and the same row when it is not the caller's. *)
Lemma sync_note_keeps user t d st c st' k n :
  sync_note user t d st c = Ok st' →
  notes (np_db st) !! k = Some n →
  ∃ n', notes (np_db st') !! k = Some n'
        ∧ Note.id n' = Note.id n
        ∧ Note.user_id n' = Note.user_id n
        ∧ Note.created_at n' = Note.created_at n
        ∧ Note.updated_at n ≤ Note.updated_at n'
        ∧ (Note.user_id n ≠ user → n' = n).
Proof.
  intros [_ [->|(row & Hn & Hu & _ & _ & Hold)]]%sync_note_written Hk.
  { exists n. repeat split; try done; lia. }
  rewrite Hn. destruct (decide (k = NoteSyncItem.id c)) as [->|Hne].
  - rewrite Hk in Hold. destruct Hold as (Hue & Hid & Hc & Hlt & _).
    exists row. rewrite lookup_insert_eq.
    repeat split; try done; [congruence|lia].
  - exists n. rewrite lookup_insert_ne by done.
    repeat split; try done; lia.
Qed.

Lemma sync_notes_loop_keeps user t d st l st' k n :
  sync_notes_loop user t d st l = Ok st' →
  notes (np_db st) !! k = Some n →
  ∃ n', notes (np_db st') !! k = Some n'
        ∧ Note.id n' = Note.id n
        ∧ Note.user_id n' = Note.user_id n
        ∧ Note.created_at n' = Note.created_at n
        ∧ Note.updated_at n ≤ Note.updated_at n'
        ∧ (Note.user_id n ≠ user → n' = n).
Proof.
  revert st n. induction l as [|c l IH]; intros st n; simpl.
  - intros [= <-] Hk. exists n. repeat split; try done; lia.
  - intros (st1 & Hstep & Hloop)%Result_bind_Ok Hk.
    destruct (sync_note_keeps _ _ _ _ _ _ _ _ Hstep Hk)
      as (n1 & Hk1 & Hid1 & Hu1 & Hc1 & Hle1 & Hsame1).
    destruct (IH _ _ Hloop Hk1) as (n' & Hk' & Hid & Hu & Hc & Hle & Hsame).
    exists n'. repeat split; try congruence; [lia|].
    intros Hne. rewrite Hsame by congruence. by apply Hsame1.
Qed.

Lemma sync_folder_keeps user d db c db' k f :
  sync_folder user d db c = Ok db' →
  folders db !! k = Some f →
  ∃ f', folders db' !! k = Some f'
        ∧ Folder.id f' = Folder.id f
        ∧ Folder.user_id f' = Folder.user_id f
        ∧ Folder.created_at f' = Folder.created_at f
        ∧ Folder.updated_at f ≤ Folder.updated_at f'
        ∧ (Folder.user_id f ≠ user → f' = f).
Proof.
  unfold sync_folder. intros Hstep Hk.
  destruct (select_folder db (FolderSyncItem.id c) user) as [e|] eqn:Hsel.
  - apply select_folder_Some in Hsel as [Hke Hu].
    destruct (FolderSyncItem.updated_at c >? Folder.updated_at e) eqn:Hgt;
      injection Hstep as <-.
    2:{ exists f. repeat split; try done; lia. }
    apply gtb_gt in Hgt. simpl.
    destruct (decide (k = FolderSyncItem.id c)) as [->|Hne].
    + rewrite lookup_insert_eq. eexists. split; [done|].
      rewrite Hk in Hke. injection Hke as ->. simpl.
      repeat split; try done; lia.
    + rewrite lookup_insert_ne by done. exists f.
      repeat split; try done; lia.
  - destruct (FolderSyncItem.is_deleted c).
    { injection Hstep as <-. exists f. repeat split; try done; lia. }
    apply insert_folder_Ok in Hstep as (Hnone & Hf & _). simpl in *.
    rewrite Hf. exists f. rewrite lookup_insert_ne by congruence.
    repeat split; try done; lia.
Qed.

Lemma sync_folders_loop_keeps user d db l db' k f :
  sync_folders_loop user d db l = Ok db' →
  folders db !! k = Some f →
  ∃ f', folders db' !! k = Some f'
        ∧ Folder.id f' = Folder.id f
        ∧ Folder.user_id f' = Folder.user_id f
        ∧ Folder.created_at f' = Folder.created_at f
        ∧ Folder.updated_at f ≤ Folder.updated_at f'
        ∧ (Folder.user_id f ≠ user → f' = f).
Proof.
  revert db f. induction l as [|c l IH]; intros db f; simpl.
  - intros [= <-] Hk. exists f. repeat split; try done; lia.
  - intros (db1 & Hstep & Hloop)%Result_bind_Ok Hk.
    destruct (sync_folder_keeps _ _ _ _ _ _ _ Hstep Hk)
      as (f1 & Hk1 & Hid1 & Hu1 & Hc1 & Hle1 & Hsame1).
    destruct (IH _ _ Hloop Hk1) as (f' & Hk' & Hid & Hu & Hc & Hle & Hsame).
    exists f'. repeat split; try congruence; [lia|].
    intros Hne. rewrite Hsame by congruence. by apply Hsame1.
Qed.

(** X1.  Whatever a call of [sync_data] answers, it deletes no row and
    moves no [updated_at] backwards: under each key of the stored tables
    there is afterwards a row with the same id, owner and creation time
    whose [updated_at] is not earlier, and a row that is not the caller's
    is the row that was there. *)
Theorem sync_data_never_deletes_nor_backdates
    (db : DB) (fs : FileSystem) (user : string)
    (sync_request : SyncRequest.t) (clock : Clock) :
  let after := stored (sync_data db fs user sync_request clock) in
  (∀ k n, notes db !! k = Some n →
     ∃ n', notes after !! k = Some n'
           ∧ Note.id n' = Note.id n
           ∧ Note.user_id n' = Note.user_id n
           ∧ Note.created_at n' = Note.created_at n
           ∧ Note.updated_at n ≤ Note.updated_at n'
           ∧ (Note.user_id n ≠ user → n' = n))
  ∧ (∀ k f, folders db !! k = Some f →
       ∃ f', folders after !! k = Some f'
             ∧ Folder.id f' = Folder.id f
             ∧ Folder.user_id f' = Folder.user_id f
             ∧ Folder.created_at f' = Folder.created_at f
             ∧ Folder.updated_at f ≤ Folder.updated_at f'
             ∧ (Folder.user_id f ≠ user → f' = f)).
Proof.
  cbv zeta. unfold sync_data.
  assert (∀ n : Note.t, ∃ n', Some n = Some n'
            ∧ Note.id n' = Note.id n ∧ Note.user_id n' = Note.user_id n
            ∧ Note.created_at n' = Note.created_at n
            ∧ Note.updated_at n ≤ Note.updated_at n'
            ∧ (Note.user_id n ≠ user → n' = n)) as Hsame_n.
  { intros n. exists n. repeat split; try done; lia. }
  assert (∀ f : Folder.t, ∃ f', Some f = Some f'
            ∧ Folder.id f' = Folder.id f ∧ Folder.user_id f' = Folder.user_id f
            ∧ Folder.created_at f' = Folder.created_at f
            ∧ Folder.updated_at f ≤ Folder.updated_at f'
            ∧ (Folder.user_id f ≠ user → f' = f)) as Hsame_f.
  { intros f. exists f. repeat split; try done; lia. }
  destruct (sync_notes (begin db) fs user _ _ _ _ _) as [nr|e] eqn:Hn1.
  2:{ simpl. split; intros k x ->; auto. }
  apply sync_notes_Ok in Hn1 as (st & Hloop & ->). simpl.
  pose proof (sync_notes_loop_folders _ _ _ _ _ _ Hloop) as Hfst.
  simpl in Hfst.
  destruct (sync_folders _ user _ _ _) as [fr|e] eqn:Hf1.
  - apply sync_folders_Ok in Hf1 as (dbf & Hfloop & ->). simpl in *.
    pose proof (sync_folders_loop_notes _ _ _ _ _ Hfloop) as Hnf.
    split.
    + intros k n Hk. rewrite Hnf.
      by eapply sync_notes_loop_keeps.
    + intros k f Hk. eapply sync_folders_loop_keeps; [done|].
      by rewrite Hfst.
  - simpl. split.
    + intros k n Hk. by eapply sync_notes_loop_keeps.
    + intros k f Hk. rewrite Hfst, Hk. auto.
Qed.

(** * A call that fails *)

Lemma Result_bind_Err {A B} (r : Result A) (f : A → B) (e : Error) :
  r ≫= (λ a, Ok (f a)) = Err e → r = Err e.
Proof. destruct r; simpl; congruence. Qed.

Lemma update_note_Err db id old new e :
  update_note db id old new = Err e → e = IntegrityError.
Proof. unfold update_note. case_match; [done|]. by intros [= <-]. Qed.

Lemma insert_note_Err db n e :
  insert_note db n = Err e → e = IntegrityError.
Proof.
  unfold insert_note. repeat case_match; try done; by intros [= <-].
Qed.

Lemma sync_note_Err user t d st c e :
  sync_note user t d st c = Err e → e = IntegrityError.
Proof.
  unfold sync_note.
  destruct (select_note _ _ _) as [ex|].
  - destruct (_ >? _); [|done].
    destruct (NoteSyncItem.is_deleted c).
    + destruct (remove_media _ _) as [cleaned fs'].
      intros H%Result_bind_Err. by eapply update_note_Err.
    + intros H%Result_bind_Err. by eapply update_note_Err.
  - destruct (NoteSyncItem.is_deleted c); [done|].
    intros H%Result_bind_Err. by eapply insert_note_Err.
Qed.

Lemma sync_notes_loop_Err_kind user t d st l e :
  sync_notes_loop user t d st l = Err e → e = IntegrityError.
Proof.
  revert st. induction l as [|c l IH]; intros st; simpl; [done|].
  destruct (sync_note user t d st c) as [st1|e1] eqn:Hstep; simpl.
  - apply IH.
  - intros [= <-]. by eapply sync_note_Err.
Qed.

(** Under each key, the loop leaves the row that was there or a row of
    the caller that an entry of the batch wrote, stamped with the sync
    time. *)
Lemma sync_notes_loop_changed user t d st l st' k :
  sync_notes_loop user t d st l = Ok st' →
  notes (np_db st') !! k = notes (np_db st) !! k
  ∨ ∃ row, notes (np_db st') !! k = Some row
           ∧ k ∈ NoteSyncItem.id <$> l
           ∧ Note.user_id row = user
           ∧ Note.synced_at row = Some t.
Proof.
  revert st. induction l as [|c l IH]; intros st; simpl.
  - intros [= <-]. by left.
  - intros (st1 & Hstep & Hloop)%Result_bind_Ok.
    destruct (IH _ Hloop) as [Heq|(row & Hk & Hin & Hu & Hs)].
    2:{ right. exists row. repeat split; try done. by apply elem_of_cons; right. }
    rewrite Heq.
    apply sync_note_written in Hstep
      as [_ [->|(row & Hn & Hu & Hs & _)]]; [by left|].
    rewrite Hn. destruct (decide (k = NoteSyncItem.id c)) as [->|Hne].
    + right. exists row. rewrite lookup_insert_eq.
      repeat split; try done. apply elem_of_cons; by left.
    + left. by rewrite lookup_insert_ne.
Qed.

(** X2.  A call of [sync_data] that answers with an error is not undone
    as a whole: the notes pass commits on its own, so what is stored is
    what the same request without its folders stores.  No folder is
    changed and no indexing task is queued; a note row that the call
    changed or created is a row of the caller, written for an entry of the
    batch and stamped with the sync time, which the answer does not
    return. *)
Theorem failed_sync_keeps_notes_pass
    (db : DB) (fs : FileSystem) (user : string)
    (sync_request : SyncRequest.t) (clock : Clock) (e : Error) :
  response (sync_data db fs user sync_request clock) = Err e →
  stored (sync_data db fs user sync_request clock)
  = stored (sync_data db fs user (notes_only sync_request) clock)
  ∧ folders (stored (sync_data db fs user sync_request clock)) = folders db
  ∧ out_tasks (sync_data db fs user sync_request clock) = []
  ∧ ∀ k, notes (stored (sync_data db fs user sync_request clock)) !! k
         ≠ notes db !! k →
      ∃ row,
        notes (stored (sync_data db fs user sync_request clock)) !! k
        = Some row
        ∧ k ∈ NoteSyncItem.id <$> SyncRequest.notes sync_request
        ∧ Note.user_id row = user
        ∧ Note.synced_at row = Some (notes_sync_time clock).
Proof.
  unfold sync_data, notes_only. cbn [SyncRequest.notes SyncRequest.folders
    SyncRequest.last_sync_at].
  destruct (sync_notes (begin db) fs user _ _ _ _ _) as [nr|e1] eqn:Hn1.
  2:{ simpl. intros _. split_and!; done. }
  apply sync_notes_Ok in Hn1 as (st & Hloop & ->).
  pose proof (sync_notes_loop_folders _ _ _ _ _ _ Hloop) as Hfst.
  simpl in Hfst.
  destruct (sync_folders _ user (SyncRequest.folders sync_request) _ _)
    as [fr|e1] eqn:Hf1; [done|].
  simpl. intros _. split_and!; try done. intros k Hk.
  destruct (sync_notes_loop_changed _ _ _ _ _ _ k Hloop) as [Heq|Hrow];
    [by destruct Hk|done].
Qed.

Lemma failed_sync_keeps_notes_pass_witness :
  stored (sync_data Ex2.db_n1_bob_f9 Ex.memo_on_disk Ex.alice
            Ex.request_edit_n1 Ex.clock40)
  = stored (sync_data Ex2.db_n1_bob_f9 Ex.memo_on_disk Ex.alice
              (notes_only Ex.request_edit_n1) Ex.clock40)
  ∧ notes (stored (sync_data Ex2.db_n1_bob_f9 Ex.memo_on_disk Ex.alice
                     Ex.request_edit_n1 Ex.clock40)) !! "n1"
    = Some (assign_client_note Ex.n1 Ex.c1_edit 40).
Proof.
  split; [|reflexivity].
  apply (failed_sync_keeps_notes_pass Ex2.db_n1_bob_f9 Ex.memo_on_disk
           Ex.alice Ex.request_edit_n1 Ex.clock40 IntegrityError eq_refl).
Defined.

(** * What a call changes comes back, and what it queues *)

(** X3.  When a call of [sync_data] succeeds and its checkpoint is absent
    or earlier than the sync time, every note row that the call changed or
    created is a row of the caller, written for an entry of the batch,
    stamped with the sync time, and it is in the response. *)
Theorem changed_notes_come_back
    (db : DB) (fs : FileSystem) (user : string)
    (sync_request : SyncRequest.t) (clock : Clock) (r : SyncResponse.t) :
  response (sync_data db fs user sync_request clock) = Ok r →
  checkpoint_before (SyncRequest.last_sync_at sync_request)
    (notes_sync_time clock) →
  ∀ k, notes (stored (sync_data db fs user sync_request clock)) !! k
       ≠ notes db !! k →
    ∃ row,
      notes (stored (sync_data db fs user sync_request clock)) !! k = Some row
      ∧ k ∈ NoteSyncItem.id <$> SyncRequest.notes sync_request
      ∧ Note.user_id row = user
      ∧ Note.synced_at row = Some (notes_sync_time clock)
      ∧ row ∈ SyncResponse.notes r.
Proof.
  unfold sync_data.
  destruct (sync_notes (begin db) fs user _ _ _ _ _) as [nr|e] eqn:Hn1;
    [|done].
  apply sync_notes_Ok in Hn1 as (st & Hloop & ->). simpl.
  destruct (sync_folders _ user _ _ _) as [fr|e] eqn:Hf1; [|done].
  apply sync_folders_Ok in Hf1 as (dbf & Hfloop & ->). simpl in *.
  pose proof (sync_folders_loop_notes _ _ _ _ _ Hfloop) as Hnf.
  intros [= <-] Hcp k Hk. simpl. rewrite Hnf in *.
  destruct (sync_notes_loop_changed _ _ _ _ _ _ k Hloop)
    as [Heq|(row & Hrow & Hin & Hu & Hs)]; [done|].
  exists row. repeat split; try done.
  apply elem_of_select_server_notes. split; [by exists k|]. split; [done|].
  unfold checkpoint_before in Hcp.
  destruct (SyncRequest.last_sync_at sync_request) as [cp|]; [|done].
  right. exists (notes_sync_time clock). split; [done|lia].
Qed.

Lemma changed_notes_come_back_witness :
  ∃ row,
    notes (stored (sync_data Ex.db_n1 Ex.memo_on_disk Ex.alice
                     Ex.request_newer_n1 Ex.clock40)) !! "n1" = Some row
    ∧ "n1"%string ∈ NoteSyncItem.id <$> SyncRequest.notes Ex.request_newer_n1
    ∧ Note.user_id row = Ex.alice
    ∧ Note.synced_at row = Some 40
    ∧ row ∈ [assign_client_note Ex.n1 Ex.c1_edit 40].
Proof.
  apply (changed_notes_come_back Ex.db_n1 Ex.memo_on_disk Ex.alice
           Ex.request_newer_n1 Ex.clock40 _ eq_refl).
  - simpl. lia.
  - vm_compute. discriminate.
Defined.

Lemma length_omap_le {A B} (f : A → option B) (l : list A) :
  (length (omap f l) ≤ length l)%nat.
Proof.
  induction l as [|x l IH]; simpl; [lia|].
  unfold omap in IH. destruct (f x); simpl; lia.
Qed.

(** The references that the loop collects name rows of the caller. *)
Lemma sync_notes_loop_index_refs user t d st l st' :
  sync_notes_loop user t d st l = Ok st' →
  (∀ i, i ∈ notes_to_index st →
        ∃ row, notes (np_db st) !! i = Some row ∧ Note.user_id row = user) →
  (∀ i, i ∈ notes_to_index st' →
        ∃ row, notes (np_db st') !! i = Some row ∧ Note.user_id row = user)
  ∧ (length (notes_to_index st')
     ≤ length (notes_to_index st) + length l)%nat.
Proof.
  revert st. induction l as [|c l IH]; intros st; simpl.
  - intros [= <-] Hinv. split; [done|lia].
  - intros (st1 & Hstep & Hloop)%Result_bind_Ok Hinv.
    assert ((∀ i, i ∈ notes_to_index st1 →
               ∃ row, notes (np_db st1) !! i = Some row
                      ∧ Note.user_id row = user)
            ∧ (length (notes_to_index st1)
               ≤ length (notes_to_index st) + 1)%nat) as [Hinv1 Hlen1].
    { apply sync_note_cases in Hstep
        as [_ [[_ ->]|[_ (row & Hn & Hu & _ & _ & _ & _ & _ & _ & _ & Hidx)]]].
      { split; [done|lia]. }
      split.
      - intros i Hi. rewrite Hn.
        destruct (decide (i = NoteSyncItem.id c)) as [->|Hne].
        + exists row. by rewrite lookup_insert_eq.
        + rewrite lookup_insert_ne by done. apply Hinv.
          rewrite Hidx in Hi. apply elem_of_app in Hi as [Hi|Hi]; [done|].
          destruct (negb _ && _); [|by apply elem_of_nil in Hi].
          by apply list_elem_of_singleton in Hi.
      - rewrite Hidx, length_app.
        destruct (negb _ && _); simpl; lia. }
    destruct (IH _ Hloop Hinv1) as [Hinv' Hlen'].
    split; [done|lia].
Qed.

(** A task that [sync_data] queues is the task of a note that is stored
    for the caller under an id of the batch. *)
Lemma sync_data_task user db fs sync_request clock task :
  task ∈ out_tasks (sync_data db fs user sync_request clock) →
  ∃ k note,
    k ∈ NoteSyncItem.id <$> SyncRequest.notes sync_request
    ∧ notes (stored (sync_data db fs user sync_request clock)) !! k = Some note
    ∧ Note.user_id note = user
    ∧ Py.truthy (Note.content note) = true
    ∧ task = index_task user note.
Proof.
  unfold sync_data.
  destruct (sync_notes (begin db) fs user _ _ _ _ _) as [nr|e] eqn:Hn1.
  2:{ by intros Hin%elem_of_nil. }
  apply sync_notes_Ok in Hn1 as (st & Hloop & ->). simpl.
  destruct (sync_folders _ user _ _ _) as [fr|e] eqn:Hf1.
  2:{ by intros Hin%elem_of_nil. }
  apply sync_folders_Ok in Hf1 as (dbf & Hfloop & ->). simpl in *.
  pose proof (sync_folders_loop_notes _ _ _ _ _ Hfloop) as Hnf.
  rewrite Hnf.
  destruct (sync_notes_loop_index_refs _ _ _ _ _ _ Hloop) as [Hinv _].
  { by intros i Hi%elem_of_nil. }
  destruct (sync_notes_loop_to_index _ _ _ _ _ _ Hloop)
    as (more & Hmore & Hids).
  simpl in Hmore.
  intros (i & note & Hi & Hk & Hc & ->)%elem_of_trigger_indexing.
  exists i, note. destruct (Hinv i Hi) as (row & Hrow & Hu).
  rewrite Hk in Hrow. injection Hrow as <-.
  repeat split; try done. apply Hids. by rewrite <- Hmore.
Qed.

(** X4.  The indexing tasks that a call of [sync_data] queues are at most
    one for each entry of the batch, and each of them is for a note that
    is stored for the caller under an id of the batch, with the content
    that is stored, which is not empty. *)
Theorem sync_tasks_index_stored_notes_of_caller
    (db : DB) (fs : FileSystem) (user : string)
    (sync_request : SyncRequest.t) (clock : Clock) :
  let out := sync_data db fs user sync_request clock in
  (length (out_tasks out) ≤ length (SyncRequest.notes sync_request))%nat
  ∧ ∀ task, task ∈ out_tasks out →
      ∃ k note,
        k ∈ NoteSyncItem.id <$> SyncRequest.notes sync_request
        ∧ notes (stored out) !! k = Some note
        ∧ Note.user_id note = user
        ∧ Py.truthy (Note.content note) = true
        ∧ task = index_task user note.
Proof.
  cbv zeta. split; [|intros task; apply sync_data_task].
  unfold sync_data.
  destruct (sync_notes (begin db) fs user _ _ _ _ _) as [nr|e] eqn:Hn1.
  2:{ simpl. lia. }
  apply sync_notes_Ok in Hn1 as (st & Hloop & ->). simpl.
  destruct (sync_folders _ user _ _ _) as [fr|e] eqn:Hf1.
  2:{ simpl. lia. }
  simpl.
  destruct (sync_notes_loop_index_refs _ _ _ _ _ _ Hloop) as [_ Hlen].
  { by intros i Hi%elem_of_nil. }
  simpl in Hlen. etrans; [apply length_omap_le|exact Hlen].
Qed.

(** * The notes and folders endpoints *)

(** ** The rows that a query returns *)

Lemma scalars_all_insert {A} (m : gmap string A) (k : string) (x : A) :
  scalars_all (<[k := x]> m) ≡ₚ x :: scalars_all (delete k m).
Proof.
  unfold scalars_all. rewrite <- insert_delete_eq.
  rewrite map_to_list_insert by apply lookup_delete_eq. done.
Qed.

Lemma scalars_all_lookup {A} (m : gmap string A) (k : string) (x : A) :
  m !! k = Some x → scalars_all m ≡ₚ x :: scalars_all (delete k m).
Proof.
  intros Hk. rewrite <- (insert_id m k x Hk) at 1. apply scalars_all_insert.
Qed.

Lemma scalars_all_fresh {A} (m : gmap string A) (k : string) (x : A) :
  m !! k = None → scalars_all (<[k := x]> m) ≡ₚ x :: scalars_all m.
Proof.
  intros Hk. rewrite scalars_all_insert. by rewrite delete_id.
Qed.

Lemma list_notes_Permutation db include_deleted folder_id user :
  NotesRouter.list_notes db include_deleted folder_id user
  ≡ₚ filter (λ n : Note.t,
               NotesRouter.listed include_deleted folder_id user n)
            (scalars_all (notes db)).
Proof. apply merge_sort_Permutation. Qed.

Lemma list_folders_Permutation db include_deleted user :
  FoldersRouter.list_folders db include_deleted user
  ≡ₚ filter (λ f : Folder.t, FoldersRouter.listed include_deleted user f)
            (scalars_all (folders db)).
Proof. apply merge_sort_Permutation. Qed.

(** A listing of a table in which the row under [k] was written is the
    listing of the table without that row, with the row written when the
    query selects it. *)
Lemma list_notes_insert db k row include_deleted folder_id user :
  NotesRouter.list_notes
    {| notes := <[k := row]> (notes db); folders := folders db |}
    include_deleted folder_id user
  ≡ₚ (if NotesRouter.listed include_deleted folder_id user row
      then [row] else [])
     ++ NotesRouter.list_notes (NotesRouter.db_delete_note db k)
          include_deleted folder_id user.
Proof.
  rewrite !list_notes_Permutation. simpl.
  rewrite scalars_all_insert, filter_cons.
  by destruct (NotesRouter.listed _ _ _ row).
Qed.


Lemma list_folders_insert db k row include_deleted user :
  FoldersRouter.list_folders
    {| notes := notes db; folders := <[k := row]> (folders db) |}
    include_deleted user
  ≡ₚ (if FoldersRouter.listed include_deleted user row then [row] else [])
     ++ FoldersRouter.list_folders
          {| notes := notes db; folders := delete k (folders db) |}
          include_deleted user.
Proof.
  rewrite !list_folders_Permutation. simpl.
  rewrite scalars_all_insert, filter_cons.
  by destruct (FoldersRouter.listed _ _ row).
Qed.

Lemma list_folders_lookup db k row include_deleted user :
  folders db !! k = Some row →
  FoldersRouter.list_folders db include_deleted user
  ≡ₚ (if FoldersRouter.listed include_deleted user row then [row] else [])
     ++ FoldersRouter.list_folders
          {| notes := notes db; folders := delete k (folders db) |}
          include_deleted user.
Proof.
  intros Hk. rewrite <- list_folders_insert.
  rewrite insert_id by done. by destruct db.
Qed.

Lemma elem_of_list_notes db include_deleted folder_id user n :
  n ∈ NotesRouter.list_notes db include_deleted folder_id user
  ↔ (∃ k, notes db !! k = Some n)
    ∧ Note.user_id n = user
    ∧ (include_deleted = false → Note.is_deleted n = false)
    ∧ (∀ f, folder_id = Some f → Note.folder_id n = Some f).
Proof.
  rewrite list_notes_Permutation, list_elem_of_filter, elem_of_scalars_all.
  unfold NotesRouter.listed.
  rewrite !andb_True, bool_decide_spec, orb_True, negb_True.
  split.
  - intros [[[Hu Hd] Hf] Hk]. repeat split; try done.
    + intros ->. destruct Hd as [[]|Hd]. by destruct (Note.is_deleted n).
    + intros f ->. by apply bool_decide_spec in Hf.
  - intros (Hk & Hu & Hd & Hf). repeat split; try done.
    + destruct include_deleted; [by left|right]. rewrite Hd; [tauto|done].
    + destruct folder_id as [f|]; [|done]. apply bool_decide_spec. by apply Hf.
Qed.

Lemma elem_of_list_folders db include_deleted user f :
  f ∈ FoldersRouter.list_folders db include_deleted user
  ↔ (∃ k, folders db !! k = Some f)
    ∧ Folder.user_id f = user
    ∧ (include_deleted = false → Folder.is_deleted f = false).
Proof.
  rewrite list_folders_Permutation, list_elem_of_filter, elem_of_scalars_all.
  unfold FoldersRouter.listed.
  rewrite !andb_True, bool_decide_spec, orb_True, negb_True.
  split.
  - intros [[Hu Hd] Hk]. repeat split; try done.
    intros ->. destruct Hd as [[]|Hd]. by destruct (Folder.is_deleted f).
  - intros (Hk & Hu & Hd). repeat split; try done.
    destruct include_deleted; [by left|right]. rewrite Hd; [tauto|done].
Qed.

(** ** What a flush writes *)

Lemma flushed_note_columns old new t :
  Note.id (flushed_note old new t) = Note.id new
  ∧ Note.user_id (flushed_note old new t) = Note.user_id new
  ∧ Note.folder_id (flushed_note old new t) = Note.folder_id new
  ∧ Note.title (flushed_note old new t) = Note.title new
  ∧ Note.content (flushed_note old new t) = Note.content new
  ∧ Note.audio_path (flushed_note old new t) = Note.audio_path new
  ∧ Note.date (flushed_note old new t) = Note.date new
  ∧ Note.created_at (flushed_note old new t) = Note.created_at new
  ∧ Note.synced_at (flushed_note old new t) = Note.synced_at new
  ∧ Note.is_deleted (flushed_note old new t) = Note.is_deleted new.
Proof. unfold flushed_note. repeat case_match; subst; done. Qed.

Lemma flushed_note_updated_at old new t :
  Note.updated_at (flushed_note old new t)
  = if decide (new = old) then Note.updated_at old
    else if decide (Note.updated_at new = Note.updated_at old) then t
         else Note.updated_at new.
Proof. unfold flushed_note. repeat case_match; done. Qed.

Lemma flushed_folder_columns old new t :
  Folder.id (flushed_folder old new t) = Folder.id new
  ∧ Folder.user_id (flushed_folder old new t) = Folder.user_id new
  ∧ Folder.name (flushed_folder old new t) = Folder.name new
  ∧ Folder.color (flushed_folder old new t) = Folder.color new
  ∧ Folder.created_at (flushed_folder old new t) = Folder.created_at new
  ∧ Folder.is_deleted (flushed_folder old new t) = Folder.is_deleted new.
Proof. unfold flushed_folder. repeat case_match; subst; done. Qed.

Lemma flush_note_Ok db id old new t db' :
  flush_note db id old new t = Ok db' ↔
  (Note.folder_id new = Note.folder_id old
   ∨ folder_fk db (Note.folder_id new) = true)
  ∧ db' = {| notes := <[id := flushed_note old new t]> (notes db);
             folders := folders db |}.
Proof.
  unfold flush_note, update_note.
  destruct (flushed_note_columns old new t) as (_ & _ & -> & _).
  destruct (bool_decide (Note.folder_id new = Note.folder_id old)) eqn:Hb;
    simpl.
  - apply bool_decide_eq_true in Hb. split.
    + intros [= <-]. split; [by left|done].
    + by intros [_ ->].
  - apply bool_decide_eq_false in Hb.
    destruct (folder_fk db (Note.folder_id new)); split.
    + intros [= <-]. split; [by right|done].
    + by intros [_ ->].
    + done.
    + by intros [[?|?] _].
Qed.

Lemma soft_delete_updated_at old now t :
  now ≤ t →
  now ≤ Note.updated_at (flushed_note old (NotesRouter.soft_delete_note old now) t)
      ≤ t.
Proof.
  intros Hclock. rewrite flushed_note_updated_at. simpl.
  destruct (decide (NotesRouter.soft_delete_note old now = old)) as [Heq|_].
  - apply (f_equal Note.updated_at) in Heq. simpl in Heq. lia.
  - destruct (decide (now = Note.updated_at old)); lia.
Qed.

Lemma assigned_updated_at old note_data now t :
  flushed_note old (NotesRouter.assign_note_data old note_data now) t = old
  ∨ Note.updated_at
      (flushed_note old (NotesRouter.assign_note_data old note_data now) t)
    = t.
Proof.
  rewrite flushed_note_updated_at. unfold flushed_note.
  destruct (decide (_ = old)); [by left|right].
  by rewrite decide_True.
Qed.

(** ** The handlers, when they answer *)

Lemma insert_note_Ok_iff db n db' :
  insert_note db n = Ok db'
  ↔ notes db !! Note.id n = None
    ∧ folder_fk db (Note.folder_id n) = true
    ∧ db' = {| notes := <[Note.id n := n]> (notes db); folders := folders db |}.
Proof.
  unfold insert_note.
  destruct (notes db !! Note.id n) as [x|] eqn:Hk.
  { rewrite bool_decide_eq_true_2 by done. split; [done|]. by intros [? _]. }
  rewrite bool_decide_eq_false_2 by by intros [? ?].
  destruct (folder_fk db (Note.folder_id n)); simpl.
  - split; [by intros [= <-]|by intros (_ & _ & ->)].
  - split; [done|]. by intros (_ & ? & _).
Qed.

Lemma create_note_Ok db note_data tasks user env db' tasks' note :
  NotesRouter.create_note db note_data tasks user env = Ok (db', tasks', note)
  ↔ note = NotesRouter.created_note note_data user env
    ∧ notes db !! Note.id note = None
    ∧ folder_fk db (Note.folder_id note) = true
    ∧ db' = {| notes := <[Note.id note := note]> (notes db);
               folders := folders db |}
    ∧ tasks' = (if Py.truthy (Note.content note)
                then tasks ++ [NotesRouter.note_task user note] else tasks).
Proof.
  unfold NotesRouter.create_note. cbv zeta. rewrite Result_bind_Ok. split.
  - intros (db1 & (Hnone & Hfk & ->)%insert_note_Ok_iff & [= <- <- <-]).
    done.
  - intros (-> & Hnone & Hfk & -> & ->). eexists. split; [|done].
    by apply insert_note_Ok_iff.
Qed.

Lemma update_note_handler_Ok db note_id note_data tasks user now t db' tasks' row :
  NotesRouter.update_note db note_id note_data tasks user now t
  = Ok (db', tasks', row)
  ↔ ∃ old,
      select_note db note_id user = Some old
      ∧ row = flushed_note old (NotesRouter.assign_note_data old note_data now) t
      ∧ (Note.folder_id (NotesRouter.assign_note_data old note_data now)
         = Note.folder_id old
         ∨ folder_fk db
             (Note.folder_id (NotesRouter.assign_note_data old note_data now))
           = true)
      ∧ db' = {| notes := <[note_id := row]> (notes db);
                 folders := folders db |}
      ∧ tasks' = (if bool_decide (is_Some (NoteUpdate.content note_data)
                                  ∨ is_Some (NoteUpdate.title note_data))
                  then tasks ++ [NotesRouter.note_task user row] else tasks).
Proof.
  unfold NotesRouter.update_note.
  destruct (select_note db note_id user) as [old|] eqn:Hsel.
  2:{ split; [done|]. by intros (old & ? & _). }
  split.
  - intros (db1 & [Hfk ->]%flush_note_Ok & [= <- <- <-])%Result_bind_Ok.
    by exists old.
  - intros (old' & [= <-] & -> & Hfk & -> & ->).
    apply Result_bind_Ok. eexists. split; [|done].
    by apply flush_note_Ok.
Qed.

Lemma delete_note_Ok db fs note_id hard_delete user now t db' fs' :
  NotesRouter.delete_note db fs note_id hard_delete user now t = Ok (db', fs')
  ↔ ∃ old,
      select_note db note_id user = Some old
      ∧ if hard_delete
        then db' = NotesRouter.db_delete_note db note_id
             ∧ fs' = NotesRouter.remove_audio fs old
        else db' = {| notes :=
                        <[note_id :=
                            flushed_note old
                              (NotesRouter.soft_delete_note old now) t]>
                          (notes db);
                      folders := folders db |}
             ∧ fs' = fs.
Proof.
  unfold NotesRouter.delete_note.
  destruct (select_note db note_id user) as [old|] eqn:Hsel.
  2:{ split; [done|]. by intros (old & ? & _). }
  destruct hard_delete.
  - split.
    + intros [= <- <-]. by exists old.
    + by intros (old' & [= <-] & -> & ->).
  - split.
    + intros (db1 & [Hfk ->]%flush_note_Ok & [= <- <-])%Result_bind_Ok.
      by exists old.
    + intros (old' & [= <-] & -> & ->).
      apply Result_bind_Ok. eexists. split; [|done].
      apply flush_note_Ok. split; [by left|done].
Qed.

Lemma get_note_insert db k row j who :
  NotesRouter.get_note
    {| notes := <[k := row]> (notes db); folders := folders db |} j who
  = if decide (j = k)
    then (if decide (Note.user_id row = who) then Ok row else Err NotFound)
    else NotesRouter.get_note db j who.
Proof.
  unfold NotesRouter.get_note. rewrite select_note_insert.
  destruct (decide (j = k)); [|done].
  by destruct (decide (Note.user_id row = who)).
Qed.

(** ** Creating a note *)

(** X5.  A note that [create_note] answers with is stored for the caller
    under the id that the client gave, or under the generated id when it
    gave none or an empty one: [get_note] returns it to the caller and to
    nobody else, every other id answers as before, and each listing of the
    caller that selects it gains exactly this note, while the listings of
    the other users are what they were.  A synchronisation of the caller
    from a checkpoint earlier than the call returns the note. *)
Theorem create_note_round_trip
    (db : DB) (note_data : NoteCreate.t) (tasks : list IndexTask)
    (user : string) (env : NoteEnv)
    (db' : DB) (tasks' : list IndexTask) (note : Note.t) :
  NotesRouter.create_note db note_data tasks user env = Ok (db', tasks', note) →
  NotesRouter.get_note db' (Note.id note) user = Ok note
  ∧ Note.id note = id_or_default (NoteCreate.id note_data) (note_uuid4 env)
  ∧ Note.is_deleted note = false
  ∧ (∀ other, other ≠ user →
       NotesRouter.get_note db' (Note.id note) other = Err NotFound)
  ∧ (∀ k who, k ≠ Note.id note →
       NotesRouter.get_note db' k who = NotesRouter.get_note db k who)
  ∧ (∀ include_deleted,
       NotesRouter.list_notes db' include_deleted None user
       ≡ₚ note :: NotesRouter.list_notes db include_deleted None user)
  ∧ (∀ include_deleted f,
       NotesRouter.list_notes db' include_deleted (Some f) user
       ≡ₚ (if decide (NoteCreate.folder_id note_data = Some f)
           then [note] else [])
          ++ NotesRouter.list_notes db include_deleted (Some f) user)
  ∧ (∀ include_deleted folder_id other, other ≠ user →
       NotesRouter.list_notes db' include_deleted folder_id other
       ≡ₚ NotesRouter.list_notes db include_deleted folder_id other)
  ∧ (∀ checkpoint, checkpoint < synced_utcnow env →
       note ∈ select_server_notes db' user (Some checkpoint)).
Proof.
  intros (Hnote & Hnone & Hfk & -> & _)%create_note_Ok.
  assert (Note.user_id note = user) as Hu by by rewrite Hnote.
  assert (Note.is_deleted note = false) as Hd by by rewrite Hnote.
  assert (Note.folder_id note = NoteCreate.folder_id note_data) as Hf
    by by rewrite Hnote.
  assert (NotesRouter.db_delete_note db (Note.id note) = db) as Hdel.
  { unfold NotesRouter.db_delete_note. rewrite delete_id by done.
    by destruct db. }
  assert (∀ include_deleted folder_id who,
    NotesRouter.list_notes
      {| notes := <[Note.id note := note]> (notes db); folders := folders db |}
      include_deleted folder_id who
    ≡ₚ (if NotesRouter.listed include_deleted folder_id who note
        then [note] else [])
       ++ NotesRouter.list_notes db include_deleted folder_id who) as Hlist.
  { intros. by rewrite list_notes_insert, Hdel. }
  split_and!.
  - rewrite get_note_insert, decide_True by done. by rewrite decide_True.
  - by rewrite Hnote.
  - done.
  - intros other Hne. rewrite get_note_insert, decide_True by done.
    rewrite decide_False; [done|congruence].
  - intros k who Hne. rewrite get_note_insert. by rewrite decide_False.
  - intros include_deleted. rewrite Hlist. unfold NotesRouter.listed.
    rewrite Hu, Hd, bool_decide_eq_true_2 by done.
    by destruct include_deleted.
  - intros include_deleted f. rewrite Hlist. unfold NotesRouter.listed.
    rewrite Hu, Hd, Hf, bool_decide_eq_true_2 by done.
    destruct (decide (NoteCreate.folder_id note_data = Some f)) as [Heq|Hne].
    + rewrite bool_decide_eq_true_2 by done. by destruct include_deleted.
    + rewrite bool_decide_eq_false_2 by done. by destruct include_deleted.
  - intros include_deleted folder_id other Hne. rewrite Hlist.
    unfold NotesRouter.listed.
    rewrite bool_decide_eq_false_2; [done|congruence].
  - intros checkpoint Hcp. apply elem_of_select_server_notes.
    split; [|split; [done|]].
    + exists (Note.id note). simpl. by rewrite lookup_insert_eq.
    + right. exists (synced_utcnow env). split; [by rewrite Hnote|lia].
Qed.

Lemma create_note_round_trip_witness :
  NotesRouter.get_note
    {| notes := {["n5" := NotesRouter.created_note Ex2.create_n5 Ex.alice
                             Ex2.env70]};
       folders := ∅ |}
    "n5" Ex.alice
  = Ok (NotesRouter.created_note Ex2.create_n5 Ex.alice Ex2.env70)
  ∧ NotesRouter.get_note
      {| notes := {["n5" := NotesRouter.created_note Ex2.create_n5 Ex.alice
                               Ex2.env70]};
         folders := ∅ |}
      "n5" Ex.bob
    = Err NotFound.
Proof.
  destruct (create_note_round_trip Ex.empty_db Ex2.create_n5 [] Ex.alice
              Ex2.env70 _ _ _ eq_refl) as (Hget & _ & _ & Hother & _).
  split; [exact Hget|]. by apply Hother.
Defined.

(** ** How the notes endpoints fail *)




(** ** Updating a note *)

(** X7.  What [update_note] cannot do.  The row it answers with is the
    caller's note as it is stored afterwards; it has the id, the owner,
    the creation time and the deletion flag that it had; a note that was
    in a folder is in a folder, and a note that had a recording has one:
    a body cannot clear [folder_id] or [audio_path].  The fields that the
    body gives are stored and the others are kept, [synced_at] is the
    time of the call, and [updated_at] is the clock of the store whenever
    the row changed, which it does, even for a body without fields, unless
    [synced_at] was the time of the call.  No other row is written, and a
    synchronisation of the caller from a checkpoint earlier than the call
    returns the row. *)
Theorem update_note_keeps_what_it_cannot_set
    (db : DB) (note_id : string) (note_data : NoteUpdate.t)
    (tasks : list IndexTask) (user : string) (now onupdate_now : datetime)
    (db' : DB) (tasks' : list IndexTask) (row : Note.t) :
  NotesRouter.update_note db note_id note_data tasks user now onupdate_now
  = Ok (db', tasks', row) →
  ∃ old,
    select_note db note_id user = Some old
    ∧ NotesRouter.get_note db' note_id user = Ok row
    ∧ Note.id row = Note.id old
    ∧ Note.user_id row = user
    ∧ Note.created_at row = Note.created_at old
    ∧ Note.is_deleted row = Note.is_deleted old
    ∧ (is_Some (Note.folder_id old) → is_Some (Note.folder_id row))
    ∧ (is_Some (Note.audio_path old) → is_Some (Note.audio_path row))
    ∧ Note.title row = default (Note.title old) (NoteUpdate.title note_data)
    ∧ Note.content row
      = default (Note.content old) (NoteUpdate.content note_data)
    ∧ Note.date row = default (Note.date old) (NoteUpdate.date note_data)
    ∧ (∀ f, NoteUpdate.folder_id note_data = Some f →
            Note.folder_id row = Some f)
    ∧ (∀ p, NoteUpdate.audio_path note_data = Some p →
            Note.audio_path row = Some p)
    ∧ Note.synced_at row = Some now
    ∧ (row = old ∨ Note.updated_at row = onupdate_now)
    ∧ (Note.synced_at old ≠ Some now → Note.updated_at row = onupdate_now)
    ∧ (∀ k, k ≠ note_id → notes db' !! k = notes db !! k)
    ∧ folders db' = folders db
    ∧ (∀ checkpoint, checkpoint < now →
         row ∈ select_server_notes db' user (Some checkpoint)).
Proof.
  intros (old & Hsel & -> & _ & -> & _)%update_note_handler_Ok.
  exists old. split; [done|].
  pose proof Hsel as [Hk Hu]%select_note_Some.
  set (assigned := NotesRouter.assign_note_data old note_data now).
  destruct (flushed_note_columns old assigned onupdate_now)
    as (Hid & Huid & Hfo & Hti & Hco & Hau & Hda & Hcr & Hsy & Hde).
  split_and!.
  - rewrite get_note_insert, decide_True by done.
    rewrite decide_True; [done|]. by rewrite Huid.
  - by rewrite Hid.
  - by rewrite Huid.
  - by rewrite Hcr.
  - by rewrite Hde.
  - rewrite Hfo. simpl. by destruct (NoteUpdate.folder_id note_data).
  - rewrite Hau. simpl. by destruct (NoteUpdate.audio_path note_data).
  - by rewrite Hti.
  - by rewrite Hco.
  - by rewrite Hda.
  - intros f Hf. rewrite Hfo. simpl. by rewrite Hf.
  - intros p Hp. rewrite Hau. simpl. by rewrite Hp.
  - by rewrite Hsy.
  - apply assigned_updated_at.
  - intros Hsynced.
    destruct (assigned_updated_at old note_data now onupdate_now)
      as [Hsame|Hupd]; [|done].
    fold assigned in Hsame.
    apply (f_equal Note.synced_at) in Hsame. rewrite Hsy in Hsame.
    simpl in Hsame. congruence.
  - intros k Hne. simpl. by rewrite lookup_insert_ne.
  - done.
  - intros checkpoint Hcp. apply elem_of_select_server_notes.
    split; [|split].
    + exists note_id. simpl. by rewrite lookup_insert_eq.
    + by rewrite Huid.
    + right. exists now. split; [by rewrite Hsy|lia].
Qed.

Lemma update_note_keeps_what_it_cannot_set_witness :
  ∃ row,
    NotesRouter.get_note
      {| notes :=
           {["n1" := flushed_note Ex.n1
                       (NotesRouter.assign_note_data Ex.n1 Ex2.retitle 50) 51]};
         folders := ∅ |} "n1" Ex.alice = Ok row
    ∧ Note.title row = "newer"%string
    ∧ Note.content row = "old text"%string
    ∧ is_Some (Note.audio_path row)
    ∧ Note.updated_at row = 51.
Proof.
  destruct (update_note_keeps_what_it_cannot_set Ex.db_n1 "n1" Ex2.retitle []
              Ex.alice 50 51 _ _ _ eq_refl)
    as (old & Hsel & Hget & _ & _ & _ & _ & _ & Haudio & Htitle & Hcontent
        & _ & _ & _ & _ & Hupd & _).
  injection Hsel as <-.
  eexists. split; [exact Hget|].
  split; [exact Htitle|]. split; [exact Hcontent|].
  split; [by apply Haudio|]. reflexivity.
Defined.

(** ** Deleting a note *)

Lemma elem_of_remove_audio fs note p :
  p ∈ files (NotesRouter.remove_audio fs note)
  ↔ p ∈ files fs
    ∧ ¬ (Note.audio_path note = Some p ∧ p ≠ EmptyString
         ∧ p ∉ unremovable fs).
Proof.
  unfold NotesRouter.remove_audio.
  destruct (Note.audio_path note) as [q|].
  2:{ split; [|tauto]. intros Hp. split; [done|]. by intros (? & _). }
  unfold os_path_exists, os_remove.
  destruct q as [|a q]; simpl.
  { split; [|tauto]. intros Hp. split; [done|]. by intros ([= <-] & ? & _). }
  destruct (decide (String a q ∈ files fs)) as [Hin|Hnin].
  2:{ rewrite !bool_decide_eq_false_2 by done. simpl.
      split; [|tauto]. intros Hp. split; [done|].
      intros ([= <-] & _). done. }
  rewrite !bool_decide_eq_true_2 by done. simpl.
  destruct (decide (String a q ∈ unremovable fs)) as [Hun|Hrem].
  - rewrite bool_decide_eq_true_2 by done. simpl.
    split; [|tauto]. intros Hp. split; [done|].
    intros ([= <-] & _ & ?). done.
  - rewrite bool_decide_eq_false_2 by done. simpl.
    rewrite elem_of_difference, elem_of_singleton. split.
    + intros [Hp Hne]. split; [done|]. intros ([= <-] & _). done.
    + intros [Hp Hno]. split; [done|]. intros ->. apply Hno. done.
Qed.


(** X8.  A soft [delete_note] leaves a tombstone.  The files are left as
    they are and no other row is written; the caller's note is still
    answered by [get_note], with the deletion flag set, an [updated_at]
    not earlier than the time of the call, and every other column as it
    was, its recording included; the listings without deleted notes are
    the listings of the table without the note, while the listing with
    them holds the tombstone; and a synchronisation from an earlier
    checkpoint returns it. *)
Theorem soft_deleted_note_is_a_tombstone
    (db : DB) (fs : FileSystem) (note_id user : string)
    (now onupdate_now : datetime) (db' : DB) (fs' : FileSystem) :
  NotesRouter.delete_note db fs note_id false user now onupdate_now
  = Ok (db', fs') →
  now ≤ onupdate_now →
  fs' = fs
  ∧ folders db' = folders db
  ∧ (∀ k, k ≠ note_id → notes db' !! k = notes db !! k)
  ∧ ∃ old row,
      select_note db note_id user = Some old
      ∧ NotesRouter.get_note db' note_id user = Ok row
      ∧ Note.is_deleted row = true
      ∧ now ≤ Note.updated_at row ≤ onupdate_now
      ∧ Note.title row = Note.title old
      ∧ Note.content row = Note.content old
      ∧ Note.folder_id row = Note.folder_id old
      ∧ Note.audio_path row = Note.audio_path old
      ∧ Note.synced_at row = Note.synced_at old
      ∧ (∀ folder_id,
           NotesRouter.list_notes db' false folder_id user
           ≡ₚ NotesRouter.list_notes (NotesRouter.db_delete_note db note_id)
                false folder_id user)
      ∧ NotesRouter.list_notes db' true None user
        ≡ₚ row :: NotesRouter.list_notes
                    (NotesRouter.db_delete_note db note_id) true None user
      ∧ (∀ checkpoint, checkpoint < now →
           row ∈ select_server_notes db' user (Some checkpoint)).
Proof.
  intros (old & Hsel & -> & ->)%delete_note_Ok Hclock.
  pose proof Hsel as [Hk Hu]%select_note_Some.
  set (row := flushed_note old (NotesRouter.soft_delete_note old now)
                onupdate_now).
  destruct (flushed_note_columns old (NotesRouter.soft_delete_note old now)
              onupdate_now)
    as (Hid & Huid & Hfo & Hti & Hco & Hau & Hda & Hcr & Hsy & Hde).
  fold row in Hid, Huid, Hfo, Hti, Hco, Hau, Hda, Hcr, Hsy, Hde.
  simpl in Hid, Huid, Hfo, Hti, Hco, Hau, Hda, Hcr, Hsy, Hde.
  assert (now ≤ Note.updated_at row ≤ onupdate_now) as Hupd
    by by apply soft_delete_updated_at.
  split; [done|]. split; [done|]. split.
  { intros k Hne. simpl. by rewrite lookup_insert_ne. }
  exists old, row. split; [done|].
  split_and!; try done; try lia.
  - rewrite get_note_insert, decide_True by done.
    rewrite decide_True; [done|]. by rewrite Huid.
  - intros folder_id. rewrite list_notes_insert.
    unfold NotesRouter.listed. rewrite Hde, Huid, Hu. simpl.
    by rewrite andb_false_r.
  - rewrite list_notes_insert.
    unfold NotesRouter.listed. rewrite Huid, Hu.
    by rewrite bool_decide_eq_true_2.
  - intros checkpoint Hcp. apply elem_of_select_server_notes.
    split; [|split].
    + exists note_id. simpl. by rewrite lookup_insert_eq.
    + by rewrite Huid.
    + left. lia.
Qed.

Lemma soft_deleted_note_is_a_tombstone_witness :
  ∃ db' fs',
    NotesRouter.delete_note Ex.db_n1 Ex.memo_on_disk "n1" false Ex.alice 50 51
    = Ok (db', fs')
    ∧ fs' = Ex.memo_on_disk
    ∧ ∃ row, NotesRouter.get_note db' "n1" Ex.alice = Ok row
             ∧ Note.is_deleted row = true
             ∧ Note.audio_path row = Some "memo.m4a"%string.
Proof.
  eexists _, _. split; [reflexivity|].
  destruct (soft_deleted_note_is_a_tombstone Ex.db_n1 Ex.memo_on_disk "n1"
              Ex.alice 50 51 _ _ eq_refl ltac:(lia))
    as (Hfs & _ & _ & old & row & Hsel & Hget & Hdel & _ & _ & _ & _ & Hau & _).
  injection Hsel as <-.
  split; [exact Hfs|]. exists row. split; [exact Hget|].
  split; [exact Hdel|exact Hau].
Defined.



(** ** A write of the endpoints and a later synchronisation *)

Lemma entry_ignored_intro user db c e :
  select_note db (NoteSyncItem.id c) user = Some e →
  NoteSyncItem.updated_at c ≤ Note.updated_at e →
  entry_ignored user db c.
Proof.
  intros Hsel Hle sync_time default_now fs to_index.
  by apply (sync_note_existing_not_newer _ _ _ _ _ e).
Qed.

(** X10.  A write made through the notes endpoints is dated by the clock
    of the server, and a synchronisation entry for the note that is not
    later than that date is passed over, whatever it holds.  This is so
    after [create_note] for the entries up to the [updated_at] default of
    the insertion, after an [update_note] that changed the row for the
    entries up to the clock of the flush, and after a soft [delete_note]
    for the entries up to the time of the call: an older edit does not
    undo the deletion. *)
Theorem api_write_beats_stale_sync_entry
    (db : DB) (fs : FileSystem) (user note_id : string)
    (note_data : NoteCreate.t) (update_data : NoteUpdate.t)
    (tasks : list IndexTask) (env : NoteEnv)
    (now onupdate_now : datetime) (c : NoteSyncItem.t) :
  (∀ db' tasks' note,
     NotesRouter.create_note db note_data tasks user env
     = Ok (db', tasks', note) →
     NoteSyncItem.id c = Note.id note →
     NoteSyncItem.updated_at c ≤ updated_at_default env →
     entry_ignored user db' c)
  ∧ (∀ db' tasks' row old,
       NotesRouter.update_note db note_id update_data tasks user now
         onupdate_now = Ok (db', tasks', row) →
       select_note db note_id user = Some old →
       row ≠ old →
       NoteSyncItem.id c = note_id →
       NoteSyncItem.updated_at c ≤ onupdate_now →
       entry_ignored user db' c)
  ∧ (∀ db' fs',
       NotesRouter.delete_note db fs note_id false user now onupdate_now
       = Ok (db', fs') →
       now ≤ onupdate_now →
       NoteSyncItem.id c = note_id →
       NoteSyncItem.updated_at c ≤ now →
       entry_ignored user db' c).
Proof.
  split_and!.
  - intros db' tasks' note (Hnote & _ & _ & -> & _)%create_note_Ok Hid Hle.
    apply (entry_ignored_intro _ _ _ note).
    + rewrite select_note_insert, Hid, decide_True by done.
      rewrite decide_True; [done|]. by rewrite Hnote.
    + by rewrite Hnote.
  - intros db' tasks' row old
      (old' & Hsel' & -> & _ & -> & _)%update_note_handler_Ok Hsel Hne Hid Hle.
    rewrite Hsel in Hsel'. injection Hsel' as <-.
    pose proof Hsel as [_ Hu]%select_note_Some.
    destruct (flushed_note_columns old
                (NotesRouter.assign_note_data old update_data now) onupdate_now)
      as (_ & Huid & _).
    eapply entry_ignored_intro.
    + rewrite select_note_insert, Hid, decide_True by done.
      rewrite decide_True; [done|]. by rewrite Huid.
    + destruct (assigned_updated_at old update_data now onupdate_now)
        as [Hsame|Hupd]; [done|lia].
  - intros db' fs' (old & Hsel & -> & ->)%delete_note_Ok Hclock Hid Hle.
    pose proof Hsel as [_ Hu]%select_note_Some.
    destruct (flushed_note_columns old (NotesRouter.soft_delete_note old now)
                onupdate_now) as (_ & Huid & _).
    eapply entry_ignored_intro.
    + rewrite select_note_insert, Hid, decide_True by done.
      rewrite decide_True; [done|]. by rewrite Huid.
    + pose proof (soft_delete_updated_at old now onupdate_now Hclock). lia.
Qed.

Lemma api_write_beats_stale_sync_entry_witness :
  ∃ db' fs',
    NotesRouter.delete_note Ex.db_n1 Ex.memo_on_disk "n1" false Ex.alice 50 51
    = Ok (db', fs')
    ∧ sync_note Ex.alice 60 61
        {| np_db := db'; np_fs := fs'; notes_to_index := [] |} Ex.c1_edit
      = Ok {| np_db := db'; np_fs := fs'; notes_to_index := [] |}.
Proof.
  eexists _, _. split; [reflexivity|].
  destruct (api_write_beats_stale_sync_entry Ex.db_n1 Ex.memo_on_disk
              Ex.alice "n1" Ex2.create_n5 Ex2.retitle [] Ex2.env70 50 51
              Ex.c1_edit) as (_ & _ & Hdelete).
  apply (Hdelete _ _ eq_refl); [lia|reflexivity|simpl; lia].
Defined.

(** * The folders endpoints *)

Lemma create_folder_Ok db folder_data user env db' folder :
  FoldersRouter.create_folder db folder_data user env = Ok (db', folder)
  ↔ folder = FoldersRouter.created_folder folder_data user env
    ∧ folders db !! Folder.id folder = None
    ∧ db' = {| notes := notes db;
               folders := <[Folder.id folder := folder]> (folders db) |}.
Proof.
  unfold FoldersRouter.create_folder, insert_folder. cbv zeta.
  destruct (folders db !! Folder.id (FoldersRouter.created_folder _ _ _))
    as [x|] eqn:Hk.
  - rewrite bool_decide_eq_true_2 by done. simpl. split; [done|].
    intros (-> & Hnone & _). congruence.
  - rewrite bool_decide_eq_false_2 by by intros [? ?]. simpl. split.
    + by intros [= <- <-].
    + by intros (-> & _ & ->).
Qed.

Lemma update_folder_handler_Ok db folder_id folder_data user t db' row :
  FoldersRouter.update_folder db folder_id folder_data user t = Ok (db', row)
  ↔ ∃ old,
      select_folder db folder_id user = Some old
      ∧ row = flushed_folder old
                (FoldersRouter.assign_folder_data old folder_data) t
      ∧ db' = {| notes := notes db;
                 folders := <[folder_id := row]> (folders db) |}.
Proof.
  unfold FoldersRouter.update_folder, flush_folder, update_folder.
  destruct (select_folder db folder_id user) as [old|] eqn:Hsel.
  - split.
    + intros [= <- <-]. by exists old.
    + by intros (old' & [= <-] & -> & ->).
  - split; [done|]. by intros (old & ? & _).
Qed.

Lemma get_folder_insert db k row j who :
  FoldersRouter.get_folder
    {| notes := notes db; folders := <[k := row]> (folders db) |} j who
  = if decide (j = k)
    then (if decide (Folder.user_id row = who) then Ok row else Err NotFound)
    else FoldersRouter.get_folder db j who.
Proof.
  unfold FoldersRouter.get_folder. rewrite select_folder_insert.
  destruct (decide (j = k)); [|done].
  by destruct (decide (Folder.user_id row = who)).
Qed.

(** X11.  A folder that [create_folder] answers with is stored for the
    caller under the id that the client gave, or under the generated id
    when it gave none or an empty one, and that id was the id of no
    folder of any owner.  [get_folder] returns it to the caller and to
    nobody else, every listing of the caller gains exactly this folder,
    the listings of the other users and the notes are what they were.  A
    synchronisation of the caller from a checkpoint earlier than the
    [updated_at] default of the insertion returns the folder. *)
Theorem create_folder_round_trip
    (db : DB) (folder_data : FolderCreate.t) (user : string) (env : FolderEnv)
    (db' : DB) (folder : Folder.t) :
  FoldersRouter.create_folder db folder_data user env = Ok (db', folder) →
  FoldersRouter.get_folder db' (Folder.id folder) user = Ok folder
  ∧ Folder.id folder
    = id_or_default (FolderCreate.id folder_data) (folder_uuid4 env)
  ∧ folders db !! Folder.id folder = None
  ∧ Folder.name folder = FolderCreate.name folder_data
  ∧ Folder.color folder = FolderCreate.color folder_data
  ∧ Folder.is_deleted folder = false
  ∧ (∀ other, other ≠ user →
       FoldersRouter.get_folder db' (Folder.id folder) other = Err NotFound)
  ∧ (∀ k who, k ≠ Folder.id folder →
       FoldersRouter.get_folder db' k who = FoldersRouter.get_folder db k who)
  ∧ (∀ include_deleted,
       FoldersRouter.list_folders db' include_deleted user
       ≡ₚ folder :: FoldersRouter.list_folders db include_deleted user)
  ∧ (∀ include_deleted other, other ≠ user →
       FoldersRouter.list_folders db' include_deleted other
       ≡ₚ FoldersRouter.list_folders db include_deleted other)
  ∧ notes db' = notes db
  ∧ (∀ checkpoint, checkpoint < folder_updated_at_default env →
       folder ∈ select_server_folders db' user (Some checkpoint)).
Proof.
  intros (Hfolder & Hnone & ->)%create_folder_Ok.
  assert (Folder.user_id folder = user) as Hu by by rewrite Hfolder.
  assert (Folder.is_deleted folder = false) as Hd by by rewrite Hfolder.
  assert (∀ include_deleted who,
    FoldersRouter.list_folders
      {| notes := notes db;
         folders := <[Folder.id folder := folder]> (folders db) |}
      include_deleted who
    ≡ₚ (if FoldersRouter.listed include_deleted who folder
        then [folder] else [])
       ++ FoldersRouter.list_folders db include_deleted who) as Hlist.
  { intros. rewrite list_folders_insert, delete_id by done. by destruct db. }
  split_and!; try (by rewrite Hfolder); try done.
  - rewrite get_folder_insert, decide_True by done. by rewrite decide_True.
  - intros other Hne. rewrite get_folder_insert, decide_True by done.
    rewrite decide_False; [done|congruence].
  - intros k who Hne. rewrite get_folder_insert. by rewrite decide_False.
  - intros include_deleted. rewrite Hlist. unfold FoldersRouter.listed.
    rewrite Hu, Hd, bool_decide_eq_true_2 by done.
    by destruct include_deleted.
  - intros include_deleted other Hne. rewrite Hlist.
    unfold FoldersRouter.listed.
    rewrite bool_decide_eq_false_2; [done|congruence].
  - intros checkpoint Hcp. apply elem_of_select_server_folders.
    split; [|split; [done|]].
    + exists (Folder.id folder). simpl. by rewrite lookup_insert_eq.
    + rewrite Hfolder. simpl. lia.
Qed.

Lemma create_folder_round_trip_witness :
  ∃ db' folder,
    FoldersRouter.create_folder Ex.db_f1 Ex2.create_trip Ex.alice
      Ex2.folder_env80 = Ok (db', folder)
    ∧ FoldersRouter.get_folder db' (folder_uuid4 Ex2.folder_env80) Ex.alice
      = Ok folder
    ∧ FoldersRouter.list_folders db' false Ex.alice
      ≡ₚ folder :: FoldersRouter.list_folders Ex.db_f1 false Ex.alice.
Proof.
  eexists _, _. split; [reflexivity|].
  destruct (create_folder_round_trip Ex.db_f1 Ex2.create_trip Ex.alice
              Ex2.folder_env80 _ _ eq_refl)
    as (Hget & _ & _ & _ & _ & _ & _ & _ & Hlist & _).
  split; [exact Hget|apply Hlist].
Defined.



(** X13.  [update_folder] stores the fields that the body gives and keeps
    the others, the deletion flag included, and writes no other row.  A
    call that changes neither the name nor the colour leaves the tables as
    they are, [updated_at] included; a call that changes one of them dates
    the folder by the clock of the store, and a synchronisation from an
    earlier checkpoint returns the folder. *)
Theorem update_folder_dates_changes
    (db : DB) (folder_id : string) (folder_data : FolderUpdate.t)
    (user : string) (onupdate_now : datetime) (db' : DB) (row : Folder.t) :
  FoldersRouter.update_folder db folder_id folder_data user onupdate_now
  = Ok (db', row) →
  ∃ old,
    select_folder db folder_id user = Some old
    ∧ FoldersRouter.get_folder db' folder_id user = Ok row
    ∧ Folder.name row
      = default (Folder.name old) (FolderUpdate.name folder_data)
    ∧ Folder.color row
      = default (Folder.color old) (FolderUpdate.color folder_data)
    ∧ Folder.id row = Folder.id old
    ∧ Folder.created_at row = Folder.created_at old
    ∧ Folder.is_deleted row = Folder.is_deleted old
    ∧ notes db' = notes db
    ∧ (∀ k, k ≠ folder_id → folders db' !! k = folders db !! k)
    ∧ (Folder.name row = Folder.name old →
       Folder.color row = Folder.color old →
       row = old ∧ db' = db)
    ∧ (Folder.name row ≠ Folder.name old
       ∨ Folder.color row ≠ Folder.color old →
       Folder.updated_at row = onupdate_now
       ∧ ∀ checkpoint, checkpoint < onupdate_now →
           row ∈ select_server_folders db' user (Some checkpoint)).
Proof.
  intros (old & Hsel & -> & ->)%update_folder_handler_Ok.
  exists old. split; [done|].
  pose proof Hsel as [Hk Hu]%select_folder_Some.
  set (assigned := FoldersRouter.assign_folder_data old folder_data).
  destruct (flushed_folder_columns old assigned onupdate_now)
    as (Hid & Huid & Hna & Hco & Hcr & Hde).
  split_and!; try done.
  - rewrite get_folder_insert, decide_True by done.
    rewrite decide_True; [done|]. by rewrite Huid.
  - intros k Hne. simpl. by rewrite lookup_insert_ne.
  - rewrite Hna, Hco. intros Hname Hcolor.
    assert (assigned = old) as Heq.
    { destruct old. unfold assigned, FoldersRouter.assign_folder_data in *.
      simpl in *. by rewrite Hname, Hcolor. }
    unfold flushed_folder. rewrite decide_True by done. split; [done|].
    apply DB_eq; [done|]. simpl. by apply insert_id.
  - rewrite Hna, Hco. intros Hchanged.
    assert (assigned ≠ old) as Hne.
    { intros Heq. rewrite Heq in Hchanged. by destruct Hchanged. }
    assert (Folder.updated_at (flushed_folder old assigned onupdate_now)
            = onupdate_now) as Hupd.
    { unfold flushed_folder. rewrite decide_False by done.
      by rewrite decide_True. }
    split; [done|]. intros checkpoint Hcp.
    apply elem_of_select_server_folders. split; [|split].
    + exists folder_id. simpl. by rewrite lookup_insert_eq.
    + by rewrite Huid.
    + lia.
Qed.

Lemma update_folder_dates_changes_witness :
  ∃ db' row,
    FoldersRouter.update_folder Ex.db_f1 "f1" Ex2.rename_office Ex.alice 90
    = Ok (db', row)
    ∧ Folder.name row = "Office"%string
    ∧ Folder.updated_at row = 90
    ∧ row ∈ select_server_folders db' Ex.alice (Some 50).
Proof.
  eexists _, _. split; [reflexivity|].
  destruct (update_folder_dates_changes Ex.db_f1 "f1" Ex2.rename_office
              Ex.alice 90 _ _ eq_refl)
    as (old & Hsel & _ & Hname & _ & _ & _ & _ & _ & _ & _ & Hchanged).
  injection Hsel as <-.
  split; [exact Hname|].
  destruct Hchanged as [Hupd Hdelta]; [by left|].
  split; [exact Hupd|]. apply Hdelta. lia.
Defined.

(** * Owners *)

Lemma others_untouched_refl user db : others_untouched user db db.
Proof. by split. Qed.

Lemma others_untouched_write_note user db k row :
  Note.user_id row = user →
  (∀ old, notes db !! k = Some old → Note.user_id old = user) →
  others_untouched user db
    {| notes := <[k := row]> (notes db); folders := folders db |}.
Proof.
  intros Hu Hold. split; [|done]. intros j n Hn. simpl.
  destruct (decide (j = k)) as [->|Hne].
  - rewrite lookup_insert_eq. split.
    + intros Hk. by apply Hold in Hk.
    + intros [= <-]. done.
  - by rewrite lookup_insert_ne.
Qed.

Lemma others_untouched_write_folder user db k row :
  Folder.user_id row = user →
  (∀ old, folders db !! k = Some old → Folder.user_id old = user) →
  others_untouched user db
    {| notes := notes db; folders := <[k := row]> (folders db) |}.
Proof.
  intros Hu Hold. split; [done|]. intros j f Hf. simpl.
  destruct (decide (j = k)) as [->|Hne].
  - rewrite lookup_insert_eq. split.
    + intros Hk. by apply Hold in Hk.
    + intros [= <-]. done.
  - by rewrite lookup_insert_ne.
Qed.

Lemma sync_folders_loop_changed user d db l db' k :
  sync_folders_loop user d db l = Ok db' →
  folders db' !! k = folders db !! k
  ∨ ∃ row, folders db' !! k = Some row
           ∧ k ∈ FolderSyncItem.id <$> l
           ∧ Folder.user_id row = user.
Proof.
  revert db. induction l as [|c l IH]; intros db; simpl.
  - intros [= <-]. by left.
  - intros (db1 & Hstep & Hloop)%Result_bind_Ok.
    destruct (IH _ Hloop) as [Heq|(row & Hk & Hin & Hu)].
    2:{ right. exists row. repeat split; try done. by apply elem_of_cons; right. }
    rewrite Heq.
    apply sync_folder_cases in Hstep
      as [_ [[_ ->]|[_ (row & Hf & Hu & _)]]]; [by left|].
    rewrite Hf. destruct (decide (k = FolderSyncItem.id c)) as [->|Hne].
    + right. exists row. rewrite lookup_insert_eq.
      repeat split; try done. apply elem_of_cons; by left.
    + left. by rewrite lookup_insert_ne.
Qed.

Lemma sync_data_others_untouched db fs user sync_request clock :
  others_untouched user db (stored (sync_data db fs user sync_request clock)).
Proof.
  unfold sync_data.
  destruct (sync_notes (begin db) fs user _ _ _ _ _) as [nr|e] eqn:Hn1;
    [|apply others_untouched_refl].
  apply sync_notes_Ok in Hn1 as (st & Hloop & ->). simpl.
  pose proof (sync_notes_loop_folders _ _ _ _ _ _ Hloop) as Hfst.
  simpl in Hfst.
  assert (∀ k n, Note.user_id n ≠ user →
            notes db !! k = Some n ↔ notes (np_db st) !! k = Some n) as Hnotes.
  { intros k n Hu. split.
    - intros Hk. by eapply sync_notes_loop_others.
    - intros Hk.
      destruct (sync_notes_loop_changed _ _ _ _ _ _ k Hloop)
        as [Heq|(row & Hrow & _ & Hurow & _)].
      + simpl in Heq. by rewrite <- Heq.
      + rewrite Hk in Hrow. by simplify_eq. }
  destruct (sync_folders _ user _ _ _) as [fr|e] eqn:Hf1.
  - apply sync_folders_Ok in Hf1 as (dbf & Hfloop & ->). simpl in *.
    pose proof (sync_folders_loop_notes _ _ _ _ _ Hfloop) as Hnf.
    split.
    + intros k n Hu. rewrite Hnf. by apply Hnotes.
    + intros k f Hu. rewrite <- Hfst. split.
      * intros Hk. by eapply sync_folders_loop_others.
      * intros Hk.
        destruct (sync_folders_loop_changed _ _ _ _ _ k Hfloop)
          as [Heq|(row & Hrow & _ & Hurow)].
        -- simpl in Heq. by rewrite <- Heq.
        -- rewrite Hk in Hrow. by simplify_eq.
  - simpl. split; [done|]. intros k f Hu. by rewrite Hfst.
Qed.

Lemma delete_folder_changes_other_folders db folder_id hard_delete user now
    onupdate_now db' k :
  delete_folder_changes db folder_id hard_delete user now onupdate_now = Ok db' →
  k ≠ folder_id → folders db' !! k = folders db !! k.
Proof.
  unfold delete_folder_changes.
  destruct (select_folder db folder_id user) as [folder|]; [|done].
  intros Hch Hne. destruct hard_delete; injection Hch as <-; simpl.
  - by rewrite lookup_delete_ne.
  - by rewrite lookup_insert_ne.
Qed.

(** X14.  No endpoint writes a row of another owner, with one exception.
    After a call of [sync_data], and after a call that succeeds of
    [create_note], [update_note], [delete_note], [create_folder],
    [update_folder] or of [delete_folder] without [hard_delete], the notes
    and the folders that are not the caller's are, key by key, the rows
    that were stored.  A [delete_folder] with [hard_delete] leaves the
    folders of the other owners as they were, and it takes out of the
    folder every note that was in it, whoever owns the note, and dates
    that note by the clock of the store. *)
Theorem endpoints_leave_other_owners_alone
    (db : DB) (fs : FileSystem) (user : string)
    (sync_request : SyncRequest.t) (clock : Clock)
    (note_data : NoteCreate.t) (note_update : NoteUpdate.t)
    (tasks : list IndexTask) (env : NoteEnv)
    (folder_data : FolderCreate.t) (folder_update : FolderUpdate.t)
    (folder_env : FolderEnv) (id : string) (hard_delete : bool)
    (now onupdate_now : datetime) :
  others_untouched user db (stored (sync_data db fs user sync_request clock))
  ∧ (∀ db' tasks' note,
       NotesRouter.create_note db note_data tasks user env
       = Ok (db', tasks', note) →
       others_untouched user db db')
  ∧ (∀ db' tasks' row,
       NotesRouter.update_note db id note_update tasks user now onupdate_now
       = Ok (db', tasks', row) →
       others_untouched user db db')
  ∧ (∀ db' fs',
       NotesRouter.delete_note db fs id hard_delete user now onupdate_now
       = Ok (db', fs') →
       others_untouched user db db')
  ∧ (∀ db' folder,
       FoldersRouter.create_folder db folder_data user folder_env
       = Ok (db', folder) →
       others_untouched user db db')
  ∧ (∀ db' row,
       FoldersRouter.update_folder db id folder_update user onupdate_now
       = Ok (db', row) →
       others_untouched user db db')
  ∧ (∀ s',
       delete_folder (begin db) id false user now onupdate_now = Ok s' →
       others_untouched user db (committed s'))
  ∧ (∀ s',
       delete_folder (begin db) id true user now onupdate_now = Ok s' →
       (∀ k f, Folder.user_id f ≠ user →
               folders db !! k = Some f ↔ folders (committed s') !! k = Some f)
       ∧ ∀ k, notes (committed s') !! k
              = (λ n : Note.t,
                   if decide (Note.folder_id n = Some id)
                   then unfile_note onupdate_now n else n) <$> notes db !! k).
Proof.
  split_and!.
  - apply sync_data_others_untouched.
  - intros db' tasks' note (Hnote & Hnone & _ & -> & _)%create_note_Ok.
    apply others_untouched_write_note; [by rewrite Hnote|].
    intros old Hold. congruence.
  - intros db' tasks' row
      (old & [Hk Hu]%select_note_Some & -> & _ & -> & _)%update_note_handler_Ok.
    apply others_untouched_write_note.
    + destruct (flushed_note_columns old
                  (NotesRouter.assign_note_data old note_update now)
                  onupdate_now) as (_ & -> & _). done.
    + intros old' Hold. congruence.
  - intros db' fs' (old & [Hk Hu]%select_note_Some & Hres)%delete_note_Ok.
    destruct hard_delete; destruct Hres as [-> _].
    + split; [|done]. intros j n Hn. simpl.
      destruct (decide (j = id)) as [->|Hne].
      * rewrite lookup_delete_eq. split; [|done]. intros Hj. congruence.
      * by rewrite lookup_delete_ne.
    + apply others_untouched_write_note.
      * destruct (flushed_note_columns old
                    (NotesRouter.soft_delete_note old now) onupdate_now)
          as (_ & -> & _). done.
      * intros old' Hold. congruence.
  - intros db' folder (Hfolder & Hnone & ->)%create_folder_Ok.
    apply others_untouched_write_folder; [by rewrite Hfolder|].
    intros old Hold. congruence.
  - intros db' row
      (old & [Hk Hu]%select_folder_Some & -> & ->)%update_folder_handler_Ok.
    apply others_untouched_write_folder.
    + destruct (flushed_folder_columns old
                  (FoldersRouter.assign_folder_data old folder_update)
                  onupdate_now) as (_ & -> & _). done.
    + intros old' Hold. congruence.
  - intros s' (db' & Hch & ->)%delete_folder_Ok. simpl in *.
    destruct (delete_folder_changes_folder _ _ _ _ _ _ _ Hch)
      as (folder & [Hk Hu]%select_folder_Some & Hrow).
    split.
    + intros k n Hn.
      rewrite (delete_folder_changes_notes _ _ _ _ _ _ _ k Hch).
      destruct (notes db !! k) as [n0|]; simpl; [|done].
      case_bool_decide as Hc; simpl.
      * destruct Hc as [_ [Hown|?]]; [|done]. split.
        -- intros [= ->]. done.
        -- intros [= <-]. done.
      * done.
    + intros k f Hf. destruct (decide (k = id)) as [->|Hne].
      * rewrite Hrow, Hk.
        destruct (flushed_folder_soft_delete folder now onupdate_now)
          as (_ & Hu' & _).
        split.
        -- intros [= <-]. done.
        -- intros [= <-]. congruence.
      * by rewrite (delete_folder_changes_other_folders _ _ _ _ _ _ _ _ Hch).
  - intros s' (db' & Hch & ->)%delete_folder_Ok. simpl in *.
    destruct (delete_folder_changes_folder _ _ _ _ _ _ _ Hch)
      as (folder & [Hk Hu]%select_folder_Some & Hrow).
    split.
    + intros k f Hf. destruct (decide (k = id)) as [->|Hne].
      * rewrite Hrow, Hk. split; [|done]. intros [= <-]. done.
      * by rewrite (delete_folder_changes_other_folders _ _ _ _ _ _ _ _ Hch).
    + intros k.
      rewrite (delete_folder_changes_notes _ _ _ _ _ _ _ k Hch).
      destruct (notes db !! k) as [n0|]; simpl; [|done]. f_equal.
      case_bool_decide as Hc; case_decide as Hd; try done.
      * by destruct Hc.
      * exfalso. apply Hc. split; [done|by right].
Qed.

Lemma endpoints_leave_other_owners_alone_witness :
  ∃ s',
    delete_folder (begin Ex2.db_f1_bob_note) "f1" true Ex.alice 50 51 = Ok s'
    ∧ notes (committed s') !! "b1" = Some (unfile_note 51 Ex2.bob_in_f1).
Proof.
  eexists. split; [reflexivity|].
  destruct (endpoints_leave_other_owners_alone Ex2.db_f1_bob_note Ex.no_files
              Ex.alice Ex.request_new_n9 Ex.clock40 Ex2.create_n5 Ex2.retitle
              [] Ex2.env70 Ex2.create_trip Ex2.rename_office Ex2.folder_env80
              "f1" true 50 51)
    as (_ & _ & _ & _ & _ & _ & _ & Hhard).
  destruct (Hhard _ eq_refl) as [_ Hnotes].
  rewrite Hnotes. reflexivity.
Defined.

(** * Referential integrity *)

Lemma folder_fk_mono db db' o :
  (∀ k, is_Some (folders db !! k) → is_Some (folders db' !! k)) →
  folder_fk db o = true → folder_fk db' o = true.
Proof.
  intros Hmono. unfold folder_fk. destruct o as [k|]; [|done].
  intros Hk%bool_decide_eq_true. apply bool_decide_eq_true. by apply Hmono.
Qed.

Lemma folder_refs_ok_write_note db k row :
  folder_refs_ok db →
  folder_fk db (Note.folder_id row) = true →
  folder_refs_ok {| notes := <[k := row]> (notes db); folders := folders db |}.
Proof.
  intros Hok Hfk j n. simpl.
  destruct (decide (j = k)) as [->|Hne].
  - rewrite lookup_insert_eq. intros [= <-]. done.
  - rewrite lookup_insert_ne by done. apply Hok.
Qed.

Lemma folder_refs_ok_write_folder db k row :
  folder_refs_ok db →
  folder_refs_ok {| notes := notes db; folders := <[k := row]> (folders db) |}.
Proof.
  intros Hok j n Hj. simpl in Hj.
  eapply folder_fk_mono; [|by eapply Hok]. simpl. intros i Hi.
  destruct (decide (i = k)) as [->|Hne].
  - by rewrite lookup_insert_eq.
  - by rewrite lookup_insert_ne.
Qed.

Lemma sync_notes_loop_refs_ok user t d st l st' :
  sync_notes_loop user t d st l = Ok st' →
  folder_refs_ok (np_db st) → folder_refs_ok (np_db st').
Proof.
  revert st. induction l as [|c l IH]; intros st; simpl.
  - by intros [= <-].
  - intros (st1 & Hstep & Hloop)%Result_bind_Ok Hok.
    apply (IH _ Hloop).
    apply sync_note_written in Hstep
      as [Hf [->|(row & Hn & _ & _ & _ & Hold)]]; [done|].
    assert (np_db st1
            = {| notes := <[NoteSyncItem.id c := row]> (notes (np_db st));
                 folders := folders (np_db st) |}) as ->.
    { by apply DB_eq. }
    apply folder_refs_ok_write_note; [done|].
    destruct (notes (np_db st) !! NoteSyncItem.id c) as [e|] eqn:Hk.
    + destruct Hold as (_ & _ & _ & _ & [Hsame|Hfk]); [|done].
      rewrite Hsame. by eapply Hok.
    + by destruct Hold as (_ & _ & ?).
Qed.

Lemma sync_folders_loop_refs_ok user d db l db' :
  sync_folders_loop user d db l = Ok db' →
  folder_refs_ok db → folder_refs_ok db'.
Proof.
  revert db. induction l as [|c l IH]; intros db; simpl.
  - by intros [= <-].
  - intros (db1 & Hstep & Hloop)%Result_bind_Ok Hok.
    apply (IH _ Hloop).
    apply sync_folder_writes in Hstep as [->|(row & ->)]; [done|].
    by apply folder_refs_ok_write_folder.
Qed.

Lemma delete_folder_changes_refs_ok db folder_id hard_delete user now
    onupdate_now db' :
  delete_folder_changes db folder_id hard_delete user now onupdate_now = Ok db' →
  folder_refs_ok db → folder_refs_ok db'.
Proof.
  intros Hch Hok k n'.
  rewrite (delete_folder_changes_notes _ _ _ _ _ _ _ k Hch).
  destruct (notes db !! k) as [n|] eqn:Hk; simpl; [|done].
  intros [= <-]. case_bool_decide as Hc; [done|].
  pose proof (Hok k n Hk) as Hfk. unfold folder_fk in *.
  destruct (Note.folder_id n) as [f|] eqn:Hf; [|done].
  apply bool_decide_eq_true in Hfk. apply bool_decide_eq_true.
  destruct (decide (f = folder_id)) as [->|Hne].
  - destruct (delete_folder_changes_folder _ _ _ _ _ _ _ Hch)
      as (folder & Hsel & Hrow).
    rewrite Hrow. destruct hard_delete; [|done].
    exfalso. apply Hc. split; [done|by right].
  - by rewrite (delete_folder_changes_other_folders _ _ _ _ _ _ _ _ Hch).
Qed.

(** X15.  No endpoint leaves a note that names a folder which is not
    stored.  When every stored note names no folder or a stored one, the
    same holds of what is stored after a call of [sync_data], whatever it
    answers, and after a call that succeeds of [create_note],
    [update_note], [delete_note], [create_folder], [update_folder] or
    [delete_folder]. *)
Theorem endpoints_keep_folder_references
    (db : DB) (fs : FileSystem) (user : string)
    (sync_request : SyncRequest.t) (clock : Clock)
    (note_data : NoteCreate.t) (note_update : NoteUpdate.t)
    (tasks : list IndexTask) (env : NoteEnv)
    (folder_data : FolderCreate.t) (folder_update : FolderUpdate.t)
    (folder_env : FolderEnv) (id : string) (hard_delete : bool)
    (now onupdate_now : datetime) :
  folder_refs_ok db →
  folder_refs_ok (stored (sync_data db fs user sync_request clock))
  ∧ (∀ db' tasks' note,
       NotesRouter.create_note db note_data tasks user env
       = Ok (db', tasks', note) →
       folder_refs_ok db')
  ∧ (∀ db' tasks' row,
       NotesRouter.update_note db id note_update tasks user now onupdate_now
       = Ok (db', tasks', row) →
       folder_refs_ok db')
  ∧ (∀ db' fs',
       NotesRouter.delete_note db fs id hard_delete user now onupdate_now
       = Ok (db', fs') →
       folder_refs_ok db')
  ∧ (∀ db' folder,
       FoldersRouter.create_folder db folder_data user folder_env
       = Ok (db', folder) →
       folder_refs_ok db')
  ∧ (∀ db' row,
       FoldersRouter.update_folder db id folder_update user onupdate_now
       = Ok (db', row) →
       folder_refs_ok db')
  ∧ (∀ s',
       delete_folder (begin db) id hard_delete user now onupdate_now = Ok s' →
       folder_refs_ok (committed s')).
Proof.
  intros Hok. split_and!.
  - unfold sync_data.
    destruct (sync_notes (begin db) fs user _ _ _ _ _) as [nr|e] eqn:Hn1;
      [|done].
    apply sync_notes_Ok in Hn1 as (st & Hloop & ->). simpl.
    pose proof (sync_notes_loop_refs_ok _ _ _ _ _ _ Hloop Hok) as Hok1.
    destruct (sync_folders _ user _ _ _) as [fr|e] eqn:Hf1; [|done].
    apply sync_folders_Ok in Hf1 as (dbf & Hfloop & ->). simpl in *.
    by eapply sync_folders_loop_refs_ok.
  - intros db' tasks' note (Hnote & _ & Hfk & -> & _)%create_note_Ok.
    by apply folder_refs_ok_write_note.
  - intros db' tasks' row
      (old & [Hk Hu]%select_note_Some & -> & Hfk & -> & _)%update_note_handler_Ok.
    apply folder_refs_ok_write_note; [done|].
    destruct (flushed_note_columns old
                (NotesRouter.assign_note_data old note_update now)
                onupdate_now) as (_ & _ & -> & _).
    destruct Hfk as [->|Hfk]; [|done]. by eapply Hok.
  - intros db' fs' (old & [Hk Hu]%select_note_Some & Hres)%delete_note_Ok.
    destruct hard_delete; destruct Hres as [-> _].
    + intros j n Hj. simpl in Hj.
      apply lookup_delete_Some in Hj as [_ Hj]. by eapply Hok.
    + apply folder_refs_ok_write_note; [done|].
      destruct (flushed_note_columns old
                  (NotesRouter.soft_delete_note old now) onupdate_now)
        as (_ & _ & -> & _).
      simpl. by eapply Hok.
  - intros db' folder (_ & _ & ->)%create_folder_Ok.
    by apply folder_refs_ok_write_folder.
  - intros db' row (old & _ & _ & ->)%update_folder_handler_Ok.
    by apply folder_refs_ok_write_folder.
  - intros s' (db' & Hch & ->)%delete_folder_Ok. simpl in *.
    by eapply delete_folder_changes_refs_ok.
Qed.

Lemma endpoints_keep_folder_references_witness :
  folder_refs_ok (stored (sync_data Ex.db_filed Ex.no_files Ex.alice
                            Ex.request_new_f9 Ex.clock40))
  ∧ ∃ s', delete_folder (begin Ex.db_filed) "f1" true Ex.alice 50 51 = Ok s'
          ∧ folder_refs_ok (committed s').
Proof.
  assert (folder_refs_ok Ex.db_filed) as Hok.
  { intros k n Hk.
    destruct (decide (k = "a"%string)) as [->|Ha];
      [injection Hk as <-; reflexivity|].
    destruct (decide (k = "b"%string)) as [->|Hb];
      [injection Hk as <-; reflexivity|].
    unfold Ex.db_filed in Hk. simpl in Hk.
    rewrite lookup_insert_ne, lookup_singleton_ne in Hk by done. done. }
  destruct (endpoints_keep_folder_references Ex.db_filed Ex.no_files Ex.alice
              Ex.request_new_f9 Ex.clock40 Ex2.create_n5 Ex2.retitle
              [] Ex2.env70 Ex2.create_trip Ex2.rename_office Ex2.folder_env80
              "f1" true 50 51 Hok)
    as (Hsync & _ & _ & _ & _ & _ & Hdel).
  split; [exact Hsync|]. eexists. split; [reflexivity|]. by apply Hdel.
Defined.

(** * Listings *)

Lemma date_desc_total : Total date_desc.
Proof. intros a b. unfold date_desc. lia. Qed.

Lemma date_desc_trans : Transitive date_desc.
Proof. intros a b c. unfold date_desc. lia. Qed.

Lemma created_at_asc_total : Total created_at_asc.
Proof. intros a b. unfold created_at_asc. lia. Qed.

Lemma created_at_asc_trans : Transitive created_at_asc.
Proof. intros a b c. unfold created_at_asc. lia. Qed.

(** X16.  [list_notes] answers with exactly the stored notes of the
    caller, those that are deleted only when [include_deleted] is set, and
    only those of the folder when [folder_id] is given; without
    [folder_id] the notes of every folder and of none are listed.
    [list_folders] answers with exactly the stored folders of the caller,
    the deleted ones only when [include_deleted] is set.  The notes come
    from the latest [date] to the earliest, the folders from the earliest
    [created_at] to the latest.  With [include_deleted] and no [folder_id]
    the listings hold, up to their order, the rows that a synchronisation
    without a checkpoint returns. *)
Theorem listings_are_sorted_selections
    (db : DB) (include_deleted : bool) (folder_id : option string)
    (user : string) :
  StronglySorted date_desc
    (NotesRouter.list_notes db include_deleted folder_id user)
  ∧ (∀ n, n ∈ NotesRouter.list_notes db include_deleted folder_id user
          ↔ (∃ k, notes db !! k = Some n)
            ∧ Note.user_id n = user
            ∧ (include_deleted = false → Note.is_deleted n = false)
            ∧ (∀ f, folder_id = Some f → Note.folder_id n = Some f))
  ∧ StronglySorted created_at_asc
      (FoldersRouter.list_folders db include_deleted user)
  ∧ (∀ f, f ∈ FoldersRouter.list_folders db include_deleted user
          ↔ (∃ k, folders db !! k = Some f)
            ∧ Folder.user_id f = user
            ∧ (include_deleted = false → Folder.is_deleted f = false))
  ∧ NotesRouter.list_notes db true None user
    ≡ₚ select_server_notes db user None
  ∧ FoldersRouter.list_folders db true user
    ≡ₚ select_server_folders db user None.
Proof.
  pose proof date_desc_total. pose proof date_desc_trans.
  pose proof created_at_asc_total. pose proof created_at_asc_trans.
  split_and!.
  - apply StronglySorted_merge_sort; done.
  - intros n. apply elem_of_list_notes.
  - apply StronglySorted_merge_sort; done.
  - intros f. apply elem_of_list_folders.
  - rewrite list_notes_Permutation. unfold select_server_notes.
    apply reflexive_eq, list_filter_iff. intros n.
    unfold NotesRouter.listed. by rewrite !andb_true_r.
  - rewrite list_folders_Permutation. unfold select_server_folders.
    apply reflexive_eq, list_filter_iff. intros f.
    unfold FoldersRouter.listed. by rewrite !andb_true_r.
Qed.

(** * Deleting a folder, and the synchronisation that follows *)

(** X17.  What [delete_folder] leaves for the next synchronisation.  Each
    note of the caller that was in the folder is stored out of it, dated
    by the clock of the store and otherwise as it was, and a
    synchronisation from an earlier checkpoint returns it; the notes that
    were not in the folder and the other folders are as they were.
    Without [hard_delete] the folder is stored as a tombstone with its
    name and colour, and, when the clock of the store is not behind the
    time of the call, a synchronisation from a checkpoint earlier than the
    call returns it.  With [hard_delete] no row is left, and the folders
    loop takes an entry for the id that is not a deletion as a new folder,
    however old the entry is. *)
Theorem deleted_folder_and_next_sync
    (db : DB) (folder_id : string) (hard_delete : bool) (user : string)
    (now onupdate_now : datetime) (s' : Session) :
  delete_folder (begin db) folder_id hard_delete user now onupdate_now
  = Ok s' →
  (∀ k n, notes db !! k = Some n → Note.user_id n = user →
          Note.folder_id n = Some folder_id →
          notes (committed s') !! k = Some (unfile_note onupdate_now n)
          ∧ ∀ checkpoint, checkpoint < onupdate_now →
              unfile_note onupdate_now n
              ∈ select_server_notes (committed s') user (Some checkpoint))
  ∧ (∀ k n, notes db !! k = Some n → Note.folder_id n ≠ Some folder_id →
            notes (committed s') !! k = Some n)
  ∧ (∀ k, k ≠ folder_id → folders (committed s') !! k = folders db !! k)
  ∧ (hard_delete = false →
     ∃ old row,
       select_folder db folder_id user = Some old
       ∧ folders (committed s') !! folder_id = Some row
       ∧ Folder.is_deleted row = true
       ∧ Folder.name row = Folder.name old
       ∧ Folder.color row = Folder.color old
       ∧ (now ≤ onupdate_now →
          ∀ checkpoint, checkpoint < now →
            row ∈ select_server_folders (committed s') user
                    (Some checkpoint)))
  ∧ (hard_delete = true →
     folders (committed s') !! folder_id = None
     ∧ ∀ c default_now,
         FolderSyncItem.id c = folder_id →
         FolderSyncItem.is_deleted c = false →
         ∃ db2, sync_folder user default_now (committed s') c = Ok db2
                ∧ folders db2 !! folder_id
                  = Some (new_folder user c default_now)).
Proof.
  intros (db' & Hch & ->)%delete_folder_Ok. simpl in *.
  destruct (delete_folder_changes_folder _ _ _ _ _ _ _ Hch)
    as (old & Hsel & Hrow).
  split_and!.
  - intros k n Hk Hu Hf.
    assert (notes db' !! k = Some (unfile_note onupdate_now n)) as Hk'.
    { rewrite (delete_folder_changes_notes _ _ _ _ _ _ _ k Hch), Hk. simpl.
      rewrite bool_decide_eq_true_2; [done|]. split; [done|by left]. }
    split; [done|]. intros checkpoint Hcp.
    apply elem_of_select_server_notes. split; [by exists k|].
    split; [done|]. left. simpl. lia.
  - intros k n Hk Hf.
    rewrite (delete_folder_changes_notes _ _ _ _ _ _ _ k Hch), Hk. simpl.
    rewrite bool_decide_eq_false_2; [done|]. by intros [? _].
  - intros k Hne.
    by apply (delete_folder_changes_other_folders _ _ _ _ _ _ _ _ Hch).
  - intros ->. eexists old, _. split; [done|]. split; [exact Hrow|].
    destruct (flushed_folder_soft_delete old now onupdate_now)
      as (_ & Hu & Hname & Hcolor & _ & Hdeleted & Hdate).
    split_and!; try done.
    intros Hclock checkpoint Hcp. apply elem_of_select_server_folders.
    split; [by exists folder_id|]. split.
    + rewrite Hu. by apply select_folder_Some in Hsel as [_ ?].
    + rewrite Hdate. case_bool_decide; lia.
  - intros ->. split; [done|].
    intros c default_now Hid Hlive.
    unfold sync_folder, select_folder. rewrite Hid, Hrow, Hlive.
    unfold insert_folder. simpl. rewrite Hid, Hrow.
    rewrite bool_decide_eq_false_2 by by intros [? ?].
    eexists. split; [done|]. simpl. by rewrite lookup_insert_eq.
Qed.

Lemma deleted_folder_and_next_sync_witness :
  ∃ s',
    delete_folder (begin Ex.db_filed) "f1" false Ex.alice 50 51 = Ok s'
    ∧ unfile_note 51 (Ex.filed "b" true)
      ∈ select_server_notes (committed s') Ex.alice (Some 40)
    ∧ ∃ row, folders (committed s') !! "f1" = Some row
             ∧ row ∈ select_server_folders (committed s') Ex.alice (Some 40).
Proof.
  eexists. split; [reflexivity|].
  destruct (deleted_folder_and_next_sync Ex.db_filed "f1" false Ex.alice
              50 51 _ eq_refl) as (Hnotes & _ & _ & Hsoft & _).
  split.
  - destruct (Hnotes "b"%string (Ex.filed "b" true) eq_refl eq_refl eq_refl)
      as [_ Hdelta].
    apply Hdelta. lia.
  - destruct (Hsoft eq_refl) as (old & row & _ & Hrow & _ & _ & _ & Hdelta).
    exists row. split; [exact Hrow|]. apply Hdelta; lia.
Defined.

(** * Indexing again *)

Lemma elem_of_reindex_all_notes db task :
  task ∈ reindex_all_notes db
  ↔ ∃ k note, notes db !! k = Some note
              ∧ Note.is_deleted note = false
              ∧ Py.truthy (Note.content note) = true
              ∧ task = index_task (Note.user_id note) note.
Proof.
  unfold reindex_all_notes. rewrite list_elem_of_omap. split.
  - intros (note & [Hlive (k & Hk)%elem_of_scalars_all]%list_elem_of_filter
            & Htask).
    exists k, note. split; [done|].
    destruct (Note.is_deleted note); [done|].
    destruct (Py.truthy (Note.content note)); [|done].
    injection Htask as <-. done.
  - intros (k & note & Hk & Hlive & Hc & ->).
    exists note. split.
    + apply list_elem_of_filter. split; [by rewrite Hlive|].
      apply elem_of_scalars_all. by exists k.
    + by rewrite Hc.
Qed.

(** X18.  [reindex_all_notes] indexes the stored notes of every owner
    that are not deleted and whose content is not empty, each for its
    owner and with the title [Untitled] when it has none, and no other
    note.  Run on what a call of [sync_data] has stored, it indexes again,
    with the same arguments, each note for which that call queued a task,
    unless the note is stored as deleted. *)
Theorem reindex_covers_sync_tasks
    (db : DB) (fs : FileSystem) (user : string)
    (sync_request : SyncRequest.t) (clock : Clock) :
  (∀ task,
     task ∈ reindex_all_notes db
     ↔ ∃ k note, notes db !! k = Some note
                 ∧ Note.is_deleted note = false
                 ∧ Py.truthy (Note.content note) = true
                 ∧ task = {| task_note_id := Note.id note;
                             task_text := Note.content note;
                             task_user_id := Note.user_id note;
                             task_title :=
                               Py.or_else (Note.title note) Untitled |})
  ∧ (∀ task,
       task ∈ out_tasks (sync_data db fs user sync_request clock) →
       task ∈ reindex_all_notes
                (stored (sync_data db fs user sync_request clock))
       ∨ ∃ k note,
           notes (stored (sync_data db fs user sync_request clock)) !! k
           = Some note
           ∧ Note.is_deleted note = true
           ∧ task = index_task user note).
Proof.
  split.
  - intros task. apply elem_of_reindex_all_notes.
  - intros task (k & note & _ & Hk & Hu & Hc & ->)%sync_data_task.
    destruct (Note.is_deleted note) eqn:Hdel.
    + right. by exists k, note.
    + left. apply elem_of_reindex_all_notes. exists k, note.
      by rewrite Hu.
Qed.

(** * A note and its folder in one request *)

Lemma sync_note_refused user t d st c f :
  note_entry_accepted user st c →
  NoteSyncItem.folder_id c = Some f →
  folders (np_db st) !! f = None →
  (∀ e, select_note (np_db st) (NoteSyncItem.id c) user = Some e →
        Note.folder_id e ≠ Some f) →
  sync_note user t d st c = Err IntegrityError.
Proof.
  unfold note_entry_accepted, sync_note. intros Hacc Hf Hnone Hold.
  assert (folder_fk (np_db st) (Some f) = false) as Hfk.
  { simpl. apply bool_decide_eq_false. rewrite Hnone. by intros [? ?]. }
  destruct (select_note (np_db st) (NoteSyncItem.id c) user) as [e|] eqn:Hsel.
  - apply gtb_gt in Hacc. rewrite Hacc.
    assert (∀ row, Note.folder_id row = Some f →
              update_note (np_db st) (NoteSyncItem.id c) e row
              = Err IntegrityError) as Hup.
    { intros row Hrow. unfold update_note. rewrite Hrow, Hfk.
      rewrite bool_decide_eq_false_2; [done|].
      intros Heq. by apply (Hold e). }
    destruct (NoteSyncItem.is_deleted c).
    + rewrite remove_media_removes.
      destruct (media_removed _ _); simpl; by rewrite Hup.
    + by rewrite Hup.
  - rewrite Hacc. unfold insert_note. simpl. rewrite Hf, Hfk.
    by destruct (bool_decide _).
Qed.

Lemma sync_notes_loop_refused user t d st l c f :
  NoDup (NoteSyncItem.id <$> l) →
  c ∈ l →
  note_entry_accepted user st c →
  NoteSyncItem.folder_id c = Some f →
  folders (np_db st) !! f = None →
  (∀ e, select_note (np_db st) (NoteSyncItem.id c) user = Some e →
        Note.folder_id e ≠ Some f) →
  ∃ e, sync_notes_loop user t d st l = Err e.
Proof.
  revert st. induction l as [|c' l IH]; intros st Hnd Hin Hacc Hf Hnone Hold.
  { by apply elem_of_nil in Hin. }
  simpl. rewrite fmap_cons in Hnd. apply NoDup_cons in Hnd as [Hfresh Hnd].
  destruct (sync_note user t d st c') as [st1|e1] eqn:Hstep; simpl;
    [|by exists e1].
  apply elem_of_cons in Hin as [<-|Hin].
  { by rewrite (sync_note_refused _ _ _ _ _ f) in Hstep. }
  assert (NoteSyncItem.id c ≠ NoteSyncItem.id c') as Hne.
  { intros Heq. apply Hfresh. rewrite <- Heq.
    by apply list_elem_of_fmap_2. }
  pose proof (sync_note_frame _ _ _ _ _ _ _ Hstep Hne) as Hframe.
  pose proof (sync_note_cases _ _ _ _ _ _ Hstep) as [Hfolders _].
  assert (select_note (np_db st1) (NoteSyncItem.id c) user
          = select_note (np_db st) (NoteSyncItem.id c) user) as Hsel
    by by apply select_note_ext.
  apply IH; try done.
  - unfold note_entry_accepted in *. by rewrite Hsel.
  - by rewrite Hfolders.
  - by rewrite Hsel.
Qed.

(** X19.  The notes are synchronised before the folders, and the folder
    of a note must be stored when the note is written.  So a request
    whose batch, of notes with distinct ids, holds an entry that the loop
    accepts and that puts its note into a folder which is not stored is
    refused as a whole, also when the request brings that folder: the
    answer is the [IntegrityError] of the store, nothing is stored and no
    indexing task is queued. *)
Theorem note_filed_in_folder_of_same_request_is_refused
    (db : DB) (fs : FileSystem) (user : string)
    (sync_request : SyncRequest.t) (clock : Clock)
    (c : NoteSyncItem.t) (f : string) :
  NoDup (NoteSyncItem.id <$> SyncRequest.notes sync_request) →
  c ∈ SyncRequest.notes sync_request →
  note_entry_accepted user (notes_pass_start (begin db) fs) c →
  NoteSyncItem.folder_id c = Some f →
  folders db !! f = None →
  (∀ e, select_note db (NoteSyncItem.id c) user = Some e →
        Note.folder_id e ≠ Some f) →
  response (sync_data db fs user sync_request clock) = Err IntegrityError
  ∧ stored (sync_data db fs user sync_request clock) = db
  ∧ out_tasks (sync_data db fs user sync_request clock) = [].
Proof.
  intros Hnd Hin Hacc Hf Hnone Hold.
  destruct (sync_notes_loop_refused user (notes_sync_time clock)
              (notes_default_now clock) (notes_pass_start (begin db) fs)
              _ c f Hnd Hin Hacc Hf Hnone Hold) as [e Hloop].
  pose proof (sync_notes_loop_Err_kind _ _ _ _ _ _ Hloop) as ->.
  unfold sync_data, sync_notes.
  unfold notes_pass_start in Hloop. rewrite Hloop. done.
Qed.

Lemma note_filed_in_folder_of_same_request_is_refused_witness :
  response (sync_data Ex.empty_db Ex.no_files Ex.alice
              Ex2.request_note_in_new_folder Ex.clock40)
  = Err IntegrityError
  ∧ stored (sync_data Ex.empty_db Ex.no_files Ex.alice
              Ex2.request_note_in_new_folder Ex.clock40)
    = Ex.empty_db.
Proof.
  destruct (note_filed_in_folder_of_same_request_is_refused Ex.empty_db
              Ex.no_files Ex.alice Ex2.request_note_in_new_folder Ex.clock40
              Ex2.c9_in_f9 "f9") as (Hresp & Hstored & _).
  - simpl. apply NoDup_singleton.
  - simpl. apply list_elem_of_singleton. reflexivity.
  - reflexivity.
  - reflexivity.
  - reflexivity.
  - intros e He. discriminate He.
  - split; [exact Hresp|exact Hstored].
Defined.

(** * The files that a synchronisation removes *)

Lemma remove_audio_remove_media fs note :
  NotesRouter.remove_audio fs note = (remove_media fs note).2.
Proof.
  unfold NotesRouter.remove_audio, remove_media.
  by repeat case_match.
Qed.

Lemma sync_notes_loop_files user t d st l st' :
  sync_notes_loop user t d st l = Ok st' →
  unremovable (np_fs st') = unremovable (np_fs st)
  ∧ (∀ p, p ∈ files (np_fs st') → p ∈ files (np_fs st))
  ∧ (∀ p, p ∈ files (np_fs st) → p ∉ files (np_fs st') →
          ∃ c, c ∈ l ∧ NoteSyncItem.is_deleted c = true
               ∧ NoteSyncItem.audio_path c = Some p).
Proof.
  revert st. induction l as [|c l IH]; intros st; simpl.
  - intros [= <-]. split_and!; try done.
  - intros (st1 & Hstep & Hloop)%Result_bind_Ok.
    destruct (IH _ Hloop) as (Hun & Hsub & Hcause).
    apply sync_note_effect in Hstep as (eff & -> & Hfile).
    unfold apply_effect in *. simpl in *.
    destruct (e_file eff) as [q|] eqn:Hq; simpl in *.
    + pose proof (Hfile q eq_refl) as Hmedia.
      assert (NoteSyncItem.is_deleted c = true
              ∧ NoteSyncItem.audio_path c = Some q) as [Hdel Hpath].
      { unfold media_to_remove in Hmedia.
        destruct (NoteSyncItem.is_deleted c); [|done].
        destruct (NoteSyncItem.audio_path c) as [q'|]; [|done].
        destruct (Py.truthy q'); by simplify_eq. }
      split_and!.
      * done.
      * intros p Hp. apply Hsub in Hp.
        by apply elem_of_difference in Hp as [? _].
      * intros p Hp Hgone. destruct (decide (p = q)) as [->|Hne].
        -- exists c. split; [apply elem_of_cons; by left|done].
        -- destruct (Hcause p) as (c' & Hin & Hc'); [|done|].
           { apply elem_of_difference. split; [done|].
             by rewrite elem_of_singleton. }
           exists c'. split; [apply elem_of_cons; by right|done].
    + split_and!; try done.
      intros p Hp Hgone. destruct (Hcause p Hp Hgone) as (c' & Hin & Hc').
      exists c'. split; [apply elem_of_cons; by right|done].
Qed.

(** X20.  The file that the synchronisation removes for a deletion is the
    one that the entry names, not the recording that is stored.  When the
    loop accepts a deletion of a note that the caller has, exactly the
    path of the entry is removed, if it is there and can be removed, and
    the stored recording of the note stays among the files when the entry
    names another path.  Over a whole call of [sync_data], no file is
    added, and every file that has gone is named as [audio_path] by a
    deletion in the batch. *)
Theorem sync_removes_the_path_that_the_entry_names
    (user : string) (sync_time default_now : datetime)
    (st st' : NotesPass) (c : NoteSyncItem.t) (e : Note.t)
    (db : DB) (fs fs' : FileSystem) (sync_request : SyncRequest.t)
    (clock : Clock) :
  (select_note (np_db st) (NoteSyncItem.id c) user = Some e →
   NoteSyncItem.updated_at c > Note.updated_at e →
   NoteSyncItem.is_deleted c = true →
   sync_note user sync_time default_now st c = Ok st' →
   (∀ p, p ∈ files (np_fs st')
         ↔ p ∈ files (np_fs st)
           ∧ ¬ (NoteSyncItem.audio_path c = Some p ∧ p ≠ EmptyString
                ∧ p ∉ unremovable (np_fs st)))
   ∧ (∀ q, Note.audio_path e = Some q →
           NoteSyncItem.audio_path c ≠ Some q →
           q ∈ files (np_fs st) → q ∈ files (np_fs st')))
  ∧ (out_fs (sync_data db fs user sync_request clock) = Some fs' →
     unremovable fs' = unremovable fs
     ∧ (∀ p, p ∈ files fs' → p ∈ files fs)
     ∧ (∀ p, p ∈ files fs → p ∉ files fs' →
             ∃ c', c' ∈ SyncRequest.notes sync_request
                   ∧ NoteSyncItem.is_deleted c' = true
                   ∧ NoteSyncItem.audio_path c' = Some p)).
Proof.
  split.
  - intros Hsel Hgt Hdel. unfold sync_note. rewrite Hsel.
    apply gtb_gt in Hgt. rewrite Hgt, Hdel.
    destruct (remove_media (np_fs st) (assign_client_note e c sync_time))
      as [cleaned fs1] eqn:Hrm.
    intros (db1 & _ & [= <-])%Result_bind_Ok. simpl.
    assert (fs1 = NotesRouter.remove_audio (np_fs st)
                    (assign_client_note e c sync_time)) as ->.
    { by rewrite remove_audio_remove_media, Hrm. }
    assert (∀ p, p ∈ files (NotesRouter.remove_audio (np_fs st)
                              (assign_client_note e c sync_time))
                 ↔ p ∈ files (np_fs st)
                   ∧ ¬ (NoteSyncItem.audio_path c = Some p ∧ p ≠ EmptyString
                        ∧ p ∉ unremovable (np_fs st))) as Hfiles.
    { intros p. apply elem_of_remove_audio. }
    split; [done|]. intros q Hq Hne Hin. apply Hfiles. split; [done|].
    by intros [? _].
  - unfold sync_data.
    destruct (sync_notes (begin db) fs user _ _ _ _ _) as [nr|err] eqn:Hn1;
      [|done].
    apply sync_notes_Ok in Hn1 as (stf & Hloop & ->).
    destruct (sync_folders _ user _ _ _) as [fr|e0]; simpl; intros [= <-];
      by apply (sync_notes_loop_files _ _ _ _ _ _ Hloop).
Qed.

Lemma sync_removes_the_path_that_the_entry_names_witness :
  ∃ st',
    sync_note Ex.alice 40 41
      {| np_db := Ex.db_n1; np_fs := Ex2.two_files; notes_to_index := [] |}
      Ex2.c1_delete_other = Ok st'
    ∧ "memo.m4a"%string ∈ files (np_fs st')
    ∧ "other.m4a"%string ∉ files (np_fs st').
Proof.
  destruct (sync_note Ex.alice 40 41
              {| np_db := Ex.db_n1; np_fs := Ex2.two_files;
                 notes_to_index := [] |} Ex2.c1_delete_other)
    as [st'|err] eqn:Hsync; [|vm_compute in Hsync; discriminate Hsync].
  exists st'. split; [reflexivity|].
  destruct (sync_removes_the_path_that_the_entry_names Ex.alice 40 41
              {| np_db := Ex.db_n1; np_fs := Ex2.two_files;
                 notes_to_index := [] |}
              st' Ex2.c1_delete_other Ex.n1 Ex.db_n1 Ex2.two_files
              Ex2.two_files Ex.request_new_n9 Ex.clock40) as [Hstep _].
  destruct Hstep as [Hfiles Hkept];
    [reflexivity|simpl; lia|reflexivity|exact Hsync|].
  split.
  - apply (Hkept "memo.m4a"%string); [reflexivity|discriminate|].
    simpl. apply elem_of_union. left. by apply elem_of_singleton.
  - rewrite Hfiles. intros [_ Hno]. apply Hno.
    split; [reflexivity|]. split; [discriminate|].
    simpl. apply not_elem_of_empty.
Defined.

(** * From one device to the next *)

Lemma sync_note_accepted_row user t d st c st' :
  sync_note user t d st c = Ok st' →
  note_entry_accepted user st c →
  ∃ row, notes (np_db st') !! NoteSyncItem.id c = Some row
    ∧ Note.user_id row = user
    ∧ note_holds_client_payload_but_audio row c
    ∧ Note.synced_at row = Some t.
Proof.
  unfold note_entry_accepted.
  destruct (select_note (np_db st) (NoteSyncItem.id c) user) as [e|] eqn:Hsel.
  - intros Hstep Hgt.
    pose proof (sync_note_existing _ _ _ _ _ _ _ Hsel Hstep) as Hrow.
    apply gtb_gt in Hgt. rewrite Hgt in Hrow.
    apply select_note_Some in Hsel as [_ Hu].
    eexists. split; [exact Hrow|].
    unfold note_holds_client_payload_but_audio.
    by destruct (_ && _).
  - intros Hstep Hdel. unfold sync_note in Hstep.
    rewrite Hsel, Hdel in Hstep.
    apply Result_bind_Ok in Hstep as (db' & Hins & [= <-]).
    apply insert_note_Ok in Hins as (_ & Hins & _). simpl in *.
    rewrite Hins, lookup_insert_eq. eexists. split; [done|].
    unfold note_holds_client_payload_but_audio. done.
Qed.

Lemma sync_data_stores_pushed_note db fs user sync_request clock r
    before c after :
  SyncRequest.notes sync_request = before ++ c :: after →
  NoteSyncItem.id c ∉ NoteSyncItem.id <$> before ++ after →
  note_entry_accepted user (notes_pass_start (begin db) fs) c →
  response (sync_data db fs user sync_request clock) = Ok r →
  ∃ row,
    notes (stored (sync_data db fs user sync_request clock))
      !! NoteSyncItem.id c = Some row
    ∧ Note.user_id row = user
    ∧ note_holds_client_payload_but_audio row c
    ∧ Note.synced_at row = Some (notes_sync_time clock).
Proof.
  intros Hbatch Hid Hacc. unfold sync_data.
  destruct (sync_notes (begin db) fs user _ _ _ _ _) as [nr|e] eqn:Hn1;
    [|done].
  apply sync_notes_Ok in Hn1 as (st & Hloop & ->). simpl.
  destruct (sync_folders _ user _ _ _) as [fr|e] eqn:Hf1; [|done].
  apply sync_folders_Ok in Hf1 as (dbf & Hfloop & ->). simpl in *.
  intros _. rewrite (sync_folders_loop_notes _ _ _ _ _ Hfloop).
  rewrite Hbatch, sync_notes_loop_app in Hloop.
  apply Result_bind_Ok in Hloop as (st1 & Hbefore & Hrest). simpl in Hrest.
  apply Result_bind_Ok in Hrest as (st2 & Hstep & Hafter).
  rewrite fmap_app in Hid. apply not_elem_of_app in Hid as [Hid1 Hid2].
  assert (note_entry_accepted user st1 c) as Hacc1.
  { unfold note_entry_accepted in *.
    by rewrite (select_note_ext _ (np_db (notes_pass_start (begin db) fs)))
      by (by eapply sync_notes_loop_frame). }
  destruct (sync_note_accepted_row _ _ _ _ _ _ Hstep Hacc1)
    as (row & Hrow & Hprops).
  exists row. split; [|done].
  by rewrite (sync_notes_loop_frame _ _ _ _ _ _ _ Hafter Hid2).
Qed.

Lemma sync_data_returns_untouched_note db fs user sync_request clock r k row :
  response (sync_data db fs user sync_request clock) = Ok r →
  notes db !! k = Some row →
  k ∉ NoteSyncItem.id <$> SyncRequest.notes sync_request →
  row ∈ select_server_notes db user (SyncRequest.last_sync_at sync_request) →
  notes (stored (sync_data db fs user sync_request clock)) !! k = Some row
  ∧ row ∈ SyncResponse.notes r.
Proof.
  unfold sync_data.
  destruct (sync_notes (begin db) fs user _ _ _ _ _) as [nr|e] eqn:Hn1;
    [|done].
  apply sync_notes_Ok in Hn1 as (st & Hloop & ->). simpl.
  destruct (sync_folders _ user _ _ _) as [fr|e] eqn:Hf1; [|done].
  apply sync_folders_Ok in Hf1 as (dbf & Hfloop & ->). simpl in *.
  intros [= <-] Hk Hid Hin. simpl.
  rewrite (sync_folders_loop_notes _ _ _ _ _ Hfloop).
  pose proof (sync_notes_loop_frame _ _ _ _ _ _ _ Hloop Hid) as Hframe.
  simpl in Hframe. rewrite Hk in Hframe. split; [done|].
  apply elem_of_select_server_notes.
  apply elem_of_select_server_notes in Hin as (_ & Hu & Hcp).
  split; [by exists k|done].
Qed.

(** X21.  What one device pushes, the next device pulls.  When a call of
    [sync_data] succeeds, its batch has one entry for an id, and the entry
    is accepted (the caller has no row of the id and the entry is no
    deletion, or the entry is newer than the row), then a later successful
    call of the same user, whose batch has no entry for the id and whose
    checkpoint is absent or earlier than the sync time of the first call,
    returns the row of the id; the row holds the entry's fields and the
    first call's sync time.  The checkpoint is compared with the server's
    time of the first call, so the note arrives however old the entry's
    own time is. *)
Theorem pushed_note_is_pulled_by_the_next_device
    (db : DB) (fs fs2 : FileSystem) (user : string)
    (pushing pulling : SyncRequest.t) (clock clock2 : Clock)
    (before after : list NoteSyncItem.t) (c : NoteSyncItem.t)
    (r r2 : SyncResponse.t) :
  SyncRequest.notes pushing = before ++ c :: after →
  NoteSyncItem.id c ∉ NoteSyncItem.id <$> before ++ after →
  note_entry_accepted user (notes_pass_start (begin db) fs) c →
  response (sync_data db fs user pushing clock) = Ok r →
  NoteSyncItem.id c ∉ NoteSyncItem.id <$> SyncRequest.notes pulling →
  checkpoint_before (SyncRequest.last_sync_at pulling)
    (notes_sync_time clock) →
  response (sync_data (stored (sync_data db fs user pushing clock)) fs2 user
              pulling clock2) = Ok r2 →
  ∃ row,
    row ∈ SyncResponse.notes r2
    ∧ notes (stored (sync_data
                       (stored (sync_data db fs user pushing clock)) fs2
                       user pulling clock2)) !! NoteSyncItem.id c = Some row
    ∧ Note.user_id row = user
    ∧ note_holds_client_payload_but_audio row c
    ∧ Note.synced_at row = Some (notes_sync_time clock).
Proof.
  intros Hbatch Hid Hacc Hr Hid2 Hcp Hr2.
  destruct (sync_data_stores_pushed_note _ _ _ _ _ _ _ _ _ Hbatch Hid Hacc Hr)
    as (row & Hrow & Hu & Hpay & Hs).
  destruct (sync_data_returns_untouched_note _ _ _ _ _ _ _ _ Hr2 Hrow Hid2)
    as [Hstored Hin].
  { apply elem_of_select_server_notes.
    split; [by exists (NoteSyncItem.id c)|]. split; [done|].
    unfold checkpoint_before in Hcp.
    destruct (SyncRequest.last_sync_at pulling) as [cp|]; [|done].
    right. exists (notes_sync_time clock). split; [done|lia]. }
  by exists row.
Qed.

Lemma pushed_note_is_pulled_by_the_next_device_witness :
  ∃ row,
    row ∈ [assign_client_note Ex.n1 Ex.c1_edit 40]
    ∧ notes (stored (sync_data
                       (stored (sync_data Ex.db_n1 Ex.memo_on_disk Ex.alice
                                  Ex.request_newer_n1 Ex.clock40))
                       Ex.memo_on_disk Ex.alice Ex2.pull_since_30
                       Ex2.clock50)) !! NoteSyncItem.id Ex.c1_edit
      = Some row
    ∧ Note.user_id row = Ex.alice
    ∧ note_holds_client_payload_but_audio row Ex.c1_edit
    ∧ Note.synced_at row = Some 40.
Proof.
  apply (pushed_note_is_pulled_by_the_next_device Ex.db_n1 Ex.memo_on_disk
           Ex.memo_on_disk Ex.alice Ex.request_newer_n1 Ex2.pull_since_30
           Ex.clock40 Ex2.clock50 [] [] Ex.c1_edit
           {| SyncResponse.notes := [assign_client_note Ex.n1 Ex.c1_edit 40];
              SyncResponse.folders := [];
              SyncResponse.sync_timestamp := 43 |}
           {| SyncResponse.notes := [assign_client_note Ex.n1 Ex.c1_edit 40];
              SyncResponse.folders := [];
              SyncResponse.sync_timestamp := 53 |}).
  - reflexivity.
  - simpl. apply not_elem_of_nil.
  - vm_compute. reflexivity.
  - reflexivity.
  - simpl. apply not_elem_of_nil.
  - simpl. lia.
  - reflexivity.
Defined.

(** X22.  A call of [sync_data] whose entries are all passed over (each
    names a record of the caller that is not older than the entry, or
    deletes an id of which the caller has no record), an empty request
    among them, is a read: the tables and the files are as they were, no
    indexing task is queued, and the response is the delta of the stored
    tables with the time read for the response. *)
Theorem sync_without_news_is_a_read
    (db : DB) (fs : FileSystem) (user : string)
    (sync_request : SyncRequest.t) (clock : Clock) :
  Forall (λ c, ¬ note_entry_accepted user (notes_pass_start (begin db) fs) c)
    (SyncRequest.notes sync_request) →
  Forall (λ c, ¬ folder_entry_accepted user db c)
    (SyncRequest.folders sync_request) →
  sync_data db fs user sync_request clock
  = {| stored := db; out_fs := Some fs; out_tasks := [];
       response :=
         Ok {| SyncResponse.notes :=
                 select_server_notes db user
                   (SyncRequest.last_sync_at sync_request);
               SyncResponse.folders :=
                 select_server_folders db user
                   (SyncRequest.last_sync_at sync_request);
               SyncResponse.sync_timestamp := response_now clock |} |}.
Proof.
  intros Hnotes Hfolders. unfold sync_data, sync_notes.
  fold (notes_pass_start (begin db) fs).
  rewrite (sync_notes_loop_all_settled _ _ _ _ _ Hnotes). simpl.
  unfold sync_folders. simpl.
  rewrite (sync_folders_loop_all_settled _ _ _ _ Hfolders). simpl.
  by destruct db.
Qed.

Lemma sync_without_news_is_a_read_witness :
  sync_data Ex.db_n1 Ex.memo_on_disk Ex.alice Ex2.request_nothing_new
    Ex.clock40
  = {| stored := Ex.db_n1; out_fs := Some Ex.memo_on_disk; out_tasks := [];
       response :=
         Ok {| SyncResponse.notes :=
                 select_server_notes Ex.db_n1 Ex.alice (Some 5);
               SyncResponse.folders :=
                 select_server_folders Ex.db_n1 Ex.alice (Some 5);
               SyncResponse.sync_timestamp := 43 |} |}.
Proof.
  apply (sync_without_news_is_a_read Ex.db_n1 Ex.memo_on_disk Ex.alice
           Ex2.request_nothing_new Ex.clock40).
  - apply Forall_cons_2; [|apply Forall_nil_2].
    vm_compute. intros [=].
  - apply Forall_cons_2; [|apply Forall_nil_2].
    vm_compute. intros [=].
Defined.

(** X23.  A folder that was deleted without [hard_delete] still takes new
    notes: [create_note] of any user with the folder's id and an id that
    no note has stores the note in the tombstone, and [get_note] returns
    it.  After a deletion with [hard_delete] the same request raises
    [IntegrityError] and stores nothing. *)
Theorem deleted_folder_and_new_notes
    (db : DB) (folder_id : string) (hard_delete : bool) (user : string)
    (now onupdate_now : datetime) (s' : Session)
    (note_data : NoteCreate.t) (background_tasks : list IndexTask)
    (writer : string) (env : NoteEnv) :
  delete_folder (begin db) folder_id hard_delete user now onupdate_now
  = Ok s' →
  NoteCreate.folder_id note_data = Some folder_id →
  notes db !! id_or_default (NoteCreate.id note_data) (note_uuid4 env)
  = None →
  if hard_delete
  then NotesRouter.create_note (committed s') note_data background_tasks
         writer env = Err IntegrityError
  else ∃ db2 tasks2 note tombstone,
         NotesRouter.create_note (committed s') note_data background_tasks
           writer env = Ok (db2, tasks2, note)
         ∧ Note.folder_id note = Some folder_id
         ∧ NotesRouter.get_note db2 (Note.id note) writer = Ok note
         ∧ folders db2 !! folder_id = Some tombstone
         ∧ Folder.is_deleted tombstone = true.
Proof.
  intros (db' & Hch & ->)%delete_folder_Ok Hf Hfresh. simpl in *.
  destruct (delete_folder_changes_folder _ _ _ _ _ _ _ Hch)
    as (old & Hsel & Hrow).
  pose proof (delete_folder_changes_notes _ _ _ _ _ _ _
                (id_or_default (NoteCreate.id note_data) (note_uuid4 env))
                Hch) as Hnone.
  rewrite Hfresh in Hnone. simpl in Hnone.
  destruct hard_delete.
  - destruct (NotesRouter.create_note db' note_data background_tasks writer
                env) as [[[db2 tasks2] note]|err] eqn:Hcreate.
    + apply create_note_Ok in Hcreate as (-> & _ & Hfk & _).
      simpl in Hfk. rewrite Hf in Hfk. simpl in Hfk.
      rewrite Hrow in Hfk. apply bool_decide_eq_true_1 in Hfk.
      by destruct Hfk.
    + unfold NotesRouter.create_note in Hcreate. cbv zeta in Hcreate.
      destruct (insert_note db' _) as [db1|e1] eqn:Hins; [done|].
      simpl in Hcreate. injection Hcreate as <-.
      by rewrite (insert_note_Err _ _ _ Hins).
  - eexists _, _, (NotesRouter.created_note note_data writer env), _.
    split_and!.
    + apply create_note_Ok. split_and!; try done.
      simpl. rewrite Hf. simpl. rewrite Hrow.
      by apply bool_decide_eq_true_2.
    + done.
    + unfold NotesRouter.get_note, select_note. simpl.
      rewrite lookup_insert_eq. simpl. by rewrite decide_True.
    + exact Hrow.
    + by destruct (flushed_folder_soft_delete old now onupdate_now)
        as (_ & _ & _ & _ & _ & ? & _).
Qed.

Lemma deleted_folder_and_new_notes_witness :
  ∃ db2 tasks2 note tombstone,
    NotesRouter.create_note
      (committed (commit (set_working (begin Ex.db_f1)
         {| notes := ∅;
            folders := {["f1" := soft_delete_folder Ex.f1 50]} |})))
      Ex2.create_in_f1 [] Ex.bob Ex2.env70 = Ok (db2, tasks2, note)
    ∧ Note.folder_id note = Some "f1"%string
    ∧ NotesRouter.get_note db2 (Note.id note) Ex.bob = Ok note
    ∧ folders db2 !! "f1"%string = Some tombstone
    ∧ Folder.is_deleted tombstone = true.
Proof.
  apply (deleted_folder_and_new_notes Ex.db_f1 "f1" false Ex.alice 50 51 _
           Ex2.create_in_f1 [] Ex.bob Ex2.env70).
  - vm_compute. reflexivity.
  - reflexivity.
  - reflexivity.
Defined.
